(** * Precedence rules of the 1962 calendar (missal1962/kalendar/rules.py)

    A shallow embedding of the rule chain that settles, for one date, which
    observance is celebrated, which are commemorated and which are shifted
    to another date, followed by the properties proved about it. *)

From Stdlib Require Import ZArith Lia Bool String Ascii.
From Stdlib Require OrderedTypeEx.
From stdpp Require Import base tactics option list sorting gmap strings.

Local Open Scope Z_scope.

(** ** Dates: the part of [datetime.date] and [calendar] the rules use *)

Module PyDate.

Record date := Date { year : Z; month : Z; day : Z }.

#[global] Instance date_eq_dec : EqDecision date.
Proof. solve_decision. Defined.

Definition MINYEAR : Z := 1.
Definition MAXYEAR : Z := 9999.

(** [calendar.isleap] *)
Definition isleap (y : Z) : bool :=
  (y mod 4 =? 0) && (negb (y mod 100 =? 0) || (y mod 400 =? 0)).

(** [_DAYS_IN_MONTH], with February of a leap year lengthened. *)
Definition days_in_month (y m : Z) : Z :=
  if (m =? 2) && isleap y then 29
  else match m with
       | 1 => 31 | 2 => 28 | 3 => 31 | 4 => 30 | 5 => 31 | 6 => 30
       | 7 => 31 | 8 => 31 | 9 => 30 | 10 => 31 | 11 => 30 | 12 => 31
       | _ => 0
       end.

(** [_DAYS_BEFORE_MONTH], plus the leap day once February is over. *)
Definition days_before_month (y m : Z) : Z :=
  match m with
  | 1 => 0 | 2 => 31 | 3 => 59 | 4 => 90 | 5 => 120 | 6 => 151
  | 7 => 181 | 8 => 212 | 9 => 243 | 10 => 273 | 11 => 304 | 12 => 334
  | _ => 0
  end + (if (2 <? m) && isleap y then 1 else 0).

Definition days_before_year (y : Z) : Z :=
  let y' := y - 1 in y' * 365 + y' / 4 - y' / 100 + y' / 400.

(** Day of the year, 1 for January 1st. *)
Definition yday (d : date) : Z := days_before_month (year d) (month d) + day d.

Definition toordinal (d : date) : Z := days_before_year (year d) + yday d.

(** [date.weekday()]: Monday is 0 and Sunday is 6. *)
Definition weekday (d : date) : Z := (toordinal d + 6) mod 7.

(** The dates the [date] constructor accepts. *)
Definition valid (d : date) : Prop :=
  MINYEAR <= year d <= MAXYEAR /\ 1 <= month d <= 12 /\
  1 <= day d <= days_in_month (year d) (month d).

(** Dates compare as the tuples (year, month, day). *)
Definition ltb (a b : date) : bool :=
  (year a <? year b)
  || ((year a =? year b)
      && ((month a <? month b) || ((month a =? month b) && (day a <? day b)))).

Definition leb (a b : date) : bool := negb (ltb b a).

Definition lt (a b : date) : Prop := ltb a b = true.
Definition le (a b : date) : Prop := leb a b = true.

(** [d + timedelta(days=1)]; [None] stands for the [OverflowError] raised
    past December 31st of [MAXYEAR]. *)
Definition add_day (d : date) : option date :=
  if day d <? days_in_month (year d) (month d)
  then Some (Date (year d) (month d) (day d + 1))
  else if month d <? 12 then Some (Date (year d) (month d + 1) 1)
  else if year d <? MAXYEAR then Some (Date (year d + 1) 1 1)
  else None.

End PyDate.

Import PyDate.

(** ** Data model *)

Record Observance := {
  id : string;
  rank : Z;
  priority : Z;
  flexibility : string;
  date_ : date;
  lang : string
}.

#[global] Instance Observance_eq_dec : EqDecision Observance.
Proof. solve_decision. Defined.

(** All candidates of one calendar date: [tempora] holds the entries of the
    season cycle, [all] every candidate. *)
Record Day := {
  tempora : list Observance;
  all : list Observance
}.

(** Modelled from the spec: the year calendar of [kalendar.models], which is
    not in the sources at hand.  It maps each date of the year to its Day and
    is scanned in chronological order, so it is kept as an association list in
    that order. *)
Definition Calendar : Type := list (date * Day).

(** Modelled from the spec: [Calendar.get_day], a direct lookup; a date the
    calendar does not hold has no Day. *)
Definition get_day (cal : Calendar) (d : date) : option Day :=
  snd <$> List.find (fun e => bool_decide (fst e = d)) cal.

(** Modelled from the spec: [Calendar.find_day], the first date, in
    chronological order, whose Day holds a candidate with the given id,
    together with that Day; nothing when no Day does. *)
Definition find_day (cal : Calendar) (ident : string) : option (date * Day) :=
  List.find (fun e => existsb (fun o => String.eqb (id o) ident) (all (snd e))) cal.

(** ** Matching *)

(** A pattern is an id or a structural predicate on the observance. *)
Inductive pattern :=
| Id (s : string)
| Pred (p : Observance -> bool).

Definition satisfies (o : Observance) (p : pattern) : bool :=
  match p with
  | Id s => String.eqb (id o) s
  | Pred f => f o
  end.

(** Modelled from the spec: [utils.match], which is not in the sources at
    hand: the first candidate, in the order of the input, that satisfies one
    of the patterns, or nothing. *)
Definition match_ (observances : list Observance) (patterns : list pattern)
  : option Observance :=
  List.find (fun o => existsb (satisfies o) patterns) observances.

(** Truth value of a Python object that is either [None] or an instance. *)
Definition truthy {A} (x : option A) : bool :=
  match x with Some _ => true | None => false end.

(** ** Results of a rule *)

Inductive exn := AttributeError | TypeError | ValueError | OverflowError.

Inductive result (A : Type) :=
| Ok (a : A)
| Raise (e : exn)
| OutOfFuel.
Arguments Ok {A} a.
Arguments Raise {A} e.
Arguments OutOfFuel {A}.

(** Celebration, commemorations and shifts.  An entry of a list is [None]
    where the rule stores the result of a [match] that found nothing; the
    target of a shift is [None] where the search returned no date. *)
Definition Outcome : Type :=
  list (option Observance) * list (option Observance)
  * list (option date * list (option Observance)).

Definition celebration (o : Outcome) : list (option Observance) := fst (fst o).
Definition commemoration (o : Outcome) : list (option Observance) := snd (fst o).
Definition shift (o : Outcome) : list (option date * list (option Observance)) := snd o.

(** ** [sorted]: a stable sort, ascending in the key order [le] *)

Section Sorted.
Context {A : Type} (le : A -> A -> bool).

Fixpoint insert_sorted (x : A) (l : list A) : list A :=
  match l with
  | [] => [x]
  | y :: l' => if le x y then x :: y :: l' else y :: insert_sorted x l'
  end.

Definition sorted (l : list A) : list A := foldr insert_sorted [] l.

End Sorted.

(** Key of [lambda ld: ld.priority]. *)
Definition by_priority (a b : Observance) : bool := priority a <=? priority b.

(** Key of [lambda x: (x.priority, x.rank, x.flexibility)]: tuples compare
    lexicographically, strings by code point. *)
Definition by_precedence (a b : Observance) : bool :=
  (priority a <? priority b)
  || ((priority a =? priority b)
      && ((rank a <? rank b)
          || ((rank a =? rank b) && String.leb (flexibility a) (flexibility b)))).

(** ** Constants of [constants.common]

    The module is not in the sources at hand: the rules are stated over any
    choice of its ids and patterns. *)

Class Constants := {
  C_10A : string;
  C_10B : string;
  C_10C : string;
  C_10PASC : string;
  C_10T : string;
  EMBER_DAYS : list pattern;
  FEASTS_OF_JESUS_CLASS_1_AND_2 : list pattern;
  PATTERN_ADVENT : pattern;
  PATTERN_ADVENT_FERIA_BETWEEN_17_AND_23 : pattern;
  PATTERN_CLASS_1 : pattern;
  PATTERN_EASTER : pattern;
  PATTERN_SANCTI_CLASS_1_OR_2 : pattern;
  PATTERN_SANCTI_CLASS_2 : pattern;
  PATTERN_TEMPORA : pattern;
  PATTERN_TEMPORA_SUNDAY : pattern;
  PATTERN_TEMPORA_SUNDAY_CLASS_2 : pattern;
  SANCTI_01_13 : string;
  SANCTI_02_24 : string;
  SANCTI_02_27 : string;
  SANCTI_11_02_1 : string;
  SANCTI_12_08 : string;
  SANCTI_12_24 : string;
  SANCTI_12_25_1 : string;
  TEMPORA_EPI1_0 : string;
  TEMPORA_PASC0_0 : string;
  TEMPORA_QUAD6_1 : string;
  TEMPORA_QUAD6_2 : string;
  TEMPORA_QUAD6_3 : string;
  TEMPORA_QUAD6_4 : string;
  TEMPORA_QUAD6_5 : string;
  TEMPORA_QUAD6_6 : string;
  TEMPORA_QUADP3_3 : string;
  (** What the constructor [Observance(id, date, lang)] of [kalendar.models]
      derives from the id and the date. *)
  rank_of : string -> date -> Z;
  priority_of : string -> date -> Z;
  flexibility_of : string -> string
}.

(** ** The rules *)

Section Rules.
Context {K : Constants}.

(** Modelled from the spec: the constructor of [kalendar.models.Observance],
    which is not in the sources at hand.  It keeps the id, the date and the
    language it is given; rank, priority and flexibility follow from the id. *)
Definition new_Observance (i : string) (d : date) (l : string) : Observance :=
  {| id := i; rank := rank_of i d; priority := priority_of i d;
     flexibility := flexibility_of i; date_ := d; lang := l |}.

Definition rule : Type :=
  Calendar -> date -> list Observance -> list Observance -> string
  -> result (option Outcome).

Definition startswith (s p : string) : bool := String.prefix p s.

Definition rule_nativity_has_multiple_masses : rule :=
  fun calendar date_ tempora observances lang =>
  if truthy (match_ observances [Id SANCTI_12_25_1])
  then Ok (Some (Some <$> filter (fun ld => startswith (id ld) "sancti:12-25m") observances,
                 [], []))
  else Ok None.

Definition rule_all_souls : rule :=
  fun calendar date_ tempora observances lang =>
  if truthy (match_ observances [Id SANCTI_11_02_1])
  then
    let all_souls :=
      Some <$> filter (fun ld => startswith (id ld) "sancti:11-02m") observances in
    if weekday date_ =? 6
    then Ok (Some ([match_ observances [PATTERN_TEMPORA_SUNDAY]], [],
                   [(Some (Date (year date_) 11 3), all_souls)]))
    else Ok (Some (all_souls, [], []))
  else Ok None.

Definition rule_nativity : rule :=
  fun calendar date_ tempora observances lang =>
  if truthy (match_ observances [Id SANCTI_12_25_1])
  then Ok (Some (Some <$> filter (fun ld => startswith (id ld) "sancti:12-25m") observances,
                 [], []))
  else Ok None.

Definition rule_nativity_vigil : rule :=
  fun calendar date_ tempora observances lang =>
  if truthy (match_ observances [Id SANCTI_12_24]) && (weekday date_ =? 6)
  then Ok (Some ([match_ observances [Id SANCTI_12_24]], [], []))
  else Ok None.

Definition rule_immaculate_coneption : rule :=
  fun calendar date_ tempora observances lang =>
  if truthy (match_ observances [Id SANCTI_12_08]) && (weekday date_ =? 6)
  then Ok (Some ([match_ observances [Id SANCTI_12_08]], [], []))
  else Ok None.

Definition rule_st_matthias : rule :=
  fun calendar date_ tempora observances lang =>
  if truthy (match_ observances [Id SANCTI_02_24]) && isleap (year date_)
     && (day date_ =? 24)
  then Ok (Some ([match_ observances [PATTERN_TEMPORA]], [],
                 [(Some (Date (year date_) 2 25),
                   [match_ observances [Id SANCTI_02_24]])]))
  else Ok None.

Definition rule_feb27 : rule :=
  fun calendar date_ tempora observances lang =>
  if truthy (match_ observances [Id SANCTI_02_27]) && isleap (year date_)
     && (day date_ =? 27)
  then Ok (Some ([match_ observances [PATTERN_TEMPORA]], [],
                 [(Some (Date (year date_) 2 28),
                   [match_ observances [Id SANCTI_02_27]])]))
  else Ok None.

(** The inner function of [rule_bmv_office_on_saturday].  Unpacking the
    result of [find_day] raises [TypeError] when no Day was found. *)
Definition _calc_proper_for_given_period
  (calendar : Calendar) (date_ : date) (tempora : list Observance) : result string :=
  if truthy (match_ tempora [PATTERN_ADVENT]) then Ok C_10A
  else if PyDate.leb (Date (year date_) 12 25) date_
          || PyDate.ltb date_ (Date (year date_) 2 2)
  then Ok C_10B
  else match find_day calendar TEMPORA_QUAD6_3 with
       | None => Raise TypeError
       | Some (wednesday_in_holy_week, _) =>
           if PyDate.leb (Date (year date_) 2 2) date_
              && PyDate.ltb date_ wednesday_in_holy_week
           then Ok C_10C
           else if truthy (match_ tempora [PATTERN_EASTER]) then Ok C_10PASC
           else Ok C_10T
       end.

Definition rule_bmv_office_on_saturday : rule :=
  fun calendar date_ tempora observances lang =>
  if weekday date_ =? 5
  then
    let ranks : gset Z := list_to_set (rank <$> observances) in
    if bool_decide (size ranks = 0%nat)
       || (bool_decide (size ranks = 1%nat) && bool_decide (elements ranks = [4]))
    then
      match _calc_proper_for_given_period calendar date_ tempora with
      | Ok proper =>
          let bmv_office := new_Observance proper date_ lang in
          Ok (Some ([Some bmv_office],
                    Some <$> take 1 (filter (fun i => String.eqb (flexibility i) "sancti")
                                            observances),
                    []))
      | Raise e => Raise e
      | OutOfFuel => OutOfFuel
      end
    else Ok None
  else Ok None.

(** A Day is free when none of its candidates is of rank 1 or 2. *)
Definition free_day (d : Day) : bool :=
  let all_ranks : gset Z := list_to_set (rank <$> all d) in
  bool_decide (({[1; 2]} : gset Z) ∩ all_ranks = ∅).

(** The [while] loop of [_calc_target_date], entered with [target_date] and
    run for at most [fuel] tests of its condition.  [get_day] of a date the
    calendar does not hold has no [all], hence the [AttributeError]. *)
Fixpoint _calc_target_date_loop
  (calendar : Calendar) (y : Z) (fuel : nat) (target_date : date)
  : result (option date) :=
  match fuel with
  | O => OutOfFuel
  | S fuel' =>
      if year target_date =? y
      then match add_day target_date with
           | None => Raise OverflowError
           | Some target_date' =>
               match get_day calendar target_date' with
               | None => Raise AttributeError
               | Some d =>
                   if free_day d then Ok (Some target_date')
                   else _calc_target_date_loop calendar y fuel' target_date'
               end
           end
      else Ok None
  end.

(** A year has at most 366 days, and the condition is tested once more
    after the last of them. *)
Definition _calc_target_date (calendar : Calendar) (date_ : date) : result (option date) :=
  _calc_target_date_loop calendar (year date_) 367 date_.

Definition rule_shift_conflicting_1st_class_feasts : rule :=
  fun calendar date_ tempora observances lang =>
  let first_class_feasts := filter (fun ld => rank ld =? 1) observances in
  if (1 <? length first_class_feasts)%nat
  then
    match take 2 (sorted by_priority first_class_feasts) with
    | [celebration; shift_day] =>
        match _calc_target_date calendar date_ with
        | Ok target => Ok (Some ([Some celebration], [], [(target, [Some shift_day])]))
        | Raise e => Raise e
        | OutOfFuel => OutOfFuel
        end
    | _ => Raise ValueError
    end
  else Ok None.

Definition rule_lord_feast1 : rule :=
  fun calendar date_ tempora observances lang =>
  if truthy (match_ observances [Id SANCTI_01_13])
     && truthy (match_ observances [Id TEMPORA_EPI1_0])
  then Ok (Some ([match_ observances [Id TEMPORA_EPI1_0]], [], []))
  else Ok None.

Definition rule_lord_feast2 : rule :=
  fun calendar date_ tempora observances lang =>
  if truthy (match_ observances FEASTS_OF_JESUS_CLASS_1_AND_2)
     && truthy (match_ observances [PATTERN_TEMPORA_SUNDAY_CLASS_2])
  then Ok (Some ([match_ observances [PATTERN_SANCTI_CLASS_1_OR_2]], [], []))
  else Ok None.

Definition first_class_feast_no_commemoration : rule :=
  fun calendar date_ tempora observances lang =>
  if truthy (match_ observances [PATTERN_CLASS_1])
  then Ok (Some ([match_ (sorted by_priority observances) [PATTERN_CLASS_1]], [], []))
  else Ok None.

Definition rule_2nd_class_sunday : rule :=
  fun calendar date_ tempora observances lang =>
  if truthy (match_ observances [PATTERN_TEMPORA_SUNDAY_CLASS_2])
     && truthy (match_ observances [PATTERN_SANCTI_CLASS_2])
  then Ok (Some ([match_ observances [PATTERN_TEMPORA_SUNDAY_CLASS_2]],
                 [match_ observances [PATTERN_SANCTI_CLASS_2]], []))
  else Ok None.

Definition rule_1st_class_feria : rule :=
  fun calendar date_ tempora observances lang =>
  if truthy (match_ observances [Id TEMPORA_QUAD6_1;
                                 Id TEMPORA_QUAD6_2;
                                 Id TEMPORA_QUAD6_3;
                                 Id TEMPORA_QUAD6_4;
                                 Id TEMPORA_QUAD6_5;
                                 Id TEMPORA_QUAD6_6;
                                 Id TEMPORA_PASC0_0;
                                 Id TEMPORA_QUADP3_3])
  then Ok (Some ([match_ observances [PATTERN_TEMPORA]], [], []))
  else Ok None.

Definition rule_2nd_class_feast_takes_over_advent_feria_and_ember_days : rule :=
  fun calendar date_ tempora observances lang =>
  let look_for := EMBER_DAYS ++ [PATTERN_ADVENT_FERIA_BETWEEN_17_AND_23] in
  if truthy (match_ observances look_for)
     && truthy (match_ observances [PATTERN_SANCTI_CLASS_2])
  then Ok (Some ([match_ observances [PATTERN_SANCTI_CLASS_2]],
                 [match_ observances look_for], []))
  else Ok None.

Definition rule_precedence : rule :=
  fun calendar date_ tempora observances lang =>
  if (length observances =? 0)%nat then Ok (Some ([], [], []))
  else if (length observances =? 1)%nat then Ok (Some (Some <$> observances, [], []))
  else
    match take 2 (sorted by_precedence observances) with
    | [first; second] =>
        if truthy (match_ [first] [PATTERN_TEMPORA_SUNDAY])
           || ((0 <? length tempora)%nat
               && match tempora with
                  | t0 :: _ => String.eqb (id second) (id t0)
                  | [] => false
                  end)
        then Ok (Some ([Some first], [], []))
        else Ok (Some ([Some first], [Some second], []))
    | _ => Raise ValueError
    end.

Definition rules : list rule := [
  rule_nativity_has_multiple_masses;
  rule_all_souls;
  rule_nativity_vigil;
  rule_immaculate_coneption;
  rule_st_matthias;
  rule_feb27;
  rule_shift_conflicting_1st_class_feasts;
  rule_lord_feast1;
  rule_lord_feast2;
  first_class_feast_no_commemoration;
  rule_2nd_class_sunday;
  rule_1st_class_feria;
  rule_2nd_class_feast_takes_over_advent_feria_and_ember_days;
  rule_bmv_office_on_saturday;
  rule_precedence
].

(** Modelled from the spec: the evaluation of the chain by the driver, which
    is not in the sources at hand: the rules are tried in order and the first
    result that is not [None] is kept; an exception of a rule ends it. *)
Fixpoint first_result (rs : list rule)
  (calendar : Calendar) (date_ : date) (tempora observances : list Observance)
  (lang : string) : result (option Outcome) :=
  match rs with
  | [] => Ok None
  | r :: rs' =>
      match r calendar date_ tempora observances lang with
      | Ok None => first_result rs' calendar date_ tempora observances lang
      | res => res
      end
  end.

Definition resolve : rule := first_result rules.

End Rules.

(** ** An instance of the constants, to run the rules on concrete days *)

Definition has_substring (needle s : string) : bool := truthy (String.index 0 needle s).

Definition is_tempora (o : Observance) : bool := String.eqb (flexibility o) "tempora".
Definition is_sancti (o : Observance) : bool := String.eqb (flexibility o) "sancti".

(** Day 0 of a week of the season cycle is its Sunday. *)
Definition is_tempora_sunday (o : Observance) : bool :=
  is_tempora o && has_substring "-0:" (id o).

(** The text of an id before its first colon. *)
Fixpoint before_colon (s : string) : string :=
  match s with
  | EmptyString => EmptyString
  | String c s' => if Ascii.eqb c ":" then EmptyString else String c (before_colon s')
  end.

(** The digit an id ends with, 0 when it ends with none. *)
Fixpoint last_digit (s : string) : Z :=
  match s with
  | EmptyString => 0
  | String c EmptyString =>
      let n := Z.of_N (N_of_ascii c) - 48 in
      if (0 <=? n) && (n <=? 9) then n else 0
  | String _ s' => last_digit s'
  end.

(** Modelled from the spec: the ids and patterns of [constants.common], which
    is not in the sources at hand.  Ids have the form flexibility:key:rank, as
    the prefixes the rules test show; each pattern is the structural predicate
    the spec names it by. *)
#[local] Instance common : Constants := {|
  C_10A := "commune:C10a:4";
  C_10B := "commune:C10b:4";
  C_10C := "commune:C10c:4";
  C_10PASC := "commune:C10Pasc:4";
  C_10T := "commune:C10t:4";
  EMBER_DAYS := [Id "tempora:Adv3-3:2"; Id "tempora:Adv3-5:2"; Id "tempora:Adv3-6:2";
                 Id "tempora:Quad1-3:2"; Id "tempora:Quad1-5:2"; Id "tempora:Quad1-6:2";
                 Id "tempora:Pasc7-3:1"; Id "tempora:Pasc7-5:1"; Id "tempora:Pasc7-6:1";
                 Id "tempora:093-3:2"; Id "tempora:093-5:2"; Id "tempora:093-6:2"];
  FEASTS_OF_JESUS_CLASS_1_AND_2 :=
    [Id "sancti:01-06:1"; Id "sancti:01-13:2"; Id "sancti:02-02:2";
     Id "sancti:08-06:2"; Id "sancti:09-14:2"; Id "sancti:11-09:2"];
  PATTERN_ADVENT := Pred (fun o => startswith (id o) "tempora:Adv");
  PATTERN_ADVENT_FERIA_BETWEEN_17_AND_23 :=
    Pred (fun o => startswith (id o) "tempora:Adv" && negb (is_tempora_sunday o)
                   && (rank o =? 2));
  PATTERN_CLASS_1 := Pred (fun o => rank o =? 1);
  PATTERN_EASTER := Pred (fun o => startswith (id o) "tempora:Pasc");
  PATTERN_SANCTI_CLASS_1_OR_2 :=
    Pred (fun o => is_sancti o && ((rank o =? 1) || (rank o =? 2)));
  PATTERN_SANCTI_CLASS_2 := Pred (fun o => is_sancti o && (rank o =? 2));
  PATTERN_TEMPORA := Pred is_tempora;
  PATTERN_TEMPORA_SUNDAY := Pred is_tempora_sunday;
  PATTERN_TEMPORA_SUNDAY_CLASS_2 := Pred (fun o => is_tempora_sunday o && (rank o =? 2));
  SANCTI_01_13 := "sancti:01-13:2";
  SANCTI_02_24 := "sancti:02-24:2";
  SANCTI_02_27 := "sancti:02-27:3";
  SANCTI_11_02_1 := "sancti:11-02m1:1";
  SANCTI_12_08 := "sancti:12-08:1";
  SANCTI_12_24 := "sancti:12-24:1";
  SANCTI_12_25_1 := "sancti:12-25m1:1";
  TEMPORA_EPI1_0 := "tempora:Epi1-0:2";
  TEMPORA_PASC0_0 := "tempora:Pasc0-0:1";
  TEMPORA_QUAD6_1 := "tempora:Quad6-1:1";
  TEMPORA_QUAD6_2 := "tempora:Quad6-2:1";
  TEMPORA_QUAD6_3 := "tempora:Quad6-3:1";
  TEMPORA_QUAD6_4 := "tempora:Quad6-4:1";
  TEMPORA_QUAD6_5 := "tempora:Quad6-5:1";
  TEMPORA_QUAD6_6 := "tempora:Quad6-6:1";
  TEMPORA_QUADP3_3 := "tempora:Quadp3-3:1";
  rank_of := fun i _ => last_digit i;
  priority_of := fun i _ => 100 * last_digit i;
  flexibility_of := before_colon
|}.

(** An observance of the instance: rank and flexibility are read off the id. *)
Definition obs (i : string) (prio : Z) (d : date) : Observance :=
  {| id := i; rank := last_digit i; priority := prio;
     flexibility := before_colon i; date_ := d; lang := "en" |}.

(** ** Vocabulary of the statements *)

Section SearchVocabulary.
Context (calendar : Calendar).

(** A Day of the calendar at [d] that holds no candidate of rank 1 or 2. *)
Definition free_at (d : date) : Prop :=
  exists dy, get_day calendar d = Some dy /\ free_day dy = true.

(** A Day of the calendar at [d] that holds a candidate of rank 1 or 2. *)
Definition taken_at (d : date) : Prop :=
  exists dy, get_day calendar d = Some dy /\ free_day dy = false.

End SearchVocabulary.

(** What the loop does once December 31st is passed: it steps to January
    1st of the next year and looks that date up as well. *)
Definition past_year_end (calendar : Calendar) (y : Z) : result (option date) :=
  match add_day (Date y 12 31) with
  | None => Raise OverflowError
  | Some jan1 =>
      match get_day calendar jan1 with
      | None => Raise AttributeError
      | Some dy => if free_day dy then Ok (Some jan1) else Ok None
      end
  end.


(** The candidates of the 1st class, [first_class_feasts] in the collision
    rule. *)
Definition first_class (observances : list Observance) : list Observance :=
  filter (fun ld => rank ld =? 1) observances.

(** The observances of a list of [match] results. *)
Definition present (l : list (option Observance)) : list Observance :=
  omap (M := list) (fun x => x) l.

(** Every observance an outcome mentions, in celebration, commemorations
    and shifts. *)
Definition mentioned (o : Outcome) : list Observance :=
  present (celebration o) ++ present (commemoration o)
  ++ concat (List.map (fun s : option date * list (option Observance) => present (snd s))
                      (shift o)).

(** A rule whose celebration holds at most one entry. *)
Definition single (r : rule) : Prop :=
  forall (calendar : Calendar) (d : date) (tempora observances : list Observance)
         (lang : string) (out : Outcome),
    r calendar d tempora observances lang = Ok (Some out) ->
    (length (celebration out) <= 1)%nat.

(** The fields the default rule sorts by. *)
Definition precedence_key (o : Observance) : Z * Z * string :=
  (priority o, rank o, flexibility o).

(** ** Concrete days *)

(** Christmas Day 2019, a Wednesday, with its three masses. *)
Definition christmas_2019 : date := Date 2019 12 25.
Definition christmas_masses : list Observance :=
  [obs "sancti:12-25m1:1" 2 christmas_2019;
   obs "sancti:12-25m2:1" 2 christmas_2019;
   obs "sancti:12-25m3:1" 2 christmas_2019].

(** Sunday, January 13th 2019: the Sunday after Epiphany and the entry of
    January 13th fall together. *)
Definition jan13_2019 : date := Date 2019 1 13.
Definition epi1_sunday : Observance := obs "tempora:Epi1-0:2" 7 jan13_2019.
Definition jan13_feast : Observance := obs "sancti:01-13:2" 8 jan13_2019.

(** February 24th 2020, a Monday of a leap year, and February 24th 2019. *)
Definition feb24_2020 : date := Date 2020 2 24.
Definition feb24_2019 : date := Date 2019 2 24.
Definition feb27_2020 : date := Date 2020 2 27.
Definition feb_feria (d : date) : Observance := obs "tempora:Quadp1-1:4" 20 d.
Definition st_matthias (d : date) : Observance := obs "sancti:02-24:2" 11 d.
Definition feb27_feast (d : date) : Observance := obs "sancti:02-27:3" 16 d.

(** Good Friday 2016 fell on March 25th, the day of the Annunciation.  The
    days that follow, up to Low Sunday, are of the 1st class; Monday, April
    4th is the first day without a candidate of the 1st or 2nd class. *)
Definition good_friday_2016 : date := Date 2016 3 25.
Definition good_friday : Observance := obs "tempora:Quad6-5:1" 1 good_friday_2016.
Definition annunciation : Observance := obs "sancti:03-25:1" 3 good_friday_2016.
Definition local_patron : Observance := obs "sancti:03-25pl:1" 5 good_friday_2016.

Definition tempora_day (d : date) (i : string) (prio : Z) : date * Day :=
  (d, {| tempora := [obs i prio d]; all := [obs i prio d] |}).

Definition easter_2016 : Calendar := [
  tempora_day (Date 2016 3 25) "tempora:Quad6-5:1" 1;
  tempora_day (Date 2016 3 26) "tempora:Quad6-6:1" 1;
  tempora_day (Date 2016 3 27) "tempora:Pasc0-0:1" 1;
  tempora_day (Date 2016 3 28) "tempora:Pasc0-1:1" 2;
  tempora_day (Date 2016 3 29) "tempora:Pasc0-2:1" 2;
  tempora_day (Date 2016 3 30) "tempora:Pasc0-3:1" 2;
  tempora_day (Date 2016 3 31) "tempora:Pasc0-4:1" 2;
  tempora_day (Date 2016 4 1) "tempora:Pasc0-5:1" 2;
  tempora_day (Date 2016 4 2) "tempora:Pasc0-6:1" 2;
  tempora_day (Date 2016 4 3) "tempora:Pasc1-0:1" 2;
  (Date 2016 4 4,
   {| tempora := [obs "tempora:Pasc1-1:4" 20 (Date 2016 4 4)];
      all := [obs "tempora:Pasc1-1:4" 20 (Date 2016 4 4);
              obs "sancti:04-04:3" 14 (Date 2016 4 4)] |})
].

(** The last two days of 2019, each with candidates of the 1st or 2nd class,
    in a calendar that holds the year 2019 only. *)
Definition dec30_2019 : date := Date 2019 12 30.
Definition dec30_feasts : list Observance :=
  [obs "tempora:Nat1-1:1" 2 dec30_2019; obs "sancti:12-30:1" 4 dec30_2019].
Definition end_of_2019 : Calendar := [
  (Date 2019 12 30, {| tempora := [obs "tempora:Nat1-1:1" 2 dec30_2019];
                       all := dec30_feasts |});
  tempora_day (Date 2019 12 31) "tempora:Nat1-2:2" 5
].

(** Sunday, November 9th 2025, with a candidate that bears the id of the
    first mass of All Souls. *)
Definition nov9_2025 : date := Date 2025 11 9.
Definition nov2_2025 : date := Date 2025 11 2.
Definition pent_sunday (d : date) : Observance := obs "tempora:Pent22-0:2" 7 d.
Definition all_souls_mass (d : date) : Observance := obs "sancti:11-02m1:1" 3 d.

(** A rule that shifts nothing. *)
Definition no_shift (r : rule) : Prop :=
  forall (calendar : Calendar) (d : date) (tempora observances : list Observance)
         (lang : string) (out : Outcome),
    r calendar d tempora observances lang = Ok (Some out) -> shift out = [].

(** A rule that always returns, an outcome or [None]. *)
Definition returns (r : rule) : Prop :=
  forall (calendar : Calendar) (d : date) (tempora observances : list Observance)
         (lang : string),
    exists res, r calendar d tempora observances lang = Ok res.

(** A rule that stays silent whatever the order of the candidates. *)
Definition idle_in_any_order (r : rule) : Prop :=
  forall (calendar : Calendar) (d : date) (tempora observances observances' : list Observance)
         (lang : string),
    observances ≡ₚ observances' ->
    r calendar d tempora observances lang = Ok None ->
    r calendar d tempora observances' lang = Ok None.

(** Saturday, January 19th 2019, with two sanctoral candidates of the 4th
    class next to the feria. *)
Definition jan19_2019 : date := Date 2019 1 19.
Definition jan19_feria : Observance := obs "tempora:Epi2-6:4" 20 jan19_2019.
Definition ss_marius : Observance := obs "sancti:01-19:4" 18 jan19_2019.
Definition st_canute : Observance := obs "sancti:01-19cc:4" 19 jan19_2019.

(** Saturday, December 7th 2019, in the first week of Advent. *)
Definition dec7_2019 : date := Date 2019 12 7.
Definition advent_feria : Observance := obs "tempora:Adv1-6:3" 15 dec7_2019.

(** Monday, January 21st 2019: a feria and a feast of the 3rd class. *)
Definition jan21_2019 : date := Date 2019 1 21.
Definition jan21_feria : Observance := obs "tempora:Epi2-1:4" 20 jan21_2019.
Definition st_agnes : Observance := obs "sancti:01-21:3" 14 jan21_2019.

(** January 1st of the year after [y], the last date the search can reach. *)
Definition next_new_year (y : Z) : date := Date (y + 1) 1 1.

(** What a run of the search tells about the calendar, by its result:
    the date returned is the nearest later date with a free Day; no date is
    returned when every date up to the next New Year's Day is taken; the
    lookup fails at the nearest later date without a Day. *)
Definition search_spec (calendar : Calendar) (y : Z) (target : date)
    (res : result (option date)) : Prop :=
  match res with
  | Ok (Some t) =>
      valid t /\ PyDate.lt target t /\ free_at calendar t
      /\ (forall d, valid d -> PyDate.lt target d -> PyDate.lt d t -> taken_at calendar d)
      /\ (year t = y \/ t = next_new_year y)
  | Ok None =>
      (forall d, valid d -> PyDate.lt target d -> year d = y -> taken_at calendar d)
      /\ (year target = y -> y < MAXYEAR /\ taken_at calendar (next_new_year y))
  | Raise AttributeError =>
      exists t, valid t /\ PyDate.lt target t /\ get_day calendar t = None
                /\ (forall d, valid d -> PyDate.lt target d -> PyDate.lt d t ->
                              taken_at calendar d)
                /\ (year t = y \/ t = next_new_year y)
  | Raise OverflowError =>
      y = MAXYEAR
      /\ (forall d, valid d -> PyDate.lt target d -> year d = y -> taken_at calendar d)
  | Raise _ => False
  | OutOfFuel => False
  end.

(** The last two days of 2019 followed by New Year's Day 2020, all taken. *)
Definition turn_of_2019 : Calendar :=
  end_of_2019 ++ [tempora_day (Date 2020 1 1) "sancti:01-01:1" 2].

(** A feast of the 1st class with the priority of the Annunciation. *)
Definition patron_of_equal_priority : Observance :=
  obs "sancti:03-25pl:1" 3 good_friday_2016.

(** A rule that takes every observance of its outcome from the candidates. *)
Definition conservative (r : rule) : Prop :=
  forall (calendar : Calendar) (d : date) (tempora observances : list Observance)
         (lang : string) (out : Outcome),
    r calendar d tempora observances lang = Ok (Some out) ->
    forall o, o ∈ mentioned out -> o ∈ observances.

(** The outcome has at most one commemoration and at most one shift. *)
Definition small (out : Outcome) : Prop :=
  (length (commemoration out) <= 1)%nat /\ (length (shift out) <= 1)%nat.

(** No commemoration and no shifted observance is an empty entry. *)
Definition filled (out : Outcome) : Prop :=
  None ∉ commemoration out
  /\ forall (tgt : option date) (os : list (option Observance)),
       (tgt, os) ∈ shift out -> None ∉ os.

(** The position in the chain of the first rule whose result is not [None]. *)
Fixpoint decider (rs : list rule)
  (calendar : Calendar) (d : date) (tempora observances : list Observance)
  (lang : string) : option nat :=
  match rs with
  | [] => None
  | r :: rs' =>
      match r calendar d tempora observances lang with
      | Ok None => S <$> decider rs' calendar d tempora observances lang
      | _ => Some O
      end
  end.

(** Sunday, December 24th 2017, the vigil of the Nativity on the 4th Sunday
    of Advent. *)
Definition dec24_2017 : date := Date 2017 12 24.
Definition advent4_sunday : Observance := obs "tempora:Adv4-0:1" 6 dec24_2017.
Definition nativity_vigil : Observance := obs "sancti:12-24:1" 5 dec24_2017.

(** The rule at position [n] of the chain is reached: every rule before it
    returns [None]. *)
Definition reached {K : Constants} (n : nat)
  (calendar : Calendar) (d : date) (tempora observances : list Observance)
  (lang : string) : Prop :=
  first_result (take n rules) calendar d tempora observances lang = Ok None.

(** The days after Christmas 2019, all of the 2nd class, in a calendar that
    holds the year 2019 only. *)
Definition christmastide_2019 : Calendar := [
  tempora_day (Date 2019 12 26) "sancti:12-26:2" 9;
  tempora_day (Date 2019 12 27) "sancti:12-27:2" 9;
  tempora_day (Date 2019 12 28) "sancti:12-28:2" 9;
  tempora_day (Date 2019 12 29) "tempora:Nat1-0:2" 7;
  tempora_day (Date 2019 12 30) "tempora:Nat1-1:2" 8;
  tempora_day (Date 2019 12 31) "tempora:Nat1-2:2" 8
].

(** Tuesday, March 24th 2020 and Saturday, February 15th 2020, both of a
    leap year. *)
Definition mar24_2020 : date := Date 2020 3 24.
Definition lent_feria (d : date) : Observance := obs "tempora:Quad4-2:3" 12 d.

(** Saturday, February 2nd 2019, and Saturday, February 15th 2020 with the
    calendar entry of the Wednesday of Holy Week of that year. *)
Definition feb2_2019 : date := Date 2019 2 2.
Definition feb15_2020 : date := Date 2020 2 15.
Definition septuagesima_feria : Observance := obs "tempora:Quadp1-6:4" 20 feb15_2020.
Definition ss_faustinus : Observance := obs "sancti:02-15:4" 18 feb15_2020.
Definition holy_week_2020 : Calendar :=
  [tempora_day (Date 2020 4 8) "tempora:Quad6-3:1" 1].

(** * Properties *)

(** ** Dates *)

Lemma month_cases (m : Z) :
  1 <= m <= 12 ->
  m = 1 \/ m = 2 \/ m = 3 \/ m = 4 \/ m = 5 \/ m = 6 \/
  m = 7 \/ m = 8 \/ m = 9 \/ m = 10 \/ m = 11 \/ m = 12.
Proof. lia. Qed.

Ltac by_month d :=
  let H := fresh "Hm" in
  let Hl := fresh "Hleap" in
  match goal with
  | Hv : valid d |- _ =>
      destruct d as [y m dd]; unfold valid, yday, add_day, days_in_month,
        days_before_month, MINYEAR, MAXYEAR in *; simpl in *;
      assert (H : 1 <= m <= 12) by lia; apply month_cases in H;
      destruct (isleap y) eqn:Hl;
      repeat (destruct H as [H|H]); subst m; simpl in *
  end.

Ltac split_ltb :=
  repeat match goal with
    | H : context [?a <? ?b] |- _ => destruct (Z.ltb_spec a b); simplify_eq/=
    | |- context [?a <? ?b] => destruct (Z.ltb_spec a b); simplify_eq/=
    end.

Section DateFacts.

Lemma lt_iff (a b : date) :
  PyDate.lt a b <->
  year a < year b \/
  (year a = year b /\ (month a < month b \/ (month a = month b /\ day a < day b))).
Proof.
  unfold PyDate.lt, PyDate.ltb.
  rewrite !orb_true_iff, !andb_true_iff, !orb_true_iff, !andb_true_iff,
    !Z.ltb_lt, !Z.eqb_eq.
  tauto.
Qed.

Lemma le_iff (a b : date) :
  PyDate.le a b <->
  year a < year b \/
  (year a = year b /\ (month a < month b \/ (month a = month b /\ day a <= day b))).
Proof.
  unfold PyDate.le, PyDate.leb. rewrite negb_true_iff, <- not_true_iff_false.
  fold (PyDate.lt b a). rewrite lt_iff. lia.
Qed.

Lemma date_ext (a b : date) :
  year a = year b -> month a = month b -> day a = day b -> a = b.
Proof. destruct a, b; simpl; congruence. Qed.

Lemma le_lt_or_eq (a b : date) : PyDate.le a b -> PyDate.lt a b \/ a = b.
Proof.
  rewrite le_iff, lt_iff. intros H.
  destruct (decide (day a = day b /\ month a = month b /\ year a = year b))
    as [(?&?&?)|?]; [right; by apply date_ext | left; lia].
Qed.

Lemma lt_le_incl (a b : date) : PyDate.lt a b -> PyDate.le a b.
Proof. rewrite le_iff, lt_iff. lia. Qed.

Lemma lt_irrefl (a : date) : ~ PyDate.lt a a.
Proof. rewrite lt_iff. lia. Qed.

Lemma lt_le_trans (a b c : date) : PyDate.lt a b -> PyDate.le b c -> PyDate.lt a c.
Proof. rewrite le_iff, !lt_iff. lia. Qed.

Lemma le_year (a b : date) : PyDate.le a b -> year a <= year b.
Proof. rewrite le_iff. lia. Qed.

Lemma yday_bounds (d : date) : valid d -> 1 <= yday d <= 366.
Proof. intros Hv. by_month d; lia. Qed.

Lemma add_day_valid (d d' : date) : valid d -> add_day d = Some d' -> valid d'.
Proof.
  intros Hv H. by_month d; split_ltb;
    unfold valid, days_in_month, MINYEAR, MAXYEAR; simpl; rewrite ?Hleap; simpl; lia.
Qed.

Lemma add_day_lt (d d' : date) : valid d -> add_day d = Some d' -> PyDate.lt d d'.
Proof.
  intros Hv H. rewrite lt_iff. by_month d; split_ltb; lia.
Qed.

(** No date lies between a date and the next one. *)
Lemma add_day_least (d d' e : date) :
  valid d -> add_day d = Some d' -> valid e -> PyDate.lt d e -> PyDate.le d' e.
Proof.
  intros Hv H He Hlt. rewrite lt_iff in Hlt. rewrite le_iff.
  destruct e as [ye me de]. unfold valid in He. simpl in He.
  by_month d; split_ltb; simpl in *;
    try lia;
    (destruct (decide (ye = y)) as [->|]; [|lia]);
    unfold days_in_month in He; rewrite ?Hleap in He;
    (destruct He as (_ & Hme & Hde); apply month_cases in Hme;
     repeat (destruct Hme as [Hme|Hme]); subst me; simpl in *; lia).
Qed.

Lemma add_day_yday (d d' : date) :
  valid d -> add_day d = Some d' -> year d' = year d -> yday d' = yday d + 1.
Proof.
  intros Hv H Hy. destruct d' as [y' m' dd'].
  by_month d; split_ltb; unfold yday, days_before_month; simpl in *;
    rewrite ?Hleap; simpl; lia.
Qed.

Lemma days_before_year_succ (y : Z) :
  days_before_year (y + 1) = days_before_year y + 365 + (if isleap y then 1 else 0).
Proof.
  unfold days_before_year, isleap. cbv zeta.
  replace (y + 1 - 1) with y by lia.
  destruct (Z.eqb_spec (y mod 4) 0), (Z.eqb_spec (y mod 100) 0),
    (Z.eqb_spec (y mod 400) 0); simpl; Z.div_mod_to_equations; lia.
Qed.

(** [add_day] is the successor on ordinals, as adding [timedelta(days=1)] is. *)
Lemma add_day_toordinal (d d' : date) :
  valid d -> add_day d = Some d' -> toordinal d' = toordinal d + 1.
Proof.
  intros Hv H. unfold toordinal. destruct d' as [y' m' dd'].
  pose proof (days_before_year_succ (year d)) as Hs.
  by_month d; split_ltb; unfold yday, days_before_month; simpl in *;
    rewrite ?Hleap in *; simpl; lia.
Qed.

(** The day after a day of the week is the next day of the week. *)
Lemma weekday_add_day (d d' : date) :
  valid d -> add_day d = Some d' -> weekday d' = (weekday d + 1) mod 7.
Proof.
  intros Hv H. unfold weekday. rewrite (add_day_toordinal d d') by done.
  rewrite Z.add_mod_idemp_l by lia. f_equal. lia.
Qed.

End DateFacts.

(** ** The forward search of the 1st-class collision rule *)

Section Search.
Context (calendar : Calendar) (y : Z).


Lemma free_not_taken (d : date) : free_at calendar d -> ~ taken_at calendar d.
Proof. intros (dy & H1 & H2) (dy' & H3 & H4). congruence. Qed.

(** The loop ends within the fuel it is given. *)
Lemma loop_terminates (fuel : nat) (target : date) :
  valid target ->
  (0 < fuel)%nat ->
  (year target = y -> 367 - yday target < Z.of_nat fuel) ->
  _calc_target_date_loop calendar y fuel target <> OutOfFuel.
Proof.
  revert target. induction fuel as [|fuel IH]; intros target Hv Hpos Hfuel; [lia|].
  simpl. destruct (Z.eqb_spec (year target) y) as [Hy|Hy]; [|done].
  destruct (add_day target) as [t'|] eqn:Hadd; [|done].
  destruct (get_day calendar t') as [dy|]; [|done].
  destruct (free_day dy); [done|].
  pose proof (yday_bounds _ Hv) as Hb. specialize (Hfuel Hy).
  apply IH; [by eapply add_day_valid | lia |].
  intros Hy'. rewrite (add_day_yday target t') by (done || congruence). lia.
Qed.

(** When some later date of the year is free and every date up to it has a
    Day, the loop returns the nearest free date. *)
Lemma loop_finds (fuel : nat) (target t : date) :
  valid target -> year target = y ->
  367 - yday target < Z.of_nat fuel ->
  valid t -> PyDate.lt target t -> year t = y -> free_at calendar t ->
  (forall d, valid d -> PyDate.lt target d -> PyDate.le d t ->
             is_Some (get_day calendar d)) ->
  exists t0,
    _calc_target_date_loop calendar y fuel target = Ok (Some t0)
    /\ valid t0 /\ PyDate.lt target t0 /\ PyDate.le t0 t /\ year t0 = y /\ free_at calendar t0
    /\ forall d, valid d -> PyDate.lt target d -> PyDate.lt d t0 -> taken_at calendar d.
Proof.
  revert target. induction fuel as [|fuel IH];
    intros target Hv Hy Hfuel Ht Hlt Hyt Hfree Hdays.
  { pose proof (yday_bounds _ Hv). lia. }
  simpl. rewrite (proj2 (Z.eqb_eq _ _) Hy).
  destruct (add_day target) as [t'|] eqn:Hadd.
  2:{ exfalso. rewrite lt_iff in Hlt. destruct Ht as (Hty & Htm & Htd).
      destruct target as [ty tm td], t as [y2 m2 d2].
      unfold add_day, valid, MAXYEAR, MINYEAR in *. simpl in *. split_ltb.
      assert (m2 = 12) as -> by lia. assert (tm = 12) as -> by lia.
      unfold days_in_month in *. simpl in *. lia. }
  pose proof (add_day_valid _ _ Hv Hadd) as Hv'.
  pose proof (add_day_lt _ _ Hv Hadd) as Hlt'.
  pose proof (add_day_least _ _ _ Hv Hadd Ht Hlt) as Hle'.
  assert (Hy' : year t' = y).
  { apply le_year in Hle'. apply lt_le_incl, le_year in Hlt'. lia. }
  destruct (Hdays t' Hv' Hlt' Hle') as [dy Hdy]. rewrite Hdy.
  destruct (free_day dy) eqn:Hfr.
  - exists t'. split_and!; try done.
    + by exists dy.
    + intros d Hd H1 H2. exfalso.
      pose proof (add_day_least _ _ _ Hv Hadd Hd H1) as H3.
      eapply lt_irrefl, lt_le_trans; eauto.
  - destruct (le_lt_or_eq _ _ Hle') as [Hlt2| ->].
    2:{ exfalso. eapply free_not_taken; [exact Hfree|]. by exists dy. }
    destruct (IH t') as (t0 & Hres & Hv0 & H0lt & H0le & H0y & H0free & H0min); try done.
    + rewrite (add_day_yday target t') by (done || congruence). lia.
    + intros d Hd H1 H2. apply Hdays; try done.
      eapply lt_le_trans; [exact Hlt'|]. by apply lt_le_incl.
    + exists t0. split_and!; try done.
      * eapply lt_le_trans; [exact Hlt'|]. by apply lt_le_incl.
      * intros d Hd H1 H2.
        pose proof (add_day_least _ _ _ Hv Hadd Hd H1) as H3.
        destruct (le_lt_or_eq _ _ H3) as [H4| <-]; [by apply H0min|].
        by exists dy.
Qed.

(** When no later date of the year is free, the loop leaves the year. *)
Lemma loop_exhausted (fuel : nat) (target : date) :
  valid target -> year target = y ->
  367 - yday target < Z.of_nat fuel ->
  (forall d, valid d -> PyDate.lt target d -> year d = y -> taken_at calendar d) ->
  _calc_target_date_loop calendar y fuel target = past_year_end calendar y.
Proof.
  revert target. induction fuel as [|fuel IH]; intros target Hv Hy Hfuel Htaken.
  { pose proof (yday_bounds _ Hv). lia. }
  simpl. rewrite (proj2 (Z.eqb_eq _ _) Hy).
  destruct (decide (target = Date y 12 31)) as [->|Hne].
  { unfold past_year_end. destruct (add_day (Date y 12 31)) as [jan1|] eqn:Hadd; [|done].
    destruct (get_day calendar jan1) as [dy|]; [|done].
    destruct (free_day dy); [done|].
    assert (year jan1 <> y).
    { unfold add_day in Hadd. simpl in Hadd. unfold days_in_month in Hadd.
      simpl in Hadd. split_ltb. simpl. lia. }
    destruct fuel; [simpl in Hfuel; unfold yday, days_before_month in Hfuel;
                    simpl in Hfuel; destruct (isleap y); simpl in Hfuel; lia|].
    simpl. by destruct (Z.eqb_spec (year jan1) y). }
  destruct (add_day target) as [t'|] eqn:Hadd.
  2:{ exfalso. apply Hne. destruct target as [ty tm td].
      unfold add_day, valid, MAXYEAR, MINYEAR in *. simpl in *. split_ltb.
      assert (tm = 12) as -> by lia. unfold days_in_month in *. simpl in *.
      f_equal; lia. }
  pose proof (add_day_valid _ _ Hv Hadd) as Hv'.
  pose proof (add_day_lt _ _ Hv Hadd) as Hlt'.
  assert (Hy' : year t' = y).
  { destruct target as [ty tm td]. simpl in Hy. subst ty.
    unfold add_day, valid, MAXYEAR, MINYEAR in *. simpl in *. split_ltb; try done.
    exfalso. apply Hne. assert (tm = 12) as -> by lia.
    unfold days_in_month in *. simpl in *. f_equal. lia. }
  destruct (Htaken t' Hv' Hlt' Hy') as (dy & Hdy & Hfr). rewrite Hdy, Hfr.
  apply IH; try done.
  - rewrite (add_day_yday target t') by (done || congruence). lia.
  - intros d Hd H1 H2. apply Htaken; try done.
    eapply lt_le_trans; [exact Hlt'|]. by apply lt_le_incl.
Qed.

End Search.

(** ** [sorted] *)

Section SortedFacts.
Context {A : Type} (le : A -> A -> bool).

Lemma insert_sorted_Permutation (x : A) (l : list A) :
  insert_sorted le x l ≡ₚ x :: l.
Proof.
  induction l as [|y l IH]; simpl; [done|].
  destruct (le x y); [done|]. rewrite IH. apply Permutation_swap.
Qed.

Lemma sorted_Permutation (l : list A) : sorted le l ≡ₚ l.
Proof.
  induction l as [|x l IH]; simpl; [done|].
  rewrite insert_sorted_Permutation. by f_equiv.
Qed.

Lemma sorted_length (l : list A) : length (sorted le l) = length l.
Proof. by rewrite sorted_Permutation. Qed.

Hypothesis le_total : forall a b, le a b = true \/ le b a = true.
Hypothesis le_trans : forall a b c, le a b = true -> le b c = true -> le a c = true.

Lemma insert_sorted_StronglySorted (x : A) (l : list A) :
  StronglySorted (fun a b => le a b = true) l ->
  StronglySorted (fun a b => le a b = true) (insert_sorted le x l).
Proof.
  induction 1 as [|y l Hl IH Hy]; simpl.
  - repeat constructor.
  - destruct (le x y) eqn:Hxy.
    + constructor; [by constructor|]. constructor; [done|].
      eapply Forall_impl; [exact Hy|]. intros z Hz. by eapply le_trans.
    + constructor; [done|].
      rewrite insert_sorted_Permutation. constructor; [|done].
      destruct (le_total x y); congruence.
Qed.

Lemma sorted_StronglySorted (l : list A) :
  StronglySorted (fun a b => le a b = true) (sorted le l).
Proof.
  induction l as [|x l IH]; simpl; [constructor|].
  by apply insert_sorted_StronglySorted.
Qed.

(** The first two elements of the sorted list and what is left of it. *)
Lemma sorted_take_2 (l : list A) :
  (1 < length l)%nat ->
  exists a b rest,
    sorted le l = a :: b :: rest
    /\ take 2 (sorted le l) = [a; b]
    /\ l ≡ₚ a :: b :: rest
    /\ le a b = true
    /\ Forall (fun c => le a c = true) rest
    /\ Forall (fun c => le b c = true) rest.
Proof.
  intros Hlen. pose proof (sorted_length l) as Hl.
  pose proof (sorted_StronglySorted l) as Hs.
  pose proof (sorted_Permutation l) as Hp.
  destruct (sorted le l) as [|a [|b rest]]; simpl in Hl; [lia..|].
  exists a, b, rest. split_and!; try done.
  - inversion Hs as [|? ? _ Ha]; subst. by inversion Ha.
  - inversion Hs as [|? ? _ Ha]; subst. by inversion Ha.
  - inversion Hs as [|? ? Hs' _]; subst. by inversion Hs'.
Qed.

End SortedFacts.

Lemma by_priority_total (a b : Observance) :
  by_priority a b = true \/ by_priority b a = true.
Proof. unfold by_priority. rewrite !Z.leb_le. lia. Qed.

Lemma by_priority_trans (a b c : Observance) :
  by_priority a b = true -> by_priority b c = true -> by_priority a c = true.
Proof. unfold by_priority. rewrite !Z.leb_le. lia. Qed.

Lemma string_leb_iff (a b : string) :
  String.leb a b = true <-> a = b \/ OrderedTypeEx.String_as_OT.lt a b.
Proof.
  unfold String.leb.
  pose proof (OrderedTypeEx.String_as_OT.cmp_eq a b) as He.
  pose proof (OrderedTypeEx.String_as_OT.cmp_lt a b) as Hl.
  unfold OrderedTypeEx.String_as_OT.cmp in *.
  destruct (String.compare a b) eqn:Hc; split; intros H; try done.
  - left. by apply He.
  - right. by apply Hl.
  - destruct H as [H|H]; [apply He in H | apply Hl in H]; congruence.
Qed.

Lemma string_leb_trans (a b c : string) :
  String.leb a b = true -> String.leb b c = true -> String.leb a c = true.
Proof.
  rewrite !string_leb_iff. intros [->|H1] [->|H2]; auto.
  right. by eapply OrderedTypeEx.String_as_OT.lt_trans.
Qed.

Lemma string_leb_refl (a : string) : String.leb a a = true.
Proof. apply string_leb_iff. by left. Qed.

(** The sort key of the default rule. *)
Lemma by_precedence_iff (a b : Observance) :
  by_precedence a b = true <->
  priority a < priority b \/
  (priority a = priority b /\
   (rank a < rank b \/
    (rank a = rank b /\ String.leb (flexibility a) (flexibility b) = true))).
Proof.
  unfold by_precedence.
  rewrite !orb_true_iff, !andb_true_iff, !orb_true_iff, !andb_true_iff,
    !Z.ltb_lt, !Z.eqb_eq.
  tauto.
Qed.

Lemma by_precedence_total (a b : Observance) :
  by_precedence a b = true \/ by_precedence b a = true.
Proof.
  rewrite !by_precedence_iff.
  destruct (Z.lt_total (priority a) (priority b)) as [?|[?|?]];
    [left; by left | | right; by left].
  destruct (Z.lt_total (rank a) (rank b)) as [?|[?|?]];
    [left; right; split; [done | by left] | | right; right; split; [done | by left]].
  destruct (String.leb_total (flexibility a) (flexibility b));
    [left | right]; right; (split; [done|]); right; by split.
Qed.

Lemma by_precedence_trans (a b c : Observance) :
  by_precedence a b = true -> by_precedence b c = true -> by_precedence a c = true.
Proof.
  rewrite !by_precedence_iff.
  intros [?|(? & [?|(? & H1)])] [?|(? & [?|(? & H2)])]; try lia.
  right. split; [lia|]. right. split; [lia|]. by eapply string_leb_trans.
Qed.

(** Candidates that the key orders both ways agree on the three fields. *)
Lemma by_precedence_antisym (a b : Observance) :
  by_precedence a b = true -> by_precedence b a = true ->
  priority a = priority b /\ rank a = rank b /\ flexibility a = flexibility b.
Proof.
  rewrite !by_precedence_iff.
  intros [?|(? & [?|(? & H1)])] [?|(? & [?|(? & H2)])]; try lia.
  split_and!; try lia. by apply String.leb_antisym.
Qed.

(** ** The chain *)

Section Chain.
Context {K : Constants}.
Implicit Types (calendar : Calendar) (d : date) (tempora observances : list Observance).
Implicit Types (lang : string) (out : Outcome).

(** The outcome the chain keeps is the outcome of one of its rules. *)
Lemma first_result_Some (rs : list rule) calendar d tempora observances lang out :
  first_result rs calendar d tempora observances lang = Ok (Some out) ->
  exists r, r ∈ rs /\ r calendar d tempora observances lang = Ok (Some out).
Proof.
  induction rs as [|r rs IH]; simpl; [done|].
  destruct (r calendar d tempora observances lang) as [[o|]| |] eqn:Hr; intros H.
  - exists r. split; [left | congruence].
  - destruct (IH H) as (r' & ? & ?). exists r'. split; [by right | done].
  - done.
  - done.
Qed.

(** A chain that ends with a rule that always returns an outcome never
    ends with [None]. *)
Lemma first_result_not_None (rs : list rule) (r : rule) calendar d tempora observances lang :
  r calendar d tempora observances lang <> Ok None ->
  first_result (rs ++ [r]) calendar d tempora observances lang <> Ok None.
Proof.
  intros Hr. induction rs as [|r' rs IH]; simpl.
  - by destruct (r calendar d tempora observances lang) as [[?|]| |].
  - by destruct (r' calendar d tempora observances lang) as [[?|]| |].
Qed.

(** An exception of the chain is the exception of one of its rules. *)
Lemma first_result_Raise (rs : list rule) calendar d tempora observances lang e :
  first_result rs calendar d tempora observances lang = Raise e ->
  exists r, r ∈ rs /\ r calendar d tempora observances lang = Raise e.
Proof.
  induction rs as [|r rs IH]; simpl; [done|].
  destruct (r calendar d tempora observances lang) as [[o|]| |] eqn:Hr; intros H.
  - done.
  - destruct (IH H) as (r' & ? & ?). exists r'. split; [by right | done].
  - exists r. split; [left | congruence].
  - done.
Qed.

Lemma first_result_OutOfFuel (rs : list rule) calendar d tempora observances lang :
  first_result rs calendar d tempora observances lang = OutOfFuel ->
  exists r, r ∈ rs /\ r calendar d tempora observances lang = OutOfFuel.
Proof.
  induction rs as [|r rs IH]; simpl; [done|].
  destruct (r calendar d tempora observances lang) as [[o|]| |] eqn:Hr; intros H.
  - done.
  - destruct (IH H) as (r' & ? & ?). exists r'. split; [by right | done].
  - done.
  - exists r. split; [left | congruence].
Qed.

(** The chain over two lists of rules in a row. *)
Lemma first_result_app (rs rs' : list rule) calendar d tempora observances lang :
  first_result (rs ++ rs') calendar d tempora observances lang
  = match first_result rs calendar d tempora observances lang with
    | Ok None => first_result rs' calendar d tempora observances lang
    | res => res
    end.
Proof.
  induction rs as [|r rs IH]; simpl; [done|].
  by destruct (r calendar d tempora observances lang) as [[?|]| |].
Qed.

End Chain.

(** ** Matching *)

Lemma match_Some (l : list Observance) (ps : list pattern) (o : Observance) :
  match_ l ps = Some o -> o ∈ l /\ existsb (satisfies o) ps = true.
Proof.
  unfold match_. intros H. apply List.find_some in H as [H1 H2].
  split; [by apply list_elem_of_In | done].
Qed.

Lemma truthy_match (l : list Observance) (ps : list pattern) :
  truthy (match_ l ps) = true <->
  exists o, o ∈ l /\ existsb (satisfies o) ps = true.
Proof.
  split.
  - destruct (match_ l ps) as [o|] eqn:H; [|done]. intros _.
    exists o. by apply match_Some.
  - intros (o & Hin & Ho). destruct (match_ l ps) as [o'|] eqn:H; [done|].
    unfold match_ in H. apply list_elem_of_In in Hin.
    pose proof (List.find_none _ _ H o Hin) as Hn. simpl in Hn. congruence.
Qed.

Lemma truthy_Some {A} (x : option A) : truthy x = true <-> exists a, x = Some a.
Proof. destruct x; simpl; split; eauto; try done. by intros [? ?]. Qed.

Lemma satisfies_Id (o : Observance) (s : string) :
  existsb (satisfies o) [Id s] = true <-> id o = s.
Proof. simpl. rewrite orb_false_r. apply String.eqb_eq. Qed.

Lemma satisfies_single (o : Observance) (p : pattern) :
  existsb (satisfies o) [p] = true <-> satisfies o p = true.
Proof. simpl. by rewrite orb_false_r. Qed.

(** Whether some candidate matches does not depend on the order of the
    candidates. *)
Lemma truthy_match_Permutation (l l' : list Observance) (ps : list pattern) :
  l ≡ₚ l' -> truthy (match_ l ps) = truthy (match_ l' ps).
Proof.
  intros Hp. apply eq_true_iff_eq. rewrite !truthy_match.
  by setoid_rewrite Hp.
Qed.

(** ** How many entries a celebration holds *)

Section CelebrationSize.
Context {K : Constants}.
Implicit Types (calendar : Calendar) (d : date) (tempora observances : list Observance).
Implicit Types (lang : string) (out : Outcome).

Ltac single_by_cases :=
  intros calendar d tempora observances lang out;
  cbv beta zeta delta [rule_nativity_vigil rule_immaculate_coneption rule_st_matthias
    rule_feb27 rule_shift_conflicting_1st_class_feasts rule_lord_feast1
    rule_lord_feast2 first_class_feast_no_commemoration rule_2nd_class_sunday
    rule_1st_class_feria rule_2nd_class_feast_takes_over_advent_feria_and_ember_days
    rule_bmv_office_on_saturday];
  intros H; repeat case_match; simplify_eq; unfold celebration; simpl; clear; lia.

Lemma single_nativity_vigil : single rule_nativity_vigil.
Proof. single_by_cases. Qed.
Lemma single_immaculate_coneption : single rule_immaculate_coneption.
Proof. single_by_cases. Qed.
Lemma single_st_matthias : single rule_st_matthias.
Proof. single_by_cases. Qed.
Lemma single_feb27 : single rule_feb27.
Proof. single_by_cases. Qed.
Lemma single_shift_conflicting : single rule_shift_conflicting_1st_class_feasts.
Proof. single_by_cases. Qed.
Lemma single_lord_feast1 : single rule_lord_feast1.
Proof. single_by_cases. Qed.
Lemma single_lord_feast2 : single rule_lord_feast2.
Proof. single_by_cases. Qed.
Lemma single_first_class_feast : single first_class_feast_no_commemoration.
Proof. single_by_cases. Qed.
Lemma single_2nd_class_sunday : single rule_2nd_class_sunday.
Proof. single_by_cases. Qed.
Lemma single_1st_class_feria : single rule_1st_class_feria.
Proof. single_by_cases. Qed.
Lemma single_2nd_class_feast :
  single rule_2nd_class_feast_takes_over_advent_feria_and_ember_days.
Proof. single_by_cases. Qed.
Lemma single_bmv_office : single rule_bmv_office_on_saturday.
Proof. single_by_cases. Qed.

Lemma single_precedence : single rule_precedence.
Proof.
  intros calendar d tempora observances lang out. unfold rule_precedence.
  destruct (Nat.eqb_spec (length observances) 0); [intros; simplify_eq; unfold celebration; simpl; lia|].
  destruct (Nat.eqb_spec (length observances) 1) as [Hone|].
  { intros; simplify_eq. unfold celebration. simpl. rewrite length_fmap. lia. }
  intros H; repeat case_match; simplify_eq; unfold celebration; simpl; clear; lia.
Qed.

(** C1, as amended: the celebration the chain keeps holds zero or one entry,
    except where the Nativity rule, or the All Souls rule on a day that is not
    a Sunday, keeps the masses of the day: then it holds every candidate whose
    id starts with sancti:12-25m, respectively sancti:11-02m. *)
Theorem celebration_single_or_masses calendar d tempora observances lang out :
  resolve calendar d tempora observances lang = Ok (Some out) ->
  (length (celebration out) <= 1)%nat
  \/ (truthy (match_ observances [Id SANCTI_12_25_1]) = true
      /\ celebration out
         = Some <$> filter (fun ld => startswith (id ld) "sancti:12-25m") observances)
  \/ (truthy (match_ observances [Id SANCTI_11_02_1]) = true
      /\ weekday d <> 6
      /\ celebration out
         = Some <$> filter (fun ld => startswith (id ld) "sancti:11-02m") observances).
Proof.
  intros H. apply first_result_Some in H as (r & Hin & Hr). unfold rules in Hin.
  repeat (apply elem_of_cons in Hin as [->|Hin]);
    try (left; revert Hr;
         first [ apply single_nativity_vigil | apply single_immaculate_coneption
               | apply single_st_matthias | apply single_feb27
               | apply single_shift_conflicting | apply single_lord_feast1
               | apply single_lord_feast2 | apply single_first_class_feast
               | apply single_2nd_class_sunday | apply single_1st_class_feria
               | apply single_2nd_class_feast | apply single_bmv_office
               | apply single_precedence ]).
  - unfold rule_nativity_has_multiple_masses in Hr.
    destruct (truthy (match_ observances [Id SANCTI_12_25_1])); simplify_eq.
    right; left. by split.
  - unfold rule_all_souls in Hr.
    destruct (truthy (match_ observances [Id SANCTI_11_02_1])); simplify_eq.
    destruct (Z.eqb_spec (weekday d) 6); simplify_eq.
    + left. unfold celebration. simpl. clear. lia.
    + right; right. by split_and!.
  - by apply elem_of_nil in Hin.
Qed.

End CelebrationSize.

(** C1, the claim as stated fails: on Christmas Day the chain keeps the three
    masses of the Nativity as the celebration. *)
Lemma celebration_three_masses :
  resolve (K := common) [] christmas_2019 [] christmas_masses "en"
  = Ok (Some (Some <$> christmas_masses, [], []))
  /\ ~ (length (Some <$> christmas_masses) <= 1)%nat.
Proof. split; [by vm_compute | vm_compute; lia]. Qed.

Lemma celebration_single_or_masses_witness :
  resolve (K := common) [] christmas_2019 [] christmas_masses "en"
  = Ok (Some (Some <$> christmas_masses, [], []))
  /\ ((length (celebration (Some <$> christmas_masses, [], [])) <= 1)%nat
      \/ (truthy (match_ christmas_masses [Id SANCTI_12_25_1]) = true
          /\ celebration (Some <$> christmas_masses, [], [])
             = Some <$> filter (fun ld => startswith (id ld) "sancti:12-25m")
                               christmas_masses)
      \/ (truthy (match_ christmas_masses [Id SANCTI_11_02_1]) = true
          /\ weekday christmas_2019 <> 6
          /\ celebration (Some <$> christmas_masses, [], [])
             = Some <$> filter (fun ld => startswith (id ld) "sancti:11-02m")
                               christmas_masses)).
Proof.
  split; [by vm_compute|].
  apply (celebration_single_or_masses (K := common) [] christmas_2019 [] christmas_masses "en").
  by vm_compute.
Defined.

(** ** The feast of January 13th on the Sunday after Epiphany *)

Section LordFeast1.
Context {K : Constants}.
Implicit Types (calendar : Calendar) (d : date) (tempora observances : list Observance).
Implicit Types (lang : string).

(** C2, as amended: when both the entry of January 13th and the Sunday after
    Epiphany are among the candidates, the rule returns the first candidate
    that bears the id of that Sunday as the celebration, with no commemoration
    and no shift: the Sunday entry is kept, the entry of January 13th is
    dropped. *)
Theorem lord_feast1_keeps_sunday calendar d tempora observances lang :
  truthy (match_ observances [Id SANCTI_01_13]) = true ->
  truthy (match_ observances [Id TEMPORA_EPI1_0]) = true ->
  exists sunday,
    rule_lord_feast1 calendar d tempora observances lang
    = Ok (Some ([Some sunday], [], []))
    /\ match_ observances [Id TEMPORA_EPI1_0] = Some sunday
    /\ sunday ∈ observances
    /\ id sunday = TEMPORA_EPI1_0.
Proof.
  intros H1 H2. unfold rule_lord_feast1. rewrite H1, H2. simpl.
  apply truthy_Some in H2 as [sunday Hs]. exists sunday. rewrite Hs.
  apply match_Some in Hs as [Hin Hid]. apply satisfies_Id in Hid. done.
Qed.

End LordFeast1.

(** C2, the claim as stated fails: on Sunday, January 13th 2019 the rule
    fires and the celebration is the Sunday after Epiphany, not the feast of
    January 13th; the whole chain keeps that outcome. *)
Lemma lord_feast1_not_the_feast :
  truthy (match_ [epi1_sunday; jan13_feast] [Id (SANCTI_01_13 (Constants := common))]) = true
  /\ truthy (match_ [epi1_sunday; jan13_feast] [Id (TEMPORA_EPI1_0 (Constants := common))]) = true
  /\ rule_lord_feast1 (K := common) [] jan13_2019 [epi1_sunday] [epi1_sunday; jan13_feast] "en"
     = Ok (Some ([Some epi1_sunday], [], []))
  /\ resolve (K := common) [] jan13_2019 [epi1_sunday] [epi1_sunday; jan13_feast] "en"
     = Ok (Some ([Some epi1_sunday], [], []))
  /\ match_ [epi1_sunday; jan13_feast] [Id (SANCTI_01_13 (Constants := common))]
     = Some jan13_feast
  /\ [Some epi1_sunday] <> [Some jan13_feast].
Proof. split_and!; by vm_compute. Qed.

Lemma lord_feast1_keeps_sunday_witness :
  exists sunday,
    rule_lord_feast1 (K := common) [] jan13_2019 [epi1_sunday] [epi1_sunday; jan13_feast] "en"
    = Ok (Some ([Some sunday], [], []))
    /\ match_ [epi1_sunday; jan13_feast] [Id (TEMPORA_EPI1_0 (Constants := common))]
       = Some sunday
    /\ sunday ∈ [epi1_sunday; jan13_feast]
    /\ id sunday = TEMPORA_EPI1_0 (Constants := common).
Proof.
  apply (lord_feast1_keeps_sunday (K := common) [] jan13_2019 [epi1_sunday]
           [epi1_sunday; jan13_feast] "en"); reflexivity.
Defined.

(** ** The two feasts displaced in leap years *)

Section LeapYear.
Context {K : Constants}.
Implicit Types (calendar : Calendar) (d : date) (tempora observances : list Observance).
Implicit Types (lang : string).

Lemma feb_next_day (y n : Z) :
  1 <= n < 28 -> add_day (Date y 2 n) = Some (Date y 2 (n + 1)).
Proof.
  intros Hn. unfold add_day, days_in_month. simpl.
  destruct (isleap y); simpl; destruct (Z.ltb_spec n 29), (Z.ltb_spec n 28); done || lia.
Qed.

Lemma st_matthias_fires calendar d tempora observances lang :
  rule_st_matthias calendar d tempora observances lang <> Ok None <->
  isleap (year d) = true /\ day d = 24
  /\ exists o, o ∈ observances /\ id o = SANCTI_02_24.
Proof.
  unfold rule_st_matthias.
  destruct (truthy (match_ observances [Id SANCTI_02_24])) eqn:Hm; simpl.
  - apply truthy_match in Hm as (o & Hin & Ho). apply satisfies_Id in Ho.
    destruct (isleap (year d)); simpl; [|naive_solver].
    destruct (Z.eqb_spec (day d) 24); naive_solver.
  - split; [done|]. intros (_ & _ & o & Hin & Ho).
    apply not_true_iff_false in Hm. exfalso. apply Hm, truthy_match.
    exists o. by rewrite satisfies_Id.
Qed.

Lemma feb27_fires calendar d tempora observances lang :
  rule_feb27 calendar d tempora observances lang <> Ok None <->
  isleap (year d) = true /\ day d = 27
  /\ exists o, o ∈ observances /\ id o = SANCTI_02_27.
Proof.
  unfold rule_feb27.
  destruct (truthy (match_ observances [Id SANCTI_02_27])) eqn:Hm; simpl.
  - apply truthy_match in Hm as (o & Hin & Ho). apply satisfies_Id in Ho.
    destruct (isleap (year d)); simpl; [|naive_solver].
    destruct (Z.eqb_spec (day d) 27); naive_solver.
  - split; [done|]. intros (_ & _ & o & Hin & Ho).
    apply not_true_iff_false in Hm. exfalso. apply Hm, truthy_match.
    exists o. by rewrite satisfies_Id.
Qed.

Lemma leap_day_target (d : date) (n : Z) :
  day d = n -> 1 <= n < 28 ->
  (month d = 2 -> add_day d = Some (Date (year d) 2 (n + 1)))
  /\ (month d <> 2 -> add_day d <> Some (Date (year d) 2 (n + 1))).
Proof.
  destruct d as [y m dd]. simpl. intros -> Hn. split.
  - intros ->. by apply feb_next_day.
  - intros Hm. unfold add_day. simpl. repeat case_match; try done; intros [=]; lia.
Qed.

(** C8, as amended: each of the two rules fires exactly in a leap year, on
    day 24 (respectively 27) of the month, with the fixed feast among the
    candidates.  When it fires the celebration is the one entry
    match(observances, PATTERN_TEMPORA): the first candidate that matches the
    temporal pattern, and an empty entry when none does; the only shift moves
    the fixed feast to February 25th (28th) of the year, which is the day
    after the date being resolved exactly when that date is in February.  In
    a year that is not a leap year neither rule fires. *)
Theorem leap_year_displacement calendar d tempora observances lang :
  (rule_st_matthias calendar d tempora observances lang <> Ok None <->
     isleap (year d) = true /\ day d = 24
     /\ exists o, o ∈ observances /\ id o = SANCTI_02_24)
  /\ (rule_feb27 calendar d tempora observances lang <> Ok None <->
        isleap (year d) = true /\ day d = 27
        /\ exists o, o ∈ observances /\ id o = SANCTI_02_27)
  /\ (rule_st_matthias calendar d tempora observances lang <> Ok None ->
        exists feast,
          rule_st_matthias calendar d tempora observances lang
          = Ok (Some ([match_ observances [PATTERN_TEMPORA]], [],
                      [(Some (Date (year d) 2 25), [Some feast])]))
          /\ feast ∈ observances /\ id feast = SANCTI_02_24
          /\ (month d = 2 -> add_day d = Some (Date (year d) 2 25))
          /\ (month d <> 2 -> add_day d <> Some (Date (year d) 2 25)))
  /\ (rule_feb27 calendar d tempora observances lang <> Ok None ->
        exists feast,
          rule_feb27 calendar d tempora observances lang
          = Ok (Some ([match_ observances [PATTERN_TEMPORA]], [],
                      [(Some (Date (year d) 2 28), [Some feast])]))
          /\ feast ∈ observances /\ id feast = SANCTI_02_27
          /\ (month d = 2 -> add_day d = Some (Date (year d) 2 28))
          /\ (month d <> 2 -> add_day d <> Some (Date (year d) 2 28)))
  /\ (forall t, t ∈ observances -> satisfies t PATTERN_TEMPORA = true ->
        exists t', match_ observances [PATTERN_TEMPORA] = Some t'
                   /\ t' ∈ observances /\ satisfies t' PATTERN_TEMPORA = true)
  /\ ((forall t, t ∈ observances -> satisfies t PATTERN_TEMPORA = false) ->
        match_ observances [PATTERN_TEMPORA] = None)
  /\ (isleap (year d) = false ->
        rule_st_matthias calendar d tempora observances lang = Ok None
        /\ rule_feb27 calendar d tempora observances lang = Ok None).
Proof.
  split_and!.
  - apply st_matthias_fires.
  - apply feb27_fires.
  - intros H. pose proof (proj1 (st_matthias_fires _ _ _ _ _) H) as (_ & Hday & _).
    revert H. unfold rule_st_matthias. intros H.
    destruct (match_ observances [Id SANCTI_02_24]) as [feast|] eqn:Hm; [|done].
    apply match_Some in Hm as [Hin Hid]. apply satisfies_Id in Hid.
    exists feast. simpl in *. destruct (_ && _); [|done].
    destruct (leap_day_target d 24 Hday) as [H1 H2]; [lia|].
    by split_and!.
  - intros H. pose proof (proj1 (feb27_fires _ _ _ _ _) H) as (_ & Hday & _).
    revert H. unfold rule_feb27. intros H.
    destruct (match_ observances [Id SANCTI_02_27]) as [feast|] eqn:Hm; [|done].
    apply match_Some in Hm as [Hin Hid]. apply satisfies_Id in Hid.
    exists feast. simpl in *. destruct (_ && _); [|done].
    destruct (leap_day_target d 27 Hday) as [H1 H2]; [lia|].
    by split_and!.
  - intros t Hin Ht.
    assert (Htr : truthy (match_ observances [PATTERN_TEMPORA]) = true).
    { apply truthy_match. exists t. by rewrite satisfies_single. }
    apply truthy_Some in Htr as [t' Ht']. exists t'. split; [done|].
    apply match_Some in Ht' as [? Hs]. by rewrite satisfies_single in Hs.
  - intros Hnone.
    destruct (match_ observances [PATTERN_TEMPORA]) as [t|] eqn:Hm; [|done].
    apply match_Some in Hm as [Hin Hs]. rewrite satisfies_single in Hs.
    rewrite (Hnone t Hin) in Hs. done.
  - intros Hleap. unfold rule_st_matthias, rule_feb27. rewrite Hleap.
    by rewrite !andb_false_r.
Qed.

End LeapYear.

(** C8, the claim as stated fails: on March 24th 2020 the rule of St Matthias
    fires, the day of the month being 24, and moves the feast back to
    February 25th, which is not the day after; and on February 24th 2020
    without a temporal candidate the celebration is an empty entry. *)
Lemma leap_year_shift_not_next_day :
  rule_st_matthias (K := common) [] mar24_2020 [lent_feria mar24_2020]
    [lent_feria mar24_2020; st_matthias mar24_2020] "en"
  = Ok (Some ([Some (lent_feria mar24_2020)], [],
              [(Some (Date 2020 2 25), [Some (st_matthias mar24_2020)])]))
  /\ add_day mar24_2020 = Some (Date 2020 3 25)
  /\ Some (Date 2020 2 25) <> add_day mar24_2020
  /\ PyDate.lt (Date 2020 2 25) mar24_2020
  /\ rule_st_matthias (K := common) [] feb24_2020 [] [st_matthias feb24_2020] "en"
     = Ok (Some ([None], [], [(Some (Date 2020 2 25), [Some (st_matthias feb24_2020)])])).
Proof. split_and!; by vm_compute. Qed.

(** The rule of St Matthias at work on February 24th of 2020 and of 2019. *)
Lemma leap_year_displacement_witness :
  rule_st_matthias (K := common) [] feb24_2020 [feb_feria feb24_2020]
    [feb_feria feb24_2020; st_matthias feb24_2020] "en"
  = Ok (Some ([Some (feb_feria feb24_2020)], [],
              [(Some (Date 2020 2 25), [Some (st_matthias feb24_2020)])]))
  /\ rule_st_matthias (K := common) [] feb24_2019 [feb_feria feb24_2019]
       [feb_feria feb24_2019; st_matthias feb24_2019] "en"
     = Ok None
  /\ exists feast,
       rule_st_matthias (K := common) [] feb24_2020 [feb_feria feb24_2020]
         [feb_feria feb24_2020; st_matthias feb24_2020] "en"
       = Ok (Some ([match_ [feb_feria feb24_2020; st_matthias feb24_2020]
                      [PATTERN_TEMPORA (Constants := common)]], [],
                   [(Some (Date (year feb24_2020) 2 25), [Some feast])]))
       /\ feast ∈ [feb_feria feb24_2020; st_matthias feb24_2020]
       /\ id feast = SANCTI_02_24 (Constants := common)
       /\ (month feb24_2020 = 2 ->
           add_day feb24_2020 = Some (Date (year feb24_2020) 2 25))
       /\ (month feb24_2020 <> 2 ->
           add_day feb24_2020 <> Some (Date (year feb24_2020) 2 25)).
Proof.
  split; [reflexivity|]. split; [reflexivity|].
  apply (leap_year_displacement (K := common) [] feb24_2020 [feb_feria feb24_2020]
           [feb_feria feb24_2020; st_matthias feb24_2020] "en").
  discriminate.
Defined.

(** ** The collision of feasts of the 1st class *)

Section Collision.
Implicit Types (calendar : Calendar) (d : date) (tempora observances : list Observance).
Implicit Types (lang : string).

(** A date the loop returns is later than the date it started from. *)
Lemma loop_later calendar (y : Z) (fuel : nat) (target t : date) :
  valid target ->
  _calc_target_date_loop calendar y fuel target = Ok (Some t) ->
  PyDate.lt target t.
Proof.
  revert target. induction fuel as [|fuel IH]; intros target Hv; simpl; [done|].
  destruct (year target =? y); [|done].
  destruct (add_day target) as [t'|] eqn:Hadd; [|done].
  destruct (get_day calendar t') as [dy|]; [|done].
  pose proof (add_day_lt _ _ Hv Hadd) as Hlt.
  destruct (free_day dy); [intros; by simplify_eq|].
  intros H. apply IH in H; [|by eapply add_day_valid].
  eapply lt_le_trans; [exact Hlt|]. by apply lt_le_incl.
Qed.

Lemma calc_target_date_later calendar d t :
  valid d -> _calc_target_date calendar d = Ok (Some t) -> PyDate.lt d t.
Proof. apply loop_later. Qed.

Lemma calc_target_date_terminates calendar d :
  valid d -> _calc_target_date calendar d <> OutOfFuel.
Proof.
  intros Hv. apply loop_terminates; [done | lia |].
  intros _. pose proof (yday_bounds _ Hv). lia.
Qed.

(** What the rule does once more than one candidate is of the 1st class:
    the two first of them in the order of priority are kept, and the outcome
    follows the search for the target date. *)
Lemma shift_conflicting_run calendar d tempora observances lang :
  (1 < length (first_class observances))%nat ->
  exists celebrated shifted rest,
    first_class observances ≡ₚ celebrated :: shifted :: rest
    /\ priority celebrated <= priority shifted
    /\ Forall (fun o => priority celebrated <= priority o) rest
    /\ Forall (fun o => priority shifted <= priority o) rest
    /\ rule_shift_conflicting_1st_class_feasts calendar d tempora observances lang
       = match _calc_target_date calendar d with
         | Ok target => Ok (Some ([Some celebrated], [], [(target, [Some shifted])]))
         | Raise e => Raise e
         | OutOfFuel => OutOfFuel
         end.
Proof.
  unfold first_class. intros Hlen.
  destruct (sorted_take_2 by_priority by_priority_total by_priority_trans _ Hlen)
    as (a & b & rest & _ & Htake & Hperm & Hab & Ha & Hb).
  exists a, b, rest. unfold by_priority in Hab, Ha, Hb.
  split_and!; try done.
  - by apply Z.leb_le.
  - eapply Forall_impl; [exact Ha|]. intros o. apply Z.leb_le.
  - eapply Forall_impl; [exact Hb|]. intros o. apply Z.leb_le.
  - unfold rule_shift_conflicting_1st_class_feasts. cbv zeta.
    rewrite (proj2 (Nat.ltb_lt _ _) Hlen).
    by rewrite Htake.
Qed.

Lemma shift_conflicting_idle calendar d tempora observances lang :
  (length (first_class observances) <= 1)%nat ->
  rule_shift_conflicting_1st_class_feasts calendar d tempora observances lang = Ok None.
Proof.
  unfold first_class. intros Hlen. unfold rule_shift_conflicting_1st_class_feasts. cbv zeta.
  by rewrite (proj2 (Nat.ltb_ge _ _) Hlen).
Qed.

(** C4: with more than one candidate of the 1st class, and a free date later
    in the year, the rule celebrates a candidate of the 1st class of the
    lowest priority value and shifts the next one in the order of priority,
    the other one when there are two, to the nearest free date after the date
    being resolved. *)
Theorem first_class_collision calendar d tempora observances lang (t : date) :
  valid d ->
  (1 < length (first_class observances))%nat ->
  valid t -> PyDate.lt d t -> year t = year d -> free_at calendar t ->
  (forall d', valid d' -> PyDate.lt d d' -> PyDate.le d' t ->
              is_Some (get_day calendar d')) ->
  exists celebrated shifted rest target,
    rule_shift_conflicting_1st_class_feasts calendar d tempora observances lang
    = Ok (Some ([Some celebrated], [], [(Some target, [Some shifted])]))
    /\ first_class observances ≡ₚ celebrated :: shifted :: rest
    /\ (forall o, o ∈ first_class observances ->
                  priority celebrated <= priority o)
    /\ Forall (fun o => priority shifted <= priority o) rest
    /\ valid target /\ PyDate.lt d target /\ year target = year d
    /\ free_at calendar target
    /\ (forall d', valid d' -> PyDate.lt d d' -> PyDate.lt d' target ->
                   taken_at calendar d').
Proof.
  intros Hv Hlen Ht Hlt Hy Hfree Hdays.
  destruct (shift_conflicting_run calendar d tempora observances lang Hlen)
    as (a & b & rest & Hperm & Hab & Ha & Hb & Hrun).
  destruct (loop_finds calendar (year d) 367 d t) as
    (t0 & Hres & Hv0 & Hlt0 & _ & Hy0 & Hfree0 & Hmin); try done.
  { pose proof (yday_bounds _ Hv). lia. }
  exists a, b, rest, t0. split_and!; try done.
  - rewrite Hrun. unfold _calc_target_date. by rewrite Hres.
  - intros o Ho. rewrite Hperm in Ho.
    apply elem_of_cons in Ho as [->|Ho]; [lia|].
    apply elem_of_cons in Ho as [->|Ho]; [lia|].
    rewrite Forall_forall in Ha. by apply Ha.
Qed.

(** C10: with three or more candidates of the 1st class the rule keeps the
    two first in the order of priority, the lowest as the celebration and the
    next as the one shifted observance; no other observance is mentioned in
    the outcome, so every further candidate of the 1st class is dropped. *)
Theorem further_first_class_dropped calendar d tempora observances lang
    (target : option date) :
  (2 < length (first_class observances))%nat ->
  _calc_target_date calendar d = Ok target ->
  exists celebrated shifted rest out,
    rule_shift_conflicting_1st_class_feasts calendar d tempora observances lang
    = Ok (Some out)
    /\ out = ([Some celebrated], [], [(target, [Some shifted])])
    /\ first_class observances ≡ₚ celebrated :: shifted :: rest
    /\ rest <> []
    /\ priority celebrated <= priority shifted
    /\ Forall (fun o => priority shifted <= priority o) rest
    /\ mentioned out = [celebrated; shifted]
    /\ (NoDup observances -> forall o, o ∈ rest -> o ∉ mentioned out).
Proof.
  intros Hlen Hsearch.
  destruct (shift_conflicting_run calendar d tempora observances lang)
    as (a & b & rest & Hperm & Hab & Ha & Hb & Hrun); [lia|].
  rewrite Hsearch in Hrun.
  exists a, b, rest, ([Some a], [], [(target, [Some b])]).
  split_and!; try done.
  - intros ->. rewrite Hperm in Hlen. simpl in Hlen. lia.
  - intros Hnd o Ho. simpl.
    assert (Hnd' : NoDup (a :: b :: rest)).
    { rewrite <- Hperm. unfold first_class. by apply NoDup_filter. }
    apply NoDup_cons in Hnd' as [Ha' Hnd']. apply NoDup_cons in Hnd' as [Hb' _].
    unfold mentioned, present. simpl. set_solver.
Qed.

(** C3, as amended: when every later date of the year holds a candidate of
    the 1st or 2nd class, the search steps past December 31st and looks
    January 1st of the next year up; the calendar of the year has no Day for
    it, so the rule raises and returns no outcome, hence no shift target. *)
Theorem search_exhausted_raises calendar d tempora observances lang :
  valid d ->
  (1 < length (first_class observances))%nat ->
  (forall d', valid d' -> PyDate.lt d d' -> year d' = year d -> taken_at calendar d') ->
  (forall d', year d' <> year d -> get_day calendar d' = None) ->
  _calc_target_date calendar d
  = Raise (if year d <? MAXYEAR then AttributeError else OverflowError)
  /\ rule_shift_conflicting_1st_class_feasts calendar d tempora observances lang
     = Raise (if year d <? MAXYEAR then AttributeError else OverflowError).
Proof.
  intros Hv Hlen Htaken Hyear.
  assert (Hsearch : _calc_target_date calendar d
                    = Raise (if year d <? MAXYEAR then AttributeError else OverflowError)).
  { unfold _calc_target_date.
    rewrite (loop_exhausted calendar (year d) 367 d); try done.
    2:{ pose proof (yday_bounds _ Hv). lia. }
    unfold past_year_end, add_day, days_in_month. simpl.
    destruct (Z.ltb_spec (year d) MAXYEAR); [|done].
    rewrite Hyear; [done|]. simpl. lia. }
  split; [done|].
  destruct (shift_conflicting_run calendar d tempora observances lang Hlen)
    as (a & b & rest & _ & _ & _ & _ & Hrun).
  by rewrite Hrun, Hsearch.
Qed.

End Collision.

(** *** The collision rule on concrete days *)

Lemma good_friday_2016_valid : valid good_friday_2016.
Proof. unfold valid. simpl. unfold MINYEAR, MAXYEAR, days_in_month. simpl. lia. Qed.

Lemma easter_2016_days (d' : date) :
  valid d' -> PyDate.lt good_friday_2016 d' -> PyDate.le d' (Date 2016 4 4) ->
  is_Some (get_day easter_2016 d').
Proof.
  destruct d' as [y m dd]. unfold valid. rewrite lt_iff, le_iff. simpl.
  intros (_ & Hm & Hd) H1 H2.
  assert (y = 2016) as -> by lia.
  assert (m = 3 \/ m = 4) as [-> | ->] by lia.
  - unfold days_in_month in Hd. simpl in Hd.
    assert (dd = 26 \/ dd = 27 \/ dd = 28 \/ dd = 29 \/ dd = 30 \/ dd = 31)
      as Hdd by lia.
    repeat (destruct Hdd as [-> | Hdd]); [..|subst dd]; vm_compute; eauto.
  - assert (dd = 1 \/ dd = 2 \/ dd = 3 \/ dd = 4) as Hdd by lia.
    repeat (destruct Hdd as [-> | Hdd]); [..|subst dd]; vm_compute; eauto.
Qed.

Lemma easter_monday_week_free : free_at easter_2016 (Date 2016 4 4).
Proof. eexists. split; by vm_compute. Qed.

(** On Good Friday 2016 the Annunciation is shifted to Monday, April 4th. *)
Lemma first_class_collision_witness :
  rule_shift_conflicting_1st_class_feasts easter_2016 good_friday_2016
    [good_friday] [annunciation; good_friday] "en"
  = Ok (Some ([Some good_friday], [], [(Some (Date 2016 4 4), [Some annunciation])]))
  /\ exists celebrated shifted rest target,
       rule_shift_conflicting_1st_class_feasts easter_2016 good_friday_2016
         [good_friday] [annunciation; good_friday] "en"
       = Ok (Some ([Some celebrated], [], [(Some target, [Some shifted])]))
       /\ first_class [annunciation; good_friday] ≡ₚ celebrated :: shifted :: rest
       /\ (forall o, o ∈ first_class [annunciation; good_friday] ->
                     priority celebrated <= priority o)
       /\ Forall (fun o => priority shifted <= priority o) rest
       /\ valid target /\ PyDate.lt good_friday_2016 target
       /\ year target = year good_friday_2016
       /\ free_at easter_2016 target
       /\ (forall d', valid d' -> PyDate.lt good_friday_2016 d' ->
                      PyDate.lt d' target -> taken_at easter_2016 d').
Proof.
  split; [reflexivity|].
  apply (first_class_collision easter_2016 good_friday_2016 [good_friday]
           [annunciation; good_friday] "en" (Date 2016 4 4)).
  - exact good_friday_2016_valid.
  - vm_compute. lia.
  - unfold valid. simpl. unfold MINYEAR, MAXYEAR, days_in_month. simpl. lia.
  - reflexivity.
  - reflexivity.
  - exact easter_monday_week_free.
  - exact easter_2016_days.
Defined.

(** With a third feast of the 1st class on that day, the one of the highest
    priority value is dropped. *)
Lemma further_first_class_dropped_witness :
  (2 < length (first_class [local_patron; annunciation; good_friday]))%nat
  /\ _calc_target_date easter_2016 good_friday_2016 = Ok (Some (Date 2016 4 4))
  /\ rule_shift_conflicting_1st_class_feasts easter_2016 good_friday_2016
       [good_friday] [local_patron; annunciation; good_friday] "en"
     = Ok (Some ([Some good_friday], [], [(Some (Date 2016 4 4), [Some annunciation])]))
  /\ exists celebrated shifted rest out,
       rule_shift_conflicting_1st_class_feasts easter_2016 good_friday_2016
         [good_friday] [local_patron; annunciation; good_friday] "en"
       = Ok (Some out)
       /\ out = ([Some celebrated], [], [(Some (Date 2016 4 4), [Some shifted])])
       /\ first_class [local_patron; annunciation; good_friday]
          ≡ₚ celebrated :: shifted :: rest
       /\ rest <> []
       /\ priority celebrated <= priority shifted
       /\ Forall (fun o => priority shifted <= priority o) rest
       /\ mentioned out = [celebrated; shifted]
       /\ (NoDup [local_patron; annunciation; good_friday] ->
           forall o, o ∈ rest -> o ∉ mentioned out).
Proof.
  split; [vm_compute; lia|]. split; [reflexivity|]. split; [reflexivity|].
  apply (further_first_class_dropped easter_2016 good_friday_2016 [good_friday]
           [local_patron; annunciation; good_friday] "en" (Some (Date 2016 4 4))).
  - vm_compute. lia.
  - reflexivity.
Defined.

Lemma dec30_2019_valid : valid dec30_2019.
Proof. unfold valid. simpl. unfold MINYEAR, MAXYEAR, days_in_month. simpl. lia. Qed.

Lemma end_of_2019_taken (d' : date) :
  valid d' -> PyDate.lt dec30_2019 d' -> year d' = year dec30_2019 ->
  taken_at end_of_2019 d'.
Proof.
  destruct d' as [y m dd]. unfold valid. rewrite lt_iff. simpl.
  intros (_ & Hm & Hd) H1 ->.
  assert (m = 12) as -> by lia. unfold days_in_month in Hd. simpl in Hd.
  assert (dd = 31) as -> by lia.
  eexists. split; by vm_compute.
Qed.

Lemma end_of_2019_one_year (d' : date) :
  year d' <> year dec30_2019 -> get_day end_of_2019 d' = None.
Proof.
  intros Hy. unfold get_day, end_of_2019, tempora_day. simpl.
  repeat (case_bool_decide; [subst d'; by simpl in Hy|]). done.
Qed.

(** C3, the claim as stated fails: on December 30th 2019 two feasts of the
    1st class collide and December 31st is taken; the rule produces no shift
    target, neither the last day examined nor any other: it raises. *)
Lemma search_exhausted_no_target :
  (1 < length (first_class dec30_feasts))%nat
  /\ (forall d', valid d' -> PyDate.lt dec30_2019 d' -> year d' = year dec30_2019 ->
                 taken_at end_of_2019 d')
  /\ rule_shift_conflicting_1st_class_feasts end_of_2019 dec30_2019 [] dec30_feasts "en"
     = Raise AttributeError
  /\ ~ (exists celebrated shifted (target : date),
          rule_shift_conflicting_1st_class_feasts end_of_2019 dec30_2019 []
            dec30_feasts "en"
          = Ok (Some ([Some celebrated], [], [(Some target, [Some shifted])]))).
Proof.
  split_and!.
  - vm_compute. lia.
  - exact end_of_2019_taken.
  - reflexivity.
  - intros (c & s & t & H). vm_compute in H. discriminate.
Qed.

Lemma search_exhausted_raises_witness :
  _calc_target_date end_of_2019 dec30_2019
  = Raise (if year dec30_2019 <? MAXYEAR then AttributeError else OverflowError)
  /\ rule_shift_conflicting_1st_class_feasts end_of_2019 dec30_2019 [] dec30_feasts "en"
     = Raise (if year dec30_2019 <? MAXYEAR then AttributeError else OverflowError).
Proof.
  apply (search_exhausted_raises end_of_2019 dec30_2019 [] dec30_feasts "en").
  - exact dec30_2019_valid.
  - vm_compute. lia.
  - exact end_of_2019_taken.
  - exact end_of_2019_one_year.
Defined.

(** ** Where the shifts go *)

Section Shifts.
Context {K : Constants}.
Implicit Types (calendar : Calendar) (d : date) (tempora observances : list Observance).
Implicit Types (lang : string) (out : Outcome).

Ltac no_shift_by_cases :=
  intros calendar d tempora observances lang out;
  cbv beta zeta delta [rule_nativity_has_multiple_masses
    rule_nativity_vigil rule_immaculate_coneption rule_lord_feast1
    rule_lord_feast2 first_class_feast_no_commemoration rule_2nd_class_sunday
    rule_1st_class_feria rule_2nd_class_feast_takes_over_advent_feria_and_ember_days
    rule_bmv_office_on_saturday rule_precedence];
  intros H; repeat case_match; by simplify_eq.

Lemma no_shift_nativity : no_shift rule_nativity_has_multiple_masses.
Proof. no_shift_by_cases. Qed.
Lemma no_shift_nativity_vigil : no_shift rule_nativity_vigil.
Proof. no_shift_by_cases. Qed.
Lemma no_shift_immaculate_coneption : no_shift rule_immaculate_coneption.
Proof. no_shift_by_cases. Qed.
Lemma no_shift_lord_feast1 : no_shift rule_lord_feast1.
Proof. no_shift_by_cases. Qed.
Lemma no_shift_lord_feast2 : no_shift rule_lord_feast2.
Proof. no_shift_by_cases. Qed.
Lemma no_shift_first_class_feast : no_shift first_class_feast_no_commemoration.
Proof. no_shift_by_cases. Qed.
Lemma no_shift_2nd_class_sunday : no_shift rule_2nd_class_sunday.
Proof. no_shift_by_cases. Qed.
Lemma no_shift_1st_class_feria : no_shift rule_1st_class_feria.
Proof. no_shift_by_cases. Qed.
Lemma no_shift_2nd_class_feast :
  no_shift rule_2nd_class_feast_takes_over_advent_feria_and_ember_days.
Proof. no_shift_by_cases. Qed.
Lemma no_shift_bmv_office : no_shift rule_bmv_office_on_saturday.
Proof. no_shift_by_cases. Qed.
Lemma no_shift_precedence : no_shift rule_precedence.
Proof. no_shift_by_cases. Qed.

(** C6, as amended: for every rule of the chain and every input on which it
    fires, every shift targets a date strictly later than the date being
    resolved, except in these cases: the All Souls rule fired on a Sunday that
    is not before November 3rd (the target is November 3rd of the year); a
    leap-year rule fired on the 24th or 27th of a month after February (the
    target is February 25th or 28th of the year); the collision rule when its
    search returns no date (the target is null). *)
Theorem shifts_target_later calendar d tempora observances lang (r : rule) out
    (tgt : option date) (os : list (option Observance)) :
  valid d ->
  r ∈ rules ->
  r calendar d tempora observances lang = Ok (Some out) ->
  (tgt, os) ∈ shift out ->
  (exists t, tgt = Some t /\ PyDate.lt d t)
  \/ (tgt = Some (Date (year d) 11 3)
      /\ weekday d = 6
      /\ truthy (match_ observances [Id SANCTI_11_02_1]) = true
      /\ PyDate.le (Date (year d) 11 3) d)
  \/ (tgt = Some (Date (year d) 2 25)
      /\ isleap (year d) = true /\ day d = 24
      /\ truthy (match_ observances [Id SANCTI_02_24]) = true
      /\ PyDate.le (Date (year d) 2 25) d /\ 2 < month d)
  \/ (tgt = Some (Date (year d) 2 28)
      /\ isleap (year d) = true /\ day d = 27
      /\ truthy (match_ observances [Id SANCTI_02_27]) = true
      /\ PyDate.le (Date (year d) 2 28) d /\ 2 < month d)
  \/ (tgt = None
      /\ (1 < length (first_class observances))%nat
      /\ _calc_target_date calendar d = Ok None).
Proof.
  intros Hv Hr Hout Hin. unfold rules in Hr.
  repeat (apply elem_of_cons in Hr as [->|Hr]);
    try (exfalso;
         first [ apply no_shift_nativity in Hout
               | apply no_shift_nativity_vigil in Hout
               | apply no_shift_immaculate_coneption in Hout
               | apply no_shift_lord_feast1 in Hout
               | apply no_shift_lord_feast2 in Hout
               | apply no_shift_first_class_feast in Hout
               | apply no_shift_2nd_class_sunday in Hout
               | apply no_shift_1st_class_feria in Hout
               | apply no_shift_2nd_class_feast in Hout
               | apply no_shift_bmv_office in Hout
               | apply no_shift_precedence in Hout ];
         rewrite Hout in Hin; by apply elem_of_nil in Hin).
  - unfold rule_all_souls in Hout.
    destruct (truthy (match_ observances [Id SANCTI_11_02_1])); [|done].
    destruct (Z.eqb_spec (weekday d) 6) as [Hsun|]; simplify_eq; simpl in Hin.
    + apply list_elem_of_singleton in Hin. simplify_eq.
      destruct (PyDate.ltb d (Date (year d) 11 3)) eqn:Hlt.
      * left. eauto.
      * right; left. split_and!; try done. unfold PyDate.le, PyDate.leb. by rewrite Hlt.
    + by apply elem_of_nil in Hin.
  - unfold rule_st_matthias in Hout.
    destruct (truthy (match_ observances [Id SANCTI_02_24])); [|done].
    destruct (isleap (year d)); [|done]. simpl in Hout.
    destruct (Z.eqb_spec (day d) 24) as [Hd|]; simplify_eq; simpl in Hin.
    apply list_elem_of_singleton in Hin. simplify_eq.
    destruct (decide (month d <= 2)) as [Hm|Hm].
    + left. eexists. split; [done|]. apply lt_iff. simpl. clear -Hm Hd. lia.
    + right; right; left. split_and!; try done; [|clear -Hm; lia].
      apply le_iff. simpl. clear -Hm Hd. lia.
  - unfold rule_feb27 in Hout.
    destruct (truthy (match_ observances [Id SANCTI_02_27])); [|done].
    destruct (isleap (year d)); [|done]. simpl in Hout.
    destruct (Z.eqb_spec (day d) 27) as [Hd|]; simplify_eq; simpl in Hin.
    apply list_elem_of_singleton in Hin. simplify_eq.
    destruct (decide (month d <= 2)) as [Hm|Hm].
    + left. eexists. split; [done|]. apply lt_iff. simpl. clear -Hm Hd. lia.
    + right; right; right; left. split_and!; try done; [|clear -Hm; lia].
      apply le_iff. simpl. clear -Hm Hd. lia.
  - destruct (decide (1 < length (first_class observances))%nat) as [Hlen|Hlen].
    + destruct (shift_conflicting_run calendar d tempora observances lang Hlen)
        as (a & b & rest & _ & _ & _ & _ & Hrun).
      rewrite Hrun in Hout.
      destruct (_calc_target_date calendar d) as [target| |] eqn:Hsearch; simplify_eq.
      simpl in Hin. apply list_elem_of_singleton in Hin. simplify_eq.
      destruct target as [t|].
      * left. exists t. split; [done|]. by apply (calc_target_date_later calendar).
      * right; right; right; right. done.
    + rewrite shift_conflicting_idle in Hout by lia. done.
  - by apply elem_of_nil in Hr.
Qed.

End Shifts.

(** C6, the claim as stated fails: the All Souls rule, evaluated on Sunday,
    November 9th 2025 with a candidate of All Souls, fires and shifts to
    November 3rd, six days before the date being resolved. *)
Lemma shift_targets_earlier_date :
  rule_all_souls (K := common) [] nov9_2025 [pent_sunday nov9_2025]
    [pent_sunday nov9_2025; all_souls_mass nov9_2025] "en"
  = Ok (Some ([Some (pent_sunday nov9_2025)], [],
              [(Some (Date 2025 11 3), [Some (all_souls_mass nov9_2025)])]))
  /\ resolve (K := common) [] nov9_2025 [pent_sunday nov9_2025]
       [pent_sunday nov9_2025; all_souls_mass nov9_2025] "en"
     = Ok (Some ([Some (pent_sunday nov9_2025)], [],
                 [(Some (Date 2025 11 3), [Some (all_souls_mass nov9_2025)])]))
  /\ ~ PyDate.lt nov9_2025 (Date 2025 11 3)
  /\ PyDate.lt (Date 2025 11 3) nov9_2025.
Proof. split_and!; by vm_compute. Qed.

(** On Sunday, November 2nd 2025 the All Souls rule shifts to the next day. *)
Lemma shifts_target_later_witness :
  rule_all_souls (K := common) [] nov2_2025 [pent_sunday nov2_2025]
    [pent_sunday nov2_2025; all_souls_mass nov2_2025] "en"
  = Ok (Some ([Some (pent_sunday nov2_2025)], [],
              [(Some (Date 2025 11 3), [Some (all_souls_mass nov2_2025)])]))
  /\ PyDate.lt nov2_2025 (Date 2025 11 3)
  /\ ((exists t, Some (Date 2025 11 3) = Some t /\ PyDate.lt nov2_2025 t)
      \/ (Some (Date 2025 11 3) = Some (Date (year nov2_2025) 11 3)
          /\ weekday nov2_2025 = 6
          /\ truthy (match_ [pent_sunday nov2_2025; all_souls_mass nov2_2025]
                        [Id (SANCTI_11_02_1 (Constants := common))]) = true
          /\ PyDate.le (Date (year nov2_2025) 11 3) nov2_2025)
      \/ (Some (Date 2025 11 3) = Some (Date (year nov2_2025) 2 25)
          /\ isleap (year nov2_2025) = true /\ day nov2_2025 = 24
          /\ truthy (match_ [pent_sunday nov2_2025; all_souls_mass nov2_2025]
                        [Id (SANCTI_02_24 (Constants := common))]) = true
          /\ PyDate.le (Date (year nov2_2025) 2 25) nov2_2025 /\ 2 < month nov2_2025)
      \/ (Some (Date 2025 11 3) = Some (Date (year nov2_2025) 2 28)
          /\ isleap (year nov2_2025) = true /\ day nov2_2025 = 27
          /\ truthy (match_ [pent_sunday nov2_2025; all_souls_mass nov2_2025]
                        [Id (SANCTI_02_27 (Constants := common))]) = true
          /\ PyDate.le (Date (year nov2_2025) 2 28) nov2_2025 /\ 2 < month nov2_2025)
      \/ (Some (Date 2025 11 3) = None
          /\ (1 < length (first_class [pent_sunday nov2_2025; all_souls_mass nov2_2025]))%nat
          /\ _calc_target_date [] nov2_2025 = Ok None)).
Proof.
  split; [reflexivity|]. split; [reflexivity|].
  apply (shifts_target_later (K := common) [] nov2_2025 [pent_sunday nov2_2025]
           [pent_sunday nov2_2025; all_souls_mass nov2_2025] "en" rule_all_souls
           ([Some (pent_sunday nov2_2025)], [],
            [(Some (Date 2025 11 3), [Some (all_souls_mass nov2_2025)])])
           (Some (Date 2025 11 3)) [Some (all_souls_mass nov2_2025)]).
  - unfold valid. simpl. unfold MINYEAR, MAXYEAR, days_in_month. simpl. lia.
  - right. left.
  - reflexivity.
  - apply list_elem_of_singleton. reflexivity.
Defined.

(** ** Totality of the chain *)

Section Totality.
Context {K : Constants}.
Implicit Types (calendar : Calendar) (d : date) (tempora observances : list Observance).
Implicit Types (lang : string) (out : Outcome).

Ltac returns_by_cases :=
  intros calendar d tempora observances lang;
  cbv beta zeta delta [rule_nativity_has_multiple_masses rule_all_souls
    rule_nativity_vigil rule_immaculate_coneption rule_st_matthias rule_feb27
    rule_lord_feast1 rule_lord_feast2 first_class_feast_no_commemoration
    rule_2nd_class_sunday rule_1st_class_feria
    rule_2nd_class_feast_takes_over_advent_feria_and_ember_days];
  repeat case_match; eauto.

Lemma returns_nativity : returns rule_nativity_has_multiple_masses.
Proof. returns_by_cases. Qed.
Lemma returns_all_souls : returns rule_all_souls.
Proof. returns_by_cases. Qed.
Lemma returns_nativity_vigil : returns rule_nativity_vigil.
Proof. returns_by_cases. Qed.
Lemma returns_immaculate_coneption : returns rule_immaculate_coneption.
Proof. returns_by_cases. Qed.
Lemma returns_st_matthias : returns rule_st_matthias.
Proof. returns_by_cases. Qed.
Lemma returns_feb27 : returns rule_feb27.
Proof. returns_by_cases. Qed.
Lemma returns_lord_feast1 : returns rule_lord_feast1.
Proof. returns_by_cases. Qed.
Lemma returns_lord_feast2 : returns rule_lord_feast2.
Proof. returns_by_cases. Qed.
Lemma returns_first_class_feast : returns first_class_feast_no_commemoration.
Proof. returns_by_cases. Qed.
Lemma returns_2nd_class_sunday : returns rule_2nd_class_sunday.
Proof. returns_by_cases. Qed.
Lemma returns_1st_class_feria : returns rule_1st_class_feria.
Proof. returns_by_cases. Qed.
Lemma returns_2nd_class_feast :
  returns rule_2nd_class_feast_takes_over_advent_feria_and_ember_days.
Proof. returns_by_cases. Qed.

Ltac by_returns calendar d tempora observances lang :=
  first [ solve [destruct (returns_nativity calendar d tempora observances lang); congruence]
        | solve [destruct (returns_all_souls calendar d tempora observances lang); congruence]
        | solve [destruct (returns_nativity_vigil calendar d tempora observances lang); congruence]
        | solve [destruct (returns_immaculate_coneption calendar d tempora observances lang); congruence]
        | solve [destruct (returns_st_matthias calendar d tempora observances lang); congruence]
        | solve [destruct (returns_feb27 calendar d tempora observances lang); congruence]
        | solve [destruct (returns_lord_feast1 calendar d tempora observances lang); congruence]
        | solve [destruct (returns_lord_feast2 calendar d tempora observances lang); congruence]
        | solve [destruct (returns_first_class_feast calendar d tempora observances lang); congruence]
        | solve [destruct (returns_2nd_class_sunday calendar d tempora observances lang); congruence]
        | solve [destruct (returns_1st_class_feria calendar d tempora observances lang); congruence]
        | solve [destruct (returns_2nd_class_feast calendar d tempora observances lang); congruence] ].

(** The default rule returns an outcome on every input. *)
Lemma rule_precedence_total calendar d tempora observances lang :
  exists out, rule_precedence calendar d tempora observances lang = Ok (Some out).
Proof.
  unfold rule_precedence.
  destruct (Nat.eqb_spec (length observances) 0); [eauto|].
  destruct (Nat.eqb_spec (length observances) 1); [eauto|].
  destruct (sorted_take_2 by_precedence by_precedence_total by_precedence_trans
              observances) as (a & b & rest & _ & Htake & _); [lia|].
  rewrite Htake. destruct (_ || _); eauto.
Qed.

Lemma bmv_office_not_out_of_fuel calendar d tempora observances lang :
  rule_bmv_office_on_saturday calendar d tempora observances lang <> OutOfFuel.
Proof.
  unfold rule_bmv_office_on_saturday, _calc_proper_for_given_period.
  repeat case_match; done.
Qed.

Lemma shift_conflicting_not_out_of_fuel calendar d tempora observances lang :
  valid d ->
  rule_shift_conflicting_1st_class_feasts calendar d tempora observances lang
  <> OutOfFuel.
Proof.
  intros Hv. pose proof (calc_target_date_terminates calendar d Hv) as Hterm.
  unfold rule_shift_conflicting_1st_class_feasts. repeat case_match; done.
Qed.

Lemma first_result_returns (rs : list rule) calendar d tempora observances lang :
  Forall returns rs ->
  exists res, first_result rs calendar d tempora observances lang = Ok res.
Proof.
  induction 1 as [|r rs Hr _ IH]; simpl; [eauto|].
  destruct (Hr calendar d tempora observances lang) as [[out|] ->]; eauto.
Qed.

(** C5, as amended: on every input with a valid date, evaluating the rules in
    order and keeping the first result that is not [None] yields an outcome,
    unless the collision rule raises when it is reached (the six rules before
    it return [None]) or the Marian Saturday rule raises when it is reached
    (the thirteen rules before it return [None]); the final default rule
    returns an outcome on every input, so the chain never ends without an
    applicable rule. *)
Theorem chain_total calendar d tempora observances lang :
  valid d ->
  (reached 6 calendar d tempora observances lang ->
   forall e, rule_shift_conflicting_1st_class_feasts calendar d tempora observances lang
             <> Raise e) ->
  (reached 13 calendar d tempora observances lang ->
   forall e, rule_bmv_office_on_saturday calendar d tempora observances lang
             <> Raise e) ->
  (exists out, rule_precedence calendar d tempora observances lang = Ok (Some out))
  /\ (exists out, resolve calendar d tempora observances lang = Ok (Some out)).
Proof.
  intros Hv H6 H13. split; [apply rule_precedence_total|].
  unfold reached in H6, H13. unfold resolve.
  change rules with
    (take 6 rules ++ [rule_shift_conflicting_1st_class_feasts]
     ++ [rule_lord_feast1; rule_lord_feast2; first_class_feast_no_commemoration;
         rule_2nd_class_sunday; rule_1st_class_feria;
         rule_2nd_class_feast_takes_over_advent_feria_and_ember_days]
     ++ [rule_bmv_office_on_saturday] ++ [rule_precedence]).
  change (take 13 rules) with
    (take 6 rules ++ [rule_shift_conflicting_1st_class_feasts]
     ++ [rule_lord_feast1; rule_lord_feast2; first_class_feast_no_commemoration;
         rule_2nd_class_sunday; rule_1st_class_feria;
         rule_2nd_class_feast_takes_over_advent_feria_and_ember_days]) in H13.
  rewrite !first_result_app in H13. rewrite !first_result_app.
  destruct (first_result_returns (take 6 rules) calendar d tempora observances lang)
    as [[out|] Hhead].
  { unfold rules. simpl.
    repeat constructor;
      [ apply returns_nativity | apply returns_all_souls | apply returns_nativity_vigil
      | apply returns_immaculate_coneption | apply returns_st_matthias
      | apply returns_feb27 ]. }
  { rewrite Hhead. eauto. }
  rewrite Hhead in *. specialize (H6 eq_refl).
  pose proof (shift_conflicting_not_out_of_fuel calendar d tempora observances lang Hv)
    as Hfuel.
  simpl (first_result [rule_shift_conflicting_1st_class_feasts] _ _ _ _ _) in *.
  destruct (rule_shift_conflicting_1st_class_feasts calendar d tempora observances lang)
    as [[out|]|e|]; [eauto| |by destruct (H6 e)|done].
  destruct (first_result_returns
              [rule_lord_feast1; rule_lord_feast2; first_class_feast_no_commemoration;
               rule_2nd_class_sunday; rule_1st_class_feria;
               rule_2nd_class_feast_takes_over_advent_feria_and_ember_days]
              calendar d tempora observances lang) as [[out|] Hmid].
  { repeat constructor;
      [ apply returns_lord_feast1 | apply returns_lord_feast2
      | apply returns_first_class_feast | apply returns_2nd_class_sunday
      | apply returns_1st_class_feria | apply returns_2nd_class_feast ]. }
  { rewrite Hmid. eauto. }
  rewrite Hmid in *. specialize (H13 eq_refl).
  pose proof (bmv_office_not_out_of_fuel calendar d tempora observances lang) as Hfuel'.
  simpl (first_result [rule_bmv_office_on_saturday] _ _ _ _ _).
  destruct (rule_bmv_office_on_saturday calendar d tempora observances lang)
    as [[out|]|e|]; [eauto| |by destruct (H13 e)|done].
  simpl. destruct (rule_precedence_total calendar d tempora observances lang) as [out ->].
  eauto.
Qed.

End Totality.

(** C5, the claim as stated fails: on December 30th 2019, with two feasts of
    the 1st class and December 31st taken, the chain yields no outcome: the
    collision rule raises before the default rule is reached. *)
Lemma chain_raises :
  resolve (K := common) end_of_2019 dec30_2019 [] dec30_feasts "en" = Raise AttributeError
  /\ ~ (exists out, resolve (K := common) end_of_2019 dec30_2019 [] dec30_feasts "en"
                    = Ok (Some out)).
Proof.
  split; [reflexivity|]. intros [out H]. vm_compute in H. discriminate.
Qed.

(** On Christmas Day 2019 the collision rule alone would raise, the days to
    the end of the year being of the 2nd class; it is not reached, and the
    chain yields the masses.  On Good Friday 2016 it is reached and returns. *)
Lemma chain_total_witness :
  rule_shift_conflicting_1st_class_feasts christmastide_2019 christmas_2019 []
    christmas_masses "en" = Raise AttributeError
  /\ resolve (K := common) christmastide_2019 christmas_2019 [] christmas_masses "en"
     = Ok (Some (Some <$> christmas_masses, [], []))
  /\ ((exists out, rule_precedence (K := common) christmastide_2019 christmas_2019 []
                     christmas_masses "en" = Ok (Some out))
      /\ (exists out, resolve (K := common) christmastide_2019 christmas_2019 []
                        christmas_masses "en" = Ok (Some out)))
  /\ reached (K := common) 6 easter_2016 good_friday_2016 [good_friday]
       [annunciation; good_friday] "en"
  /\ resolve (K := common) easter_2016 good_friday_2016 [good_friday]
       [annunciation; good_friday] "en"
     = Ok (Some ([Some good_friday], [], [(Some (Date 2016 4 4), [Some annunciation])]))
  /\ ((exists out, rule_precedence (K := common) easter_2016 good_friday_2016
                     [good_friday] [annunciation; good_friday] "en" = Ok (Some out))
      /\ (exists out, resolve (K := common) easter_2016 good_friday_2016 [good_friday]
                        [annunciation; good_friday] "en" = Ok (Some out))).
Proof.
  split; [reflexivity|]. split; [reflexivity|]. split.
  { apply (chain_total (K := common) christmastide_2019 christmas_2019 []
             christmas_masses "en").
    - unfold valid. simpl. unfold MINYEAR, MAXYEAR, days_in_month. simpl. lia.
    - intros H. vm_compute in H. discriminate.
    - intros H. vm_compute in H. discriminate. }
  split; [reflexivity|]. split; [reflexivity|].
  apply (chain_total (K := common) easter_2016 good_friday_2016 [good_friday]
           [annunciation; good_friday] "en").
  - exact good_friday_2016_valid.
  - intros _ e H. vm_compute in H. discriminate.
  - intros H. vm_compute in H. discriminate.
Defined.

(** ** The order of the candidates *)

(** Sorting by the key of the default rule forgets the order of the input
    when the key tells the candidates apart. *)
Lemma sorted_by_precedence_unique (l l' : list Observance) :
  l ≡ₚ l' ->
  (forall a b, a ∈ l -> b ∈ l -> precedence_key a = precedence_key b -> a = b) ->
  sorted by_precedence l = sorted by_precedence l'.
Proof.
  intros Hp Hinj.
  apply (StronglySorted_unique_strong (fun a b => by_precedence a b = true)).
  - intros x1 x2 H1 H2 H12 H21.
    rewrite sorted_Permutation in H1. rewrite sorted_Permutation, <- Hp in H2.
    apply Hinj; try done.
    destruct (by_precedence_antisym _ _ H12 H21) as (? & ? & ?).
    unfold precedence_key. congruence.
  - apply sorted_StronglySorted;
      [apply by_precedence_total | apply by_precedence_trans].
  - apply sorted_StronglySorted;
      [apply by_precedence_total | apply by_precedence_trans].
  - by rewrite !sorted_Permutation.
Qed.

Section Order.
Context {K : Constants}.
Implicit Types (calendar : Calendar) (d : date) (tempora observances : list Observance).
Implicit Types (lang : string) (out : Outcome).

Ltac idle_by_cases :=
  intros calendar d tempora observances observances' lang Hp;
  cbv beta zeta delta [rule_nativity_has_multiple_masses rule_all_souls
    rule_nativity_vigil rule_immaculate_coneption rule_st_matthias rule_feb27
    rule_lord_feast1 rule_lord_feast2 first_class_feast_no_commemoration
    rule_2nd_class_sunday rule_1st_class_feria
    rule_2nd_class_feast_takes_over_advent_feria_and_ember_days];
  rewrite <- !(truthy_match_Permutation observances observances' _ Hp);
  intros H; repeat case_match; done.

Lemma idle_nativity : idle_in_any_order rule_nativity_has_multiple_masses.
Proof. idle_by_cases. Qed.
Lemma idle_all_souls : idle_in_any_order rule_all_souls.
Proof. idle_by_cases. Qed.
Lemma idle_nativity_vigil : idle_in_any_order rule_nativity_vigil.
Proof. idle_by_cases. Qed.
Lemma idle_immaculate_coneption : idle_in_any_order rule_immaculate_coneption.
Proof. idle_by_cases. Qed.
Lemma idle_st_matthias : idle_in_any_order rule_st_matthias.
Proof. idle_by_cases. Qed.
Lemma idle_feb27 : idle_in_any_order rule_feb27.
Proof. idle_by_cases. Qed.
Lemma idle_lord_feast1 : idle_in_any_order rule_lord_feast1.
Proof. idle_by_cases. Qed.
Lemma idle_lord_feast2 : idle_in_any_order rule_lord_feast2.
Proof. idle_by_cases. Qed.
Lemma idle_first_class_feast : idle_in_any_order first_class_feast_no_commemoration.
Proof. idle_by_cases. Qed.
Lemma idle_2nd_class_sunday : idle_in_any_order rule_2nd_class_sunday.
Proof. idle_by_cases. Qed.
Lemma idle_1st_class_feria : idle_in_any_order rule_1st_class_feria.
Proof. idle_by_cases. Qed.
Lemma idle_2nd_class_feast :
  idle_in_any_order rule_2nd_class_feast_takes_over_advent_feria_and_ember_days.
Proof. idle_by_cases. Qed.

Lemma idle_shift_conflicting :
  idle_in_any_order rule_shift_conflicting_1st_class_feasts.
Proof.
  intros calendar d tempora observances observances' lang Hp H.
  apply shift_conflicting_idle.
  destruct (decide (1 < length (first_class observances))%nat) as [Hlen|Hlen].
  - destruct (shift_conflicting_run calendar d tempora observances lang Hlen)
      as (a & b & rest & _ & _ & _ & _ & Hrun).
    rewrite Hrun in H. by destruct (_calc_target_date calendar d).
  - unfold first_class in *. rewrite <- Hp. lia.
Qed.

Lemma idle_bmv_office : idle_in_any_order rule_bmv_office_on_saturday.
Proof.
  intros calendar d tempora observances observances' lang Hp.
  assert (Hranks : (list_to_set (rank <$> observances') : gset Z)
                   = list_to_set (rank <$> observances)) by (by rewrite Hp).
  unfold rule_bmv_office_on_saturday. cbv zeta. rewrite Hranks.
  intros H. repeat case_match; done.
Qed.

(** C7, as amended: the outcome of the default rule is the same for every
    order of the candidate list, provided no two distinct candidates share all
    three of priority, rank and flexibility; so is the outcome of the chain
    whenever no rule before the default rule fires.  The rules before it take
    the first match in the order of the list. *)
Theorem default_rule_order_irrelevant calendar d tempora observances observances' lang :
  observances ≡ₚ observances' ->
  (forall a b, a ∈ observances -> b ∈ observances ->
               precedence_key a = precedence_key b -> a = b) ->
  rule_precedence calendar d tempora observances lang
  = rule_precedence calendar d tempora observances' lang
  /\ (first_result (removelast rules) calendar d tempora observances lang = Ok None ->
      resolve calendar d tempora observances' lang
      = resolve calendar d tempora observances lang).
Proof.
  intros Hp Hinj.
  assert (Hdefault : rule_precedence calendar d tempora observances lang
                     = rule_precedence calendar d tempora observances' lang).
  { assert (Hlen : length observances' = length observances) by (by rewrite Hp).
    unfold rule_precedence. rewrite !Hlen.
    destruct (Nat.eqb_spec (length observances) 0); [done|].
    destruct (Nat.eqb_spec (length observances) 1) as [Hone|].
    - destruct observances as [|x [|? ?]]; simpl in Hone; try lia.
      by apply Permutation_singleton_l in Hp as <-.
    - by rewrite (sorted_by_precedence_unique observances observances'). }
  split; [done|].
  intros Hidle. unfold resolve.
  change rules with (removelast rules ++ [rule_precedence]).
  rewrite !first_result_app. rewrite Hidle.
  assert (Hidle' : first_result (removelast rules) calendar d tempora observances' lang
                   = Ok None).
  { revert Hidle. unfold rules. simpl.
    repeat match goal with
      | |- context [?r calendar d tempora observances lang] =>
          let H := fresh "H" in
          destruct (r calendar d tempora observances lang) as [[?|]| |] eqn:H;
          [done| |done|done];
          first [ apply (idle_nativity _ _ _ _ _ _ Hp) in H
                | apply (idle_all_souls _ _ _ _ _ _ Hp) in H
                | apply (idle_nativity_vigil _ _ _ _ _ _ Hp) in H
                | apply (idle_immaculate_coneption _ _ _ _ _ _ Hp) in H
                | apply (idle_st_matthias _ _ _ _ _ _ Hp) in H
                | apply (idle_feb27 _ _ _ _ _ _ Hp) in H
                | apply (idle_shift_conflicting _ _ _ _ _ _ Hp) in H
                | apply (idle_lord_feast1 _ _ _ _ _ _ Hp) in H
                | apply (idle_lord_feast2 _ _ _ _ _ _ Hp) in H
                | apply (idle_first_class_feast _ _ _ _ _ _ Hp) in H
                | apply (idle_2nd_class_sunday _ _ _ _ _ _ Hp) in H
                | apply (idle_1st_class_feria _ _ _ _ _ _ Hp) in H
                | apply (idle_2nd_class_feast _ _ _ _ _ _ Hp) in H
                | apply (idle_bmv_office _ _ _ _ _ _ Hp) in H ];
          rewrite H
      end.
    done. }
  rewrite Hidle'. simpl. by rewrite Hdefault.
Qed.

End Order.

(** C7, the claim as stated fails: on Saturday, January 19th 2019 two
    sanctoral candidates of the 4th class differ in priority, and the
    commemoration the chain keeps is whichever of them comes first in the
    list. *)
Lemma order_of_candidates_matters :
  [jan19_feria; ss_marius; st_canute] ≡ₚ [jan19_feria; st_canute; ss_marius]
  /\ (forall a b, a ∈ [jan19_feria; ss_marius; st_canute] ->
                  b ∈ [jan19_feria; ss_marius; st_canute] ->
                  precedence_key a = precedence_key b -> a = b)
  /\ resolve (K := common) [] jan19_2019 [jan19_feria]
       [jan19_feria; ss_marius; st_canute] "en"
     = Ok (Some ([Some (new_Observance (K := common) "commune:C10b:4" jan19_2019 "en")],
                 [Some ss_marius], []))
  /\ resolve (K := common) [] jan19_2019 [jan19_feria]
       [jan19_feria; st_canute; ss_marius] "en"
     = Ok (Some ([Some (new_Observance (K := common) "commune:C10b:4" jan19_2019 "en")],
                 [Some st_canute], []))
  /\ resolve (K := common) [] jan19_2019 [jan19_feria]
       [jan19_feria; st_canute; ss_marius] "en"
     <> resolve (K := common) [] jan19_2019 [jan19_feria]
          [jan19_feria; ss_marius; st_canute] "en".
Proof.
  split_and!.
  - apply Permutation_skip, Permutation_swap.
  - intros a b Ha Hb.
    repeat (apply elem_of_cons in Ha as [->|Ha]); [..|by apply elem_of_nil in Ha];
      (repeat (apply elem_of_cons in Hb as [->|Hb]); [..|by apply elem_of_nil in Hb]);
      by vm_compute.
  - by vm_compute.
  - by vm_compute.
  - by vm_compute.
Qed.

(** On Monday, January 21st 2019 the default rule decides, whatever the order
    of the feria and the feast. *)
Lemma default_rule_order_irrelevant_witness :
  resolve (K := common) [] jan21_2019 [jan21_feria] [jan21_feria; st_agnes] "en"
  = Ok (Some ([Some st_agnes], [], []))
  /\ rule_precedence (K := common) [] jan21_2019 [jan21_feria] [jan21_feria; st_agnes] "en"
     = rule_precedence (K := common) [] jan21_2019 [jan21_feria] [st_agnes; jan21_feria] "en"
  /\ (first_result (removelast (rules (K := common))) [] jan21_2019 [jan21_feria]
        [jan21_feria; st_agnes] "en" = Ok None ->
      resolve (K := common) [] jan21_2019 [jan21_feria] [st_agnes; jan21_feria] "en"
      = resolve (K := common) [] jan21_2019 [jan21_feria] [jan21_feria; st_agnes] "en").
Proof.
  split; [reflexivity|].
  apply (default_rule_order_irrelevant (K := common) [] jan21_2019 [jan21_feria]
           [jan21_feria; st_agnes] [st_agnes; jan21_feria] "en").
  - apply Permutation_swap.
  - intros a b Ha Hb.
    repeat (apply elem_of_cons in Ha as [->|Ha]); [..|by apply elem_of_nil in Ha];
      (repeat (apply elem_of_cons in Hb as [->|Hb]); [..|by apply elem_of_nil in Hb]);
      by vm_compute.
Defined.

(** ** The office of the Blessed Virgin on Saturdays *)

(** The test on the set of ranks: no candidate, or candidates of the 4th
    class only. *)
Lemma ranks_all_fourth_class (observances : list Observance) :
  let ranks : gset Z := list_to_set (rank <$> observances) in
  bool_decide (size ranks = 0%nat)
  || (bool_decide (size ranks = 1%nat) && bool_decide (elements ranks = [4])) = true
  <-> Forall (fun o => rank o = 4) observances.
Proof.
  intros ranks.
  assert (Hmem : forall o, o ∈ observances -> rank o ∈ ranks).
  { intros o Ho. apply elem_of_list_to_set, list_elem_of_fmap. eauto. }
  rewrite orb_true_iff, andb_true_iff, !bool_decide_eq_true, Forall_forall.
  split.
  - intros [Hsize|[_ Hel]] o Ho; specialize (Hmem o Ho).
    + apply size_empty_inv in Hsize. set_solver.
    + apply elem_of_elements in Hmem. rewrite Hel in Hmem.
      by apply list_elem_of_singleton in Hmem.
  - intros Hall. destruct observances as [|o0 rest]; [by left|right].
    assert (Hranks : ranks = {[4]}).
    { apply set_eq. intros r. unfold ranks.
      rewrite elem_of_list_to_set, list_elem_of_fmap, elem_of_singleton. split.
      - intros (o & -> & Ho). by apply Hall.
      - intros ->. exists o0. split; [symmetry; apply Hall|]; left. }
    rewrite Hranks, size_singleton, elements_singleton. done.
Qed.

Section MarianSaturday.
Context {K : Constants}.
Implicit Types (calendar : Calendar) (d : date) (tempora observances : list Observance).
Implicit Types (lang : string).

(** The rule on a Saturday without candidates above the 4th class. *)
Lemma bmv_office_run calendar d tempora observances lang :
  weekday d = 5 -> Forall (fun o => rank o = 4) observances ->
  rule_bmv_office_on_saturday calendar d tempora observances lang
  = match _calc_proper_for_given_period calendar d tempora with
    | Ok proper =>
        Ok (Some ([Some (new_Observance proper d lang)],
                  Some <$> take 1 (filter (fun i => String.eqb (flexibility i) "sancti")
                                          observances),
                  []))
    | Raise e => Raise e
    | OutOfFuel => OutOfFuel
    end.
Proof.
  intros Hsat Hranks. unfold rule_bmv_office_on_saturday. cbv zeta.
  rewrite Hsat. simpl.
  by rewrite (proj2 (ranks_all_fourth_class observances) Hranks).
Qed.

Lemma bmv_office_fires calendar d tempora observances lang :
  rule_bmv_office_on_saturday calendar d tempora observances lang <> Ok None
  <-> weekday d = 5 /\ Forall (fun o => rank o = 4) observances.
Proof.
  split.
  - unfold rule_bmv_office_on_saturday. cbv zeta.
    destruct (Z.eqb_spec (weekday d) 5) as [Hsat|]; [|done].
    destruct (_ || _) eqn:Hranks; [|done].
    intros _. split; [done|]. by apply ranks_all_fourth_class.
  - intros [Hsat Hranks]. rewrite bmv_office_run by done.
    by destruct (_calc_proper_for_given_period calendar d tempora).
Qed.

(** C9, as amended: the rule fires exactly on a Saturday whose candidates are
    none or all of the 4th class.  It then returns, as the only celebration, an
    observance built from the id of the office proper to the period (Advent;
    from the Nativity to the Purification; from the Purification to the
    Wednesday of Holy Week, looked up in the calendar; the Easter period; the
    ordinary office otherwise), and as commemorations the first sanctoral
    candidate, if there is one, and no other, provided the period is Advent or
    runs from the Nativity to the Purification, or the calendar holds the
    Wednesday of Holy Week; where that lookup is needed and finds nothing, the
    rule raises and returns no outcome. *)
Theorem marian_saturday_office calendar d tempora observances lang :
  (rule_bmv_office_on_saturday calendar d tempora observances lang <> Ok None
   <-> weekday d = 5 /\ Forall (fun o => rank o = 4) observances)
  /\ (weekday d = 5 -> Forall (fun o => rank o = 4) observances ->
      truthy (match_ tempora [PATTERN_ADVENT]) = true
      \/ PyDate.le (Date (year d) 12 25) d \/ PyDate.lt d (Date (year d) 2 2)
      \/ is_Some (find_day calendar TEMPORA_QUAD6_3) ->
      exists proper,
        _calc_proper_for_given_period calendar d tempora = Ok proper
        /\ rule_bmv_office_on_saturday calendar d tempora observances lang
           = Ok (Some ([Some (new_Observance proper d lang)],
                       Some <$> take 1 (filter (fun i =>
                                                  String.eqb (flexibility i) "sancti")
                                               observances),
                       []))
        /\ id (new_Observance proper d lang) = proper)
  /\ (truthy (match_ tempora [PATTERN_ADVENT]) = true ->
      _calc_proper_for_given_period calendar d tempora = Ok C_10A)
  /\ (truthy (match_ tempora [PATTERN_ADVENT]) = false ->
      PyDate.le (Date (year d) 12 25) d \/ PyDate.lt d (Date (year d) 2 2) ->
      _calc_proper_for_given_period calendar d tempora = Ok C_10B)
  /\ (truthy (match_ tempora [PATTERN_ADVENT]) = false ->
      PyDate.lt d (Date (year d) 12 25) -> PyDate.le (Date (year d) 2 2) d ->
      forall wednesday_in_holy_week day_,
        find_day calendar TEMPORA_QUAD6_3 = Some (wednesday_in_holy_week, day_) ->
        _calc_proper_for_given_period calendar d tempora
        = Ok (if PyDate.ltb d wednesday_in_holy_week then C_10C
              else if truthy (match_ tempora [PATTERN_EASTER]) then C_10PASC
              else C_10T))
  /\ (weekday d = 5 -> Forall (fun o => rank o = 4) observances ->
      truthy (match_ tempora [PATTERN_ADVENT]) = false ->
      PyDate.lt d (Date (year d) 12 25) -> PyDate.le (Date (year d) 2 2) d ->
      find_day calendar TEMPORA_QUAD6_3 = None ->
      rule_bmv_office_on_saturday calendar d tempora observances lang = Raise TypeError)
  /\ (length (take 1 (filter (fun i => String.eqb (flexibility i) "sancti")
                             observances)) <= 1)%nat
  /\ (forall o, o ∈ take 1 (filter (fun i => String.eqb (flexibility i) "sancti")
                                   observances) ->
                o ∈ observances /\ flexibility o = "sancti"%string)
  /\ ((forall o, o ∈ observances -> flexibility o <> "sancti"%string) ->
      take 1 (filter (fun i => String.eqb (flexibility i) "sancti") observances) = []).
Proof.
  assert (Hadvent : truthy (match_ tempora [PATTERN_ADVENT]) = true ->
                    _calc_proper_for_given_period calendar d tempora = Ok C_10A).
  { intros Hadv. unfold _calc_proper_for_given_period. by rewrite Hadv. }
  assert (Hnativity : truthy (match_ tempora [PATTERN_ADVENT]) = false ->
            PyDate.le (Date (year d) 12 25) d \/ PyDate.lt d (Date (year d) 2 2) ->
            _calc_proper_for_given_period calendar d tempora = Ok C_10B).
  { intros Hadv Hperiod. unfold _calc_proper_for_given_period. rewrite Hadv.
    destruct Hperiod as [H|H]; unfold PyDate.le, PyDate.lt in H; rewrite H; [done|].
    by rewrite orb_true_r. }
  assert (Hbetween : truthy (match_ tempora [PATTERN_ADVENT]) = false ->
            PyDate.lt d (Date (year d) 12 25) -> PyDate.le (Date (year d) 2 2) d ->
            _calc_proper_for_given_period calendar d tempora
            = match find_day calendar TEMPORA_QUAD6_3 with
              | None => Raise TypeError
              | Some (wednesday_in_holy_week, _) =>
                  Ok (if PyDate.ltb d wednesday_in_holy_week then C_10C
                      else if truthy (match_ tempora [PATTERN_EASTER]) then C_10PASC
                      else C_10T)
              end).
  { intros Hadv Hnat Hpur. unfold _calc_proper_for_given_period. rewrite Hadv.
    unfold PyDate.le in Hpur. rewrite Hpur.
    unfold PyDate.lt in Hnat. unfold PyDate.leb at 1. rewrite Hnat. simpl.
    assert (PyDate.ltb d (Date (year d) 2 2) = false) as ->.
    { unfold PyDate.leb in Hpur. by apply negb_true_iff in Hpur. }
    by repeat case_match. }
  split_and!.
  - apply bmv_office_fires.
  - intros Hsat Hranks Hperiod. rewrite bmv_office_run by done.
    destruct (truthy (match_ tempora [PATTERN_ADVENT])) eqn:Hadv.
    { exists C_10A. by rewrite Hadvent. }
    destruct (PyDate.leb (Date (year d) 12 25) d) eqn:Hnat.
    { exists C_10B. rewrite Hnativity; [done..|by left]. }
    destruct (PyDate.ltb d (Date (year d) 2 2)) eqn:Hpur.
    { exists C_10B. rewrite Hnativity; [done..|by right]. }
    destruct Hperiod as [?|[H|[H|[[wed day_] Hfind]]]];
      [done | unfold PyDate.le in H; congruence | unfold PyDate.lt in H; congruence |].
    rewrite Hbetween, Hfind; eauto.
    + unfold PyDate.lt. unfold PyDate.leb in Hnat. by apply negb_false_iff in Hnat.
    + unfold PyDate.le, PyDate.leb. by rewrite Hpur.
  - done.
  - done.
  - intros Hadv Hnat Hpur wed day_ Hfind. by rewrite Hbetween, Hfind.
  - intros Hsat Hranks Hadv Hnat Hpur Hfind.
    rewrite bmv_office_run by done. by rewrite Hbetween, Hfind.
  - rewrite length_take. lia.
  - intros o Ho. apply (subseteq_take 1 _ o) in Ho.
    apply list_elem_of_filter in Ho as [Hfl Ho]. split; [done|].
    apply Is_true_true in Hfl. by apply String.eqb_eq in Hfl.
  - intros Hnone.
    destruct (filter (fun i => String.eqb (flexibility i) "sancti") observances)
      as [|o rest] eqn:Hfilter; [done|].
    assert (Ho : o ∈ filter (fun i => String.eqb (flexibility i) "sancti") observances)
      by (rewrite Hfilter; left).
    apply list_elem_of_filter in Ho as [Hfl Ho].
    apply Is_true_true, String.eqb_eq in Hfl. by destruct (Hnone o Ho).
Qed.

End MarianSaturday.

(** C9, the claim as stated fails: on Saturday, February 2nd 2019, without
    candidates and with a calendar that does not hold the Wednesday of Holy
    Week, the rule fires and returns no office: it raises. *)
Lemma marian_office_lookup_fails :
  weekday feb2_2019 = 5
  /\ Forall (fun o => rank o = 4) ([] : list Observance)
  /\ rule_bmv_office_on_saturday (K := common) [] feb2_2019 [] [] "en" = Raise TypeError
  /\ resolve (K := common) [] feb2_2019 [] [] "en" = Raise TypeError
  /\ ~ (exists out, rule_bmv_office_on_saturday (K := common) [] feb2_2019 [] [] "en"
                    = Ok (Some out)).
Proof.
  split_and!; [by vm_compute | constructor | by vm_compute | by vm_compute |].
  intros [out H]. vm_compute in H. discriminate.
Qed.

(** Saturday, February 15th 2020, between the Purification and the Wednesday
    of Holy Week, which the calendar holds: the feria and a commemoration,
    both of the 4th class, give the office of that period and the
    commemoration of the sanctoral candidate.  A Saturday of Advent without
    candidates gives the office of Advent and no commemoration. *)
Lemma marian_saturday_office_witness :
  resolve (K := common) holy_week_2020 feb15_2020 [septuagesima_feria]
    [septuagesima_feria; ss_faustinus] "en"
  = Ok (Some ([Some (new_Observance (K := common) "commune:C10c:4" feb15_2020 "en")],
              [Some ss_faustinus], []))
  /\ (exists proper,
        _calc_proper_for_given_period (K := common) holy_week_2020 feb15_2020
          [septuagesima_feria] = Ok proper
        /\ rule_bmv_office_on_saturday (K := common) holy_week_2020 feb15_2020
             [septuagesima_feria] [septuagesima_feria; ss_faustinus] "en"
           = Ok (Some ([Some (new_Observance (K := common) proper feb15_2020 "en")],
                       Some <$> take 1 (filter (fun i =>
                                                  String.eqb (flexibility i) "sancti")
                                               [septuagesima_feria; ss_faustinus]),
                       []))
        /\ id (new_Observance (K := common) proper feb15_2020 "en") = proper)
  /\ _calc_proper_for_given_period (K := common) holy_week_2020 feb15_2020
       [septuagesima_feria]
     = Ok (if PyDate.ltb feb15_2020 (Date 2020 4 8) then C_10C (Constants := common)
           else if truthy (match_ [septuagesima_feria]
                             [PATTERN_EASTER (Constants := common)])
                then C_10PASC (Constants := common)
                else C_10T (Constants := common))
  /\ resolve (K := common) [] dec7_2019 [advent_feria] [] "en"
     = Ok (Some ([Some (new_Observance (K := common) "commune:C10a:4" dec7_2019 "en")],
                 [], [])).
Proof.
  pose proof (marian_saturday_office (K := common) holy_week_2020 feb15_2020
                [septuagesima_feria] [septuagesima_feria; ss_faustinus] "en")
    as (_ & Hreturns & _ & _ & Hlookup & _).
  split; [reflexivity|]. split.
  { apply Hreturns.
    - reflexivity.
    - repeat constructor.
    - right; right; right. vm_compute. eauto. }
  split; [|reflexivity].
  apply (Hlookup eq_refl eq_refl eq_refl (Date 2020 4 8)
           {| tempora := [obs "tempora:Quad6-3:1" 1 (Date 2020 4 8)];
              all := [obs "tempora:Quad6-3:1" 1 (Date 2020 4 8)] |}).
  reflexivity.
Defined.

(** ** What the forward search returns *)

Lemma no_date_after_year_end (y : Z) (d : date) :
  valid d -> PyDate.lt (Date y 12 31) d -> year d <> y.
Proof.
  intros (_ & Hm & Hd) Hlt Hy. rewrite lt_iff in Hlt. simpl in Hlt.
  destruct d as [yy m dd]. simpl in *. subst yy.
  assert (m = 12) as -> by lia. unfold days_in_month in Hd. simpl in Hd. lia.
Qed.

Section SearchSound.
Context (calendar : Calendar) (y : Z).

Lemma add_day_year (d d' : date) :
  valid d -> add_day d = Some d' ->
  (year d' = year d /\ d <> Date (year d) 12 31)
  \/ (d = Date (year d) 12 31 /\ d' = next_new_year (year d)).
Proof.
  intros Hv H. destruct d as [yy m dd].
  unfold add_day, valid, MAXYEAR, MINYEAR, next_new_year in *. simpl in *.
  split_ltb; simpl.
  - left. split; [done|]. intros [= -> ->]. unfold days_in_month in *. simpl in *. lia.
  - left. split; [done|]. intros [= -> ->]. lia.
  - right. assert (m = 12) as -> by lia. unfold days_in_month in *. simpl in *.
    split; [f_equal; lia | done].
Qed.

(** The loop, whatever it returns, has read the calendar as [search_spec]
    says. *)
Lemma loop_spec (fuel : nat) (target : date) :
  valid target -> y <= year target ->
  (year target = y -> 367 - yday target < Z.of_nat fuel) -> (0 < fuel)%nat ->
  search_spec calendar y target (_calc_target_date_loop calendar y fuel target).
Proof.
  revert target. induction fuel as [|fuel IH]; intros target Hv Hge Hfuel Hpos; [lia|].
  simpl. destruct (Z.eqb_spec (year target) y) as [Hy|Hy].
  2:{ simpl. split; [|done]. intros d Hd Hlt Hyd.
      apply lt_le_incl, le_year in Hlt. lia. }
  specialize (Hfuel Hy). pose proof (yday_bounds _ Hv) as Hb.
  destruct (add_day target) as [t'|] eqn:Hadd.
  2:{ simpl. assert (Hmax : target = Date MAXYEAR 12 31).
      { destruct target as [ty tm td].
        unfold add_day, valid, MAXYEAR, MINYEAR in *. simpl in *. split_ltb.
        assert (tm = 12) as -> by lia. unfold days_in_month in *. simpl in *.
        f_equal; lia. }
      subst target. simpl in Hy. split; [done|].
      intros d Hd Hlt Hyd. exfalso.
      apply (no_date_after_year_end MAXYEAR d); [done..|congruence]. }
  pose proof (add_day_valid _ _ Hv Hadd) as Hv'.
  pose proof (add_day_lt _ _ Hv Hadd) as Hlt'.
  assert (Hnear : forall d, valid d -> PyDate.lt target d -> PyDate.lt d t' -> False).
  { intros d Hd H1 H2. pose proof (add_day_least _ _ _ Hv Hadd Hd H1) as H3.
    eapply lt_irrefl, lt_le_trans; eauto. }
  assert (Hwhere : year t' = y \/ t' = next_new_year y).
  { destruct (add_day_year _ _ Hv Hadd) as [[? _]|[_ ?]]; [left|right]; congruence. }
  destruct (get_day calendar t') as [dy|] eqn:Hdy.
  2:{ simpl. exists t'. split_and!; try done. intros d Hd H1 H2. by destruct (Hnear d). }
  destruct (free_day dy) eqn:Hfree.
  { simpl. split_and!; try done; [by exists dy|].
    intros d Hd H1 H2. by destruct (Hnear d). }
  assert (Htaken : taken_at calendar t') by (by exists dy).
  assert (Hstep : forall d, valid d -> PyDate.lt target d -> d = t' \/ PyDate.lt t' d).
  { intros d Hd H1. pose proof (add_day_least _ _ _ Hv Hadd Hd H1) as H3.
    destruct (le_lt_or_eq _ _ H3); auto. }
  assert (Hrec : search_spec calendar y t'
                   (_calc_target_date_loop calendar y fuel t')).
  { apply IH; try done.
    - apply lt_le_incl, le_year in Hlt'. lia.
    - intros Hy'. rewrite (add_day_yday target t') by (done || congruence). lia.
    - lia. }
  assert (Hlater : forall d, PyDate.lt t' d -> PyDate.lt target d).
  { intros d Hd. eapply lt_le_trans; [exact Hlt'|]. by apply lt_le_incl. }
  destruct (_calc_target_date_loop calendar y fuel t') as [[t|]|[]|]; simpl in *;
    try done.
  - destruct Hrec as (Ht & H1 & H2 & H3 & H4). split_and!; auto.
    intros d Hd Hd1 Hd2. destruct (Hstep d Hd Hd1) as [->|?]; auto.
  - destruct Hrec as (H1 & H2). split.
    + intros d Hd Hd1 Hd2. destruct (Hstep d Hd Hd1) as [->|?]; auto.
    + intros _. destruct (add_day_year _ _ Hv Hadd) as [[Hsame _]|[Hend Hnew]].
      * apply H2. congruence.
      * rewrite Hy in Hnew. subst t'. split; [|done].
        destruct target as [ty tm td]. simpl in Hy. subst ty.
        unfold add_day, next_new_year, MAXYEAR in *. simpl in *. split_ltb. lia.
  - destruct Hrec as (t & Ht & H1 & H2 & H3 & H4). exists t. split_and!; auto.
    intros d Hd Hd1 Hd2. destruct (Hstep d Hd Hd1) as [->|?]; auto.
  - destruct Hrec as (H1 & H2). split; [done|].
    intros d Hd Hd1 Hd2. destruct (Hstep d Hd Hd1) as [->|?]; auto.
Qed.

End SearchSound.

Section SearchResults.
Implicit Types (calendar : Calendar) (d t : date).

(** A date returned by the search is the nearest later date whose Day holds
    no candidate of the 1st or 2nd class; it lies in the year of the date
    being resolved or is New Year's Day of the next year, which the search
    looks up as well. *)
Theorem search_returns_nearest_free calendar d t :
  valid d ->
  _calc_target_date calendar d = Ok (Some t) ->
  valid t /\ PyDate.lt d t /\ free_at calendar t
  /\ (forall d', valid d' -> PyDate.lt d d' -> PyDate.lt d' t -> taken_at calendar d')
  /\ (year t = year d \/ t = next_new_year (year d)).
Proof.
  intros Hv H.
  pose proof (loop_spec calendar (year d) 367 d Hv) as Hspec.
  unfold _calc_target_date in H. rewrite H in Hspec. apply Hspec; try lia.
  intros _. pose proof (yday_bounds _ Hv). lia.
Qed.

(** The search returns no date only after it has found a candidate of the 1st
    or 2nd class on every later date of the year and on New Year's Day of the
    next year, which the calendar then holds. *)
Theorem search_returns_none calendar d :
  valid d ->
  _calc_target_date calendar d = Ok None ->
  (forall d', valid d' -> PyDate.lt d d' -> year d' = year d -> taken_at calendar d')
  /\ year d < MAXYEAR
  /\ taken_at calendar (next_new_year (year d)).
Proof.
  intros Hv H.
  pose proof (loop_spec calendar (year d) 367 d Hv) as Hspec.
  unfold _calc_target_date in H. rewrite H in Hspec.
  destruct Hspec as [H1 H2]; try lia.
  { intros _. pose proof (yday_bounds _ Hv). lia. }
  destruct (H2 eq_refl). done.
Qed.

(** The search raises only in two ways: the lookup fails at the nearest later
    date for which the calendar holds no Day, every date before it being
    taken, and that date is in the year or is New Year's Day of the next year;
    or, in the last year dates can have, the date overflows once every later
    date of the year was found taken. *)
Theorem search_raises calendar d (e : exn) :
  valid d ->
  _calc_target_date calendar d = Raise e ->
  (e = AttributeError
   /\ exists t, valid t /\ PyDate.lt d t /\ get_day calendar t = None
                /\ (forall d', valid d' -> PyDate.lt d d' -> PyDate.lt d' t ->
                               taken_at calendar d')
                /\ (year t = year d \/ t = next_new_year (year d)))
  \/ (e = OverflowError /\ year d = MAXYEAR
      /\ forall d', valid d' -> PyDate.lt d d' -> year d' = year d ->
                    taken_at calendar d').
Proof.
  intros Hv H.
  pose proof (loop_spec calendar (year d) 367 d Hv) as Hspec.
  unfold _calc_target_date in H. rewrite H in Hspec.
  destruct e; simpl in Hspec.
  - left. split; [done|]. apply Hspec; try lia.
    intros _. pose proof (yday_bounds _ Hv). lia.
  - destruct Hspec; try lia. intros _. pose proof (yday_bounds _ Hv). lia.
  - destruct Hspec; try lia. intros _. pose proof (yday_bounds _ Hv). lia.
  - right. split; [done|]. apply Hspec; try lia.
    intros _. pose proof (yday_bounds _ Hv). lia.
Qed.

End SearchResults.

Lemma search_returns_nearest_free_witness :
  _calc_target_date easter_2016 good_friday_2016 = Ok (Some (Date 2016 4 4))
  /\ valid (Date 2016 4 4) /\ PyDate.lt good_friday_2016 (Date 2016 4 4)
  /\ free_at easter_2016 (Date 2016 4 4)
  /\ (forall d', valid d' -> PyDate.lt good_friday_2016 d' ->
                 PyDate.lt d' (Date 2016 4 4) -> taken_at easter_2016 d')
  /\ (year (Date 2016 4 4) = year good_friday_2016
      \/ Date 2016 4 4 = next_new_year (year good_friday_2016)).
Proof.
  split; [reflexivity|].
  apply (search_returns_nearest_free easter_2016 good_friday_2016 (Date 2016 4 4)).
  - exact good_friday_2016_valid.
  - reflexivity.
Defined.

Lemma search_returns_none_witness :
  _calc_target_date turn_of_2019 dec30_2019 = Ok None
  /\ (forall d', valid d' -> PyDate.lt dec30_2019 d' -> year d' = year dec30_2019 ->
                 taken_at turn_of_2019 d')
  /\ year dec30_2019 < MAXYEAR
  /\ taken_at turn_of_2019 (next_new_year (year dec30_2019)).
Proof.
  split; [reflexivity|].
  apply (search_returns_none turn_of_2019 dec30_2019).
  - exact dec30_2019_valid.
  - reflexivity.
Defined.

Lemma search_raises_witness :
  _calc_target_date end_of_2019 dec30_2019 = Raise AttributeError
  /\ ((AttributeError = AttributeError
       /\ exists t, valid t /\ PyDate.lt dec30_2019 t /\ get_day end_of_2019 t = None
                    /\ (forall d', valid d' -> PyDate.lt dec30_2019 d' ->
                                   PyDate.lt d' t -> taken_at end_of_2019 d')
                    /\ (year t = year dec30_2019
                        \/ t = next_new_year (year dec30_2019)))
      \/ (AttributeError = OverflowError /\ year dec30_2019 = MAXYEAR
          /\ forall d', valid d' -> PyDate.lt dec30_2019 d' ->
                        year d' = year dec30_2019 -> taken_at end_of_2019 d')).
Proof.
  split; [reflexivity|].
  apply (search_raises end_of_2019 dec30_2019 AttributeError).
  - exact dec30_2019_valid.
  - reflexivity.
Defined.

(** ** Which candidate a sort puts first *)

Section SortedHead.
Context {A : Type} (le : A -> A -> bool).
Hypothesis le_total : forall a b, le a b = true \/ le b a = true.
Hypothesis le_trans : forall a b c, le a b = true -> le b c = true -> le a c = true.

(** The head of the sorted list is the first of the least elements of the
    input: what precedes it in the input is strictly greater. *)
Lemma sorted_head_stable (l : list A) (c : A) (rest : list A) :
  sorted le l = c :: rest ->
  exists before after,
    l = before ++ c :: after
    /\ Forall (fun o => le o c = false) before
    /\ Forall (fun o => le c o = true) after.
Proof.
  revert c rest. induction l as [|x l IH]; intros c rest; simpl; [done|].
  destruct (sorted le l) as [|y r] eqn:Hsorted; simpl.
  - intros [= <- <-]. exists [], l. split_and!; [done|constructor|].
    pose proof (sorted_length le l) as Hlen. rewrite Hsorted in Hlen.
    destruct l; [constructor|done].
  - destruct (IH y r eq_refl) as (b & a & -> & Hb & Ha).
    destruct (le x y) eqn:Hxy; intros [= <- <-].
    + exists [], (b ++ y :: a). split_and!; [done|constructor|].
      apply Forall_app. split; [|constructor].
      * eapply Forall_impl; [exact Hb|]. intros o Ho. simpl in Ho.
        destruct (le_total y o); [by eapply le_trans | congruence].
      * done.
      * eapply Forall_impl; [exact Ha|]. intros o Ho. simpl in Ho. by eapply le_trans.
    + exists (x :: b), a. split_and!; [done| by constructor | done].
Qed.

End SortedHead.

(** The first match in a list: nothing before it matches. *)
Lemma match_first (l : list Observance) (ps : list pattern) (c : Observance) :
  match_ l ps = Some c ->
  exists before after,
    l = before ++ c :: after
    /\ Forall (fun o => existsb (satisfies o) ps = false) before
    /\ existsb (satisfies c) ps = true.
Proof.
  unfold match_. induction l as [|x l IH]; simpl; [done|].
  destruct (existsb (satisfies x) ps) eqn:Hx.
  - intros [= <-]. exists [], l. split_and!; [done|constructor|done].
  - intros H. destruct (IH H) as (b & a & -> & Hb & Hc).
    exists (x :: b), a. split_and!; [done|by constructor|done].
Qed.

Section Lowest.
Context {K : Constants}.
Implicit Types (calendar : Calendar) (d : date) (tempora observances : list Observance).
Implicit Types (lang : string).

(** With more than one candidate of the 1st class, the one celebrated is the
    first, in the order of the candidate list, of those of the lowest priority
    value: candidates of the 1st class listed before it have a strictly higher
    priority value, so that equal priorities are settled by position. *)
Theorem collision_celebrates_first_lowest calendar d tempora observances lang
    (target : option date) :
  (1 < length (first_class observances))%nat ->
  _calc_target_date calendar d = Ok target ->
  exists celebrated shifted before after,
    rule_shift_conflicting_1st_class_feasts calendar d tempora observances lang
    = Ok (Some ([Some celebrated], [], [(target, [Some shifted])]))
    /\ first_class observances = before ++ celebrated :: after
    /\ Forall (fun o => priority celebrated < priority o) before
    /\ Forall (fun o => priority celebrated <= priority o) after
    /\ shifted ∈ before ++ after.
Proof.
  unfold first_class. intros Hlen Hsearch.
  destruct (sorted_take_2 by_priority by_priority_total by_priority_trans _ Hlen)
    as (a & b & rest & Hsorted & Htake & Hperm & _).
  destruct (sorted_head_stable by_priority by_priority_total by_priority_trans
              _ _ _ Hsorted) as (before & after & Hsplit & Hb & Ha).
  exists a, b, before, after. split_and!.
  - unfold rule_shift_conflicting_1st_class_feasts. cbv zeta.
    rewrite (proj2 (Nat.ltb_lt _ _) Hlen). by rewrite Htake, Hsearch.
  - done.
  - eapply Forall_impl; [exact Hb|]. intros o Ho. simpl in Ho.
    unfold by_priority in Ho. by apply Z.leb_gt in Ho.
  - eapply Forall_impl; [exact Ha|]. intros o Ho. simpl in Ho.
    unfold by_priority in Ho. by apply Z.leb_le in Ho.
  - rewrite Hsplit in Hperm.
    rewrite <- Permutation_middle in Hperm. apply Permutation_cons_inv in Hperm.
    rewrite Hperm. left.
Qed.

(** When some candidate matches the pattern of the 1st class, the rule
    celebrates, alone, a candidate that matches it and whose priority value is
    the lowest among the candidates that match. *)
Theorem first_class_feast_lowest_priority calendar d tempora observances lang
    (o0 : Observance) :
  o0 ∈ observances -> satisfies o0 PATTERN_CLASS_1 = true ->
  exists celebrated,
    first_class_feast_no_commemoration calendar d tempora observances lang
    = Ok (Some ([Some celebrated], [], []))
    /\ celebrated ∈ observances
    /\ satisfies celebrated PATTERN_CLASS_1 = true
    /\ forall o, o ∈ observances -> satisfies o PATTERN_CLASS_1 = true ->
                 priority celebrated <= priority o.
Proof.
  intros Hin Hsat.
  assert (Hfires : truthy (match_ observances [PATTERN_CLASS_1]) = true).
  { apply truthy_match. exists o0. by rewrite satisfies_single. }
  assert (Hsorted : truthy (match_ (sorted by_priority observances) [PATTERN_CLASS_1])
                    = true).
  { by rewrite (truthy_match_Permutation _ observances)
      by apply sorted_Permutation. }
  apply truthy_Some in Hsorted as [c Hc].
  exists c. unfold first_class_feast_no_commemoration. rewrite Hfires, Hc.
  destruct (match_first _ _ _ Hc) as (before & after & Hsplit & Hb & Hcsat).
  rewrite satisfies_single in Hcsat.
  pose proof (sorted_StronglySorted by_priority by_priority_total by_priority_trans
                observances) as Hss.
  rewrite Hsplit in Hss. apply StronglySorted_app_1_r in Hss.
  apply StronglySorted_cons in Hss as [Hafter _].
  assert (Hc_in : c ∈ observances).
  { rewrite <- (sorted_Permutation by_priority), Hsplit. set_solver. }
  split_and!; try done.
  intros o Ho Hosat. rewrite <- (sorted_Permutation by_priority), Hsplit in Ho.
  apply elem_of_app in Ho as [Ho|Ho].
  - rewrite Forall_forall in Hb. specialize (Hb o Ho). simpl in Hb.
    rewrite orb_false_r in Hb. congruence.
  - apply elem_of_cons in Ho as [->|Ho]; [lia|].
    rewrite Forall_forall in Hafter. specialize (Hafter o Ho).
    unfold by_priority in Hafter. by apply Z.leb_le.
Qed.

End Lowest.

(** Two feasts of the 1st class and of equal priority: the one listed first
    is celebrated, the other one shifted. *)
Lemma collision_celebrates_first_lowest_witness :
  rule_shift_conflicting_1st_class_feasts easter_2016 good_friday_2016 []
    [patron_of_equal_priority; annunciation] "en"
  = Ok (Some ([Some patron_of_equal_priority], [],
              [(Some (Date 2016 4 4), [Some annunciation])]))
  /\ rule_shift_conflicting_1st_class_feasts easter_2016 good_friday_2016 []
       [annunciation; patron_of_equal_priority] "en"
     = Ok (Some ([Some annunciation], [],
                 [(Some (Date 2016 4 4), [Some patron_of_equal_priority])]))
  /\ exists celebrated shifted before after,
       rule_shift_conflicting_1st_class_feasts easter_2016 good_friday_2016 []
         [patron_of_equal_priority; annunciation] "en"
       = Ok (Some ([Some celebrated], [], [(Some (Date 2016 4 4), [Some shifted])]))
       /\ first_class [patron_of_equal_priority; annunciation]
          = before ++ celebrated :: after
       /\ Forall (fun o => priority celebrated < priority o) before
       /\ Forall (fun o => priority celebrated <= priority o) after
       /\ shifted ∈ before ++ after.
Proof.
  split; [reflexivity|]. split; [reflexivity|].
  apply (collision_celebrates_first_lowest easter_2016 good_friday_2016 []
           [patron_of_equal_priority; annunciation] "en" (Some (Date 2016 4 4))).
  - vm_compute. lia.
  - reflexivity.
Defined.

(** Good Friday and the Annunciation: Good Friday, of the lower priority
    value, is the feast of the 1st class that is celebrated. *)
Lemma first_class_feast_lowest_priority_witness :
  first_class_feast_no_commemoration (K := common) [] good_friday_2016 [good_friday]
    [annunciation; good_friday] "en"
  = Ok (Some ([Some good_friday], [], []))
  /\ exists celebrated,
       first_class_feast_no_commemoration (K := common) [] good_friday_2016 [good_friday]
         [annunciation; good_friday] "en"
       = Ok (Some ([Some celebrated], [], []))
       /\ celebrated ∈ [annunciation; good_friday]
       /\ satisfies celebrated (PATTERN_CLASS_1 (Constants := common)) = true
       /\ forall o, o ∈ [annunciation; good_friday] ->
                    satisfies o (PATTERN_CLASS_1 (Constants := common)) = true ->
                    priority celebrated <= priority o.
Proof.
  split; [reflexivity|].
  apply (first_class_feast_lowest_priority (K := common) [] good_friday_2016
           [good_friday] [annunciation; good_friday] "en" annunciation).
  - left.
  - reflexivity.
Defined.

(** ** What every outcome of the chain looks like *)

Lemma present_Some (l : list Observance) : present (Some <$> l) = l.
Proof. unfold present. induction l as [|x l IH]; simpl; [done|]. by f_equal. Qed.

Lemma elem_of_present (l : list (option Observance)) (o : Observance) :
  o ∈ present l <-> Some o ∈ l.
Proof.
  unfold present. rewrite list_elem_of_omap. split.
  - by intros (x & Hx & ->).
  - intros H. by exists (Some o).
Qed.

Lemma not_None_fmap_Some (l : list Observance) : None ∉ (Some <$> l).
Proof. intros H. apply list_elem_of_fmap in H as (x & Hx & _). done. Qed.

Section Shape.
Context {K : Constants}.
Implicit Types (calendar : Calendar) (d : date) (tempora observances : list Observance).
Implicit Types (lang : string) (out : Outcome).

Ltac unfold_rules H :=
  cbv beta zeta delta [rule_nativity_has_multiple_masses rule_all_souls
    rule_nativity_vigil rule_immaculate_coneption rule_st_matthias rule_feb27
    rule_shift_conflicting_1st_class_feasts
    rule_lord_feast1 rule_lord_feast2 first_class_feast_no_commemoration
    rule_2nd_class_sunday rule_1st_class_feria
    rule_2nd_class_feast_takes_over_advent_feria_and_ember_days
    rule_bmv_office_on_saturday rule_precedence] in H.

(** Every outcome of the chain holds at most one commemoration and at most
    one shift. *)
Theorem outcome_small calendar d tempora observances lang out :
  resolve calendar d tempora observances lang = Ok (Some out) -> small out.
Proof.
  intros H. apply first_result_Some in H as (r & Hin & Hr). unfold rules in Hin.
  unfold small, commemoration, shift.
  repeat (apply elem_of_cons in Hin as [->|Hin]); [..|by apply elem_of_nil in Hin];
    unfold_rules Hr; repeat case_match; simplify_eq; simpl;
    rewrite ?length_fmap, ?length_take; clear; lia.
Qed.

Ltac destruct_matches H :=
  repeat match type of H with
    | context [match_ ?l ?p] =>
        let E := fresh "E" in destruct (match_ l p) eqn:E
    end.

(** No commemoration and no shifted observance of an outcome of the chain is
    an empty entry; the celebration holds an empty entry only where a rule
    stores a match it has not tested: no candidate then matches the pattern
    of temporal Sundays (All Souls on a Sunday), the temporal pattern (the
    leap-year rules and the privileged ferias) or the pattern of sanctoral
    feasts of the 1st or 2nd class (feasts of the Lord on a Sunday of the 2nd
    class). *)
Theorem outcome_filled calendar d tempora observances lang out :
  resolve calendar d tempora observances lang = Ok (Some out) ->
  filled out
  /\ (None ∈ celebration out ->
      match_ observances [PATTERN_TEMPORA_SUNDAY] = None
      \/ match_ observances [PATTERN_TEMPORA] = None
      \/ match_ observances [PATTERN_SANCTI_CLASS_1_OR_2] = None).
Proof.
  intros H. apply first_result_Some in H as (r & Hin & Hr). unfold rules in Hin.
  unfold filled, commemoration, shift, celebration.
  repeat (apply elem_of_cons in Hin as [->|Hin]); [..|by apply elem_of_nil in Hin].
  all: try (unfold_rules Hr;
            try (assert (Hsorted := truthy_match_Permutation
                                      (sorted by_priority observances) observances
                                      [PATTERN_CLASS_1]
                                      (sorted_Permutation by_priority observances)));
            destruct_matches Hr; simpl in *;
            repeat case_match; simplify_eq; simpl;
            pose proof not_None_fmap_Some as Hfmap;
            split_and!; intros; set_solver).
  all: unfold_rules Hr; destruct_matches Hr; simpl in *;
    repeat case_match; simplify_eq; simpl;
    (split_and!;
     [ set_solver
     | intros tgt os Hm;
       first [ by apply elem_of_nil in Hm
             | apply list_elem_of_singleton in Hm; simplify_eq;
               first [ apply not_None_fmap_Some | set_solver ] ]
     | intros Hnone;
       first [ by apply not_None_fmap_Some in Hnone | set_solver ] ]).
Qed.

End Shape.

(** ** Where the observances of an outcome come from *)

Lemma elem_of_mentioned (out : Outcome) (o : Observance) :
  o ∈ mentioned out <->
  Some o ∈ celebration out \/ Some o ∈ commemoration out
  \/ exists (tgt : option date) (os : list (option Observance)),
       (tgt, os) ∈ shift out /\ Some o ∈ os.
Proof.
  unfold mentioned. rewrite !elem_of_app, !elem_of_present.
  assert (Hshift :
    o ∈ concat (List.map (fun s : option date * list (option Observance) =>
                            present (snd s)) (shift out))
    <-> exists (tgt : option date) (os : list (option Observance)),
          (tgt, os) ∈ shift out /\ Some o ∈ os).
  { rewrite list_elem_of_In, in_concat. setoid_rewrite in_map_iff. split.
    - intros (l & ((tgt & os) & <- & Hin) & Ho).
      exists tgt, os. apply list_elem_of_In in Hin. apply list_elem_of_In in Ho.
      simpl in Ho. by rewrite <- elem_of_present.
    - intros (tgt & os & Hin & Ho). exists (present os). split.
      + exists (tgt, os). split; [done|]. by apply list_elem_of_In.
      + by apply list_elem_of_In, elem_of_present. }
  by rewrite Hshift.
Qed.

Lemma elem_of_fmap_Some (l : list Observance) (o : Observance) :
  Some o ∈ (Some <$> l) <-> o ∈ l.
Proof.
  rewrite list_elem_of_fmap. split; [by intros (x & [= ->] & ?) | eauto].
Qed.

Section Conservation.
Context {K : Constants}.
Implicit Types (calendar : Calendar) (d : date) (tempora observances : list Observance).
Implicit Types (lang : string) (out : Outcome).

Ltac conservative_by_cases :=
  intros calendar d tempora observances lang out Hr o Ho;
  apply elem_of_mentioned in Ho;
  cbv beta zeta delta [rule_nativity_vigil rule_immaculate_coneption rule_st_matthias
    rule_feb27 rule_lord_feast1 rule_lord_feast2 rule_2nd_class_sunday
    rule_1st_class_feria
    rule_2nd_class_feast_takes_over_advent_feria_and_ember_days] in Hr;
  repeat match type of Hr with
    | context [match_ ?l ?p] =>
        let E := fresh "E" in
        destruct (match_ l p) eqn:E; [apply match_Some in E as [E _]|]
    end;
  simpl in *; repeat case_match; simplify_eq;
  unfold celebration, commemoration, shift in Ho; simpl in Ho;
  destruct Ho as [Ho|[Ho|(tgt & os & Hm & Ho)]];
  try (apply list_elem_of_singleton in Hm; simplify_eq);
  try (by apply elem_of_nil in Hm);
  try (by apply elem_of_nil in Ho);
  apply list_elem_of_singleton in Ho; by simplify_eq.

Lemma conservative_nativity_vigil : conservative rule_nativity_vigil.
Proof. conservative_by_cases. Qed.
Lemma conservative_immaculate_coneption : conservative rule_immaculate_coneption.
Proof. conservative_by_cases. Qed.
Lemma conservative_st_matthias : conservative rule_st_matthias.
Proof. conservative_by_cases. Qed.
Lemma conservative_feb27 : conservative rule_feb27.
Proof. conservative_by_cases. Qed.
Lemma conservative_lord_feast1 : conservative rule_lord_feast1.
Proof. conservative_by_cases. Qed.
Lemma conservative_lord_feast2 : conservative rule_lord_feast2.
Proof. conservative_by_cases. Qed.
Lemma conservative_2nd_class_sunday : conservative rule_2nd_class_sunday.
Proof. conservative_by_cases. Qed.
Lemma conservative_1st_class_feria : conservative rule_1st_class_feria.
Proof. conservative_by_cases. Qed.
Lemma conservative_2nd_class_feast :
  conservative rule_2nd_class_feast_takes_over_advent_feria_and_ember_days.
Proof. conservative_by_cases. Qed.

Lemma conservative_nativity : conservative rule_nativity_has_multiple_masses.
Proof.
  intros calendar d tempora observances lang out Hr o Ho.
  unfold rule_nativity_has_multiple_masses in Hr. case_match; simplify_eq.
  unfold mentioned, celebration, commemoration, shift in Ho. simpl in Ho.
  rewrite present_Some, app_nil_r in Ho. by apply list_elem_of_filter in Ho as [_ ?].
Qed.

Lemma conservative_all_souls : conservative rule_all_souls.
Proof.
  intros calendar d tempora observances lang out Hr o Ho.
  apply elem_of_mentioned in Ho.
  unfold rule_all_souls in Hr. cbv zeta in Hr.
  destruct (truthy _); [|done].
  destruct (weekday d =? 6); simplify_eq;
    unfold celebration, commemoration, shift in Ho; simpl in Ho;
    destruct Ho as [Ho|[Ho|(tgt & os & Hm & Ho)]];
    try (by apply elem_of_nil in Ho); try (by apply elem_of_nil in Hm).
  - apply list_elem_of_singleton in Ho.
    symmetry in Ho. by apply match_Some in Ho as [? _].
  - apply list_elem_of_singleton in Hm. simplify_eq.
    apply elem_of_fmap_Some in Ho. by apply list_elem_of_filter in Ho as [_ ?].
  - apply elem_of_fmap_Some in Ho. by apply list_elem_of_filter in Ho as [_ ?].
Qed.

Lemma conservative_shift_conflicting :
  conservative rule_shift_conflicting_1st_class_feasts.
Proof.
  intros calendar d tempora observances lang out Hr o Ho.
  destruct (decide (1 < length (first_class observances))%nat) as [Hlen|Hlen].
  2:{ rewrite shift_conflicting_idle in Hr by lia. done. }
  destruct (shift_conflicting_run calendar d tempora observances lang Hlen)
    as (a & b & rest & Hperm & _ & _ & _ & Hrun).
  rewrite Hrun in Hr. destruct (_calc_target_date calendar d); simplify_eq.
  assert (Hsub : forall x, x ∈ [a; b] -> x ∈ observances).
  { intros x Hx. assert (Hx' : x ∈ first_class observances) by (rewrite Hperm; set_solver).
    unfold first_class in Hx'. by apply list_elem_of_filter in Hx' as [_ ?]. }
  apply Hsub. unfold mentioned, present in Ho. simpl in Ho. set_solver.
Qed.

Lemma conservative_first_class_feast : conservative first_class_feast_no_commemoration.
Proof.
  intros calendar d tempora observances lang out Hr o Ho.
  apply elem_of_mentioned in Ho.
  unfold first_class_feast_no_commemoration in Hr. case_match; simplify_eq.
  unfold celebration, commemoration, shift in Ho. simpl in Ho.
  destruct Ho as [Ho|[Ho|(tgt & os & Hm & Ho)]];
    try (by apply elem_of_nil in Ho); try (by apply elem_of_nil in Hm).
  apply list_elem_of_singleton in Ho.
  symmetry in Ho. apply match_Some in Ho as [Ho _].
  by rewrite sorted_Permutation in Ho.
Qed.

Lemma conservative_precedence : conservative rule_precedence.
Proof.
  intros calendar d tempora observances lang out Hr o Ho.
  unfold rule_precedence in Hr.
  destruct (Nat.eqb_spec (length observances) 0); simplify_eq.
  { unfold mentioned in Ho. simpl in Ho. by apply elem_of_nil in Ho. }
  destruct (Nat.eqb_spec (length observances) 1); simplify_eq.
  { unfold mentioned, celebration, commemoration, shift in Ho. simpl in Ho.
    by rewrite present_Some, app_nil_r in Ho. }
  destruct (sorted_take_2 by_precedence by_precedence_total by_precedence_trans
              observances) as (a & b & rest & _ & Htake & Hperm & _); [lia|].
  rewrite Htake in Hr.
  assert (Hsub : forall x, x ∈ [a; b] -> x ∈ observances)
    by (intros x Hx; rewrite Hperm; set_solver).
  apply Hsub. destruct (_ || _); simplify_eq;
    unfold mentioned, present in Ho; simpl in Ho; set_solver.
Qed.

(** Every observance in an outcome of the chain, be it celebrated,
    commemorated or shifted, is one of the candidates of the date; the only
    exception is the office of the Blessed Virgin that the Saturday rule
    builds from the id proper to the period. *)
Theorem outcome_from_candidates calendar d tempora observances lang out (o : Observance) :
  resolve calendar d tempora observances lang = Ok (Some out) ->
  o ∈ mentioned out ->
  o ∈ observances
  \/ (weekday d = 5
      /\ celebration out = [Some o]
      /\ exists proper,
           _calc_proper_for_given_period calendar d tempora = Ok proper
           /\ o = new_Observance proper d lang).
Proof.
  intros H Ho. apply first_result_Some in H as (r & Hin & Hr). unfold rules in Hin.
  repeat (apply elem_of_cons in Hin as [->|Hin]); [..|by apply elem_of_nil in Hin];
    try (left; revert o Ho; revert Hr;
         first [ apply conservative_nativity | apply conservative_all_souls
               | apply conservative_nativity_vigil
               | apply conservative_immaculate_coneption
               | apply conservative_st_matthias | apply conservative_feb27
               | apply conservative_shift_conflicting
               | apply conservative_lord_feast1 | apply conservative_lord_feast2
               | apply conservative_first_class_feast
               | apply conservative_2nd_class_sunday
               | apply conservative_1st_class_feria
               | apply conservative_2nd_class_feast
               | apply conservative_precedence ]).
  unfold rule_bmv_office_on_saturday in Hr. cbv zeta in Hr.
  destruct (Z.eqb_spec (weekday d) 5) as [Hsat|]; [|done].
  destruct (_ || _); [|done].
  destruct (_calc_proper_for_given_period calendar d tempora) as [proper| |] eqn:Hp;
    simplify_eq.
  unfold mentioned, celebration, commemoration, shift in Ho. simpl in Ho.
  rewrite present_Some, app_nil_r in Ho.
  apply elem_of_cons in Ho as [->|Ho].
  - right. split_and!; eauto.
  - left. apply (subseteq_take 1 _ o) in Ho.
    by apply list_elem_of_filter in Ho as [_ ?].
Qed.

End Conservation.

(** *** The outcomes of concrete days *)

(** Good Friday 2016: one shift, no commemoration. *)
Lemma outcome_small_witness :
  resolve (K := common) easter_2016 good_friday_2016 [good_friday]
    [annunciation; good_friday] "en"
  = Ok (Some ([Some good_friday], [], [(Some (Date 2016 4 4), [Some annunciation])]))
  /\ small ([Some good_friday], [], [(Some (Date 2016 4 4), [Some annunciation])]).
Proof.
  split; [reflexivity|].
  apply (outcome_small (K := common) easter_2016 good_friday_2016 [good_friday]
           [annunciation; good_friday] "en").
  reflexivity.
Defined.

(** February 24th 2020 without a temporal candidate: the celebration is an
    empty entry, the shifted feast is not. *)
Lemma outcome_filled_witness :
  resolve (K := common) [] feb24_2020 [] [st_matthias feb24_2020] "en"
  = Ok (Some ([None], [], [(Some (Date 2020 2 25), [Some (st_matthias feb24_2020)])]))
  /\ filled ([None], [], [(Some (Date 2020 2 25), [Some (st_matthias feb24_2020)])])
  /\ (None ∈ celebration
               ([None], [], [(Some (Date 2020 2 25), [Some (st_matthias feb24_2020)])]) ->
      match_ [st_matthias feb24_2020] [PATTERN_TEMPORA_SUNDAY (Constants := common)] = None
      \/ match_ [st_matthias feb24_2020] [PATTERN_TEMPORA (Constants := common)] = None
      \/ match_ [st_matthias feb24_2020]
           [PATTERN_SANCTI_CLASS_1_OR_2 (Constants := common)] = None).
Proof.
  split; [reflexivity|].
  apply (outcome_filled (K := common) [] feb24_2020 [] [st_matthias feb24_2020] "en").
  reflexivity.
Defined.

(** Saturday, January 19th 2019: the commemoration is a candidate, the
    celebration is the office built by the rule. *)
Lemma outcome_from_candidates_witness :
  resolve (K := common) [] jan19_2019 [jan19_feria]
    [jan19_feria; ss_marius; st_canute] "en"
  = Ok (Some ([Some (new_Observance (K := common) "commune:C10b:4" jan19_2019 "en")],
              [Some ss_marius], []))
  /\ (ss_marius ∈ [jan19_feria; ss_marius; st_canute]
      \/ (weekday jan19_2019 = 5
          /\ celebration
               ([Some (new_Observance (K := common) "commune:C10b:4" jan19_2019 "en")],
                [Some ss_marius], []) = [Some ss_marius]
          /\ exists proper,
               _calc_proper_for_given_period (K := common) [] jan19_2019 [jan19_feria]
               = Ok proper
               /\ ss_marius = new_Observance (K := common) proper jan19_2019 "en")).
Proof.
  split; [reflexivity|].
  apply (outcome_from_candidates (K := common) [] jan19_2019 [jan19_feria]
           [jan19_feria; ss_marius; st_canute] "en"
           ([Some (new_Observance (K := common) "commune:C10b:4" jan19_2019 "en")],
            [Some ss_marius], [])).
  - reflexivity.
  - apply elem_of_mentioned. right; left. left.
Defined.

(** ** The default rule and the head of the chain *)

Lemma match_single (o : Observance) (p : pattern) :
  truthy (match_ [o] [p]) = satisfies o p.
Proof. unfold match_. simpl. rewrite orb_false_r. by destruct (satisfies o p). Qed.

Section Default.
Context {K : Constants}.
Implicit Types (calendar : Calendar) (d : date) (tempora observances : list Observance).
Implicit Types (lang : string).

(** With two candidates or more the default rule celebrates a candidate that
    no other precedes in the order of (priority, rank, flexibility) and keeps
    the next one in that order as the only commemoration; the commemoration is
    left out when the celebration is a temporal Sunday or when the next one
    bears the id of the first temporal entry of the day.  Every further
    candidate is dropped. *)
Theorem default_rule_outcome calendar d tempora observances lang :
  (1 < length observances)%nat ->
  exists first second rest,
    observances ≡ₚ first :: second :: rest
    /\ (forall o, o ∈ observances -> by_precedence first o = true)
    /\ Forall (fun o => by_precedence second o = true) rest
    /\ ((satisfies first PATTERN_TEMPORA_SUNDAY = true
         \/ exists t0 ts, tempora = t0 :: ts /\ id second = id t0) ->
        rule_precedence calendar d tempora observances lang
        = Ok (Some ([Some first], [], [])))
    /\ (satisfies first PATTERN_TEMPORA_SUNDAY = false ->
        (forall t0 ts, tempora = t0 :: ts -> id second <> id t0) ->
        rule_precedence calendar d tempora observances lang
        = Ok (Some ([Some first], [Some second], []))).
Proof.
  intros Hlen.
  destruct (sorted_take_2 by_precedence by_precedence_total by_precedence_trans
              observances Hlen) as (a & b & rest & _ & Htake & Hperm & Hab & Ha & Hb).
  exists a, b, rest.
  assert (Hrun : rule_precedence calendar d tempora observances lang
                 = if satisfies a PATTERN_TEMPORA_SUNDAY
                      || match tempora with
                         | t0 :: _ => String.eqb (id b) (id t0)
                         | [] => false
                         end
                   then Ok (Some ([Some a], [], []))
                   else Ok (Some ([Some a], [Some b], []))).
  { unfold rule_precedence.
    destruct (Nat.eqb_spec (length observances) 0); [lia|].
    destruct (Nat.eqb_spec (length observances) 1); [lia|].
    rewrite Htake, match_single. by destruct tempora. }
  split_and!; try done.
  - intros o Ho. rewrite Hperm in Ho.
    apply elem_of_cons in Ho as [->|Ho].
    { by destruct (by_precedence_total a a). }
    apply elem_of_cons in Ho as [->|Ho]; [done|].
    rewrite Forall_forall in Ha. by apply Ha.
  - intros [Hsun|(t0 & ts & -> & Hid)]; rewrite Hrun.
    + by rewrite Hsun.
    + rewrite (proj2 (String.eqb_eq _ _) Hid). by rewrite orb_true_r.
  - intros Hsun Htemp. rewrite Hrun, Hsun. simpl.
    destruct tempora as [|t0 ts]; [done|].
    destruct (String.eqb_spec (id b) (id t0)) as [Hid|]; [|done].
    by destruct (Htemp t0 ts eq_refl).
Qed.

(** A date without candidates: on a Saturday the chain builds the office of
    the Blessed Virgin, with no commemoration; on any other day the outcome is
    empty, whatever the calendar holds. *)
Theorem no_candidates calendar d tempora lang :
  (weekday d <> 5 -> resolve calendar d tempora [] lang = Ok (Some ([], [], [])))
  /\ (weekday d = 5 ->
      resolve calendar d tempora [] lang
      = match _calc_proper_for_given_period calendar d tempora with
        | Ok proper => Ok (Some ([Some (new_Observance proper d lang)], [], []))
        | Raise e => Raise e
        | OutOfFuel => OutOfFuel
        end).
Proof.
  assert (Hhead : resolve calendar d tempora [] lang
                  = match rule_bmv_office_on_saturday calendar d tempora [] lang with
                    | Ok None => rule_precedence calendar d tempora [] lang
                    | res => res
                    end).
  { unfold resolve, rules. simpl.
    unfold rule_nativity_has_multiple_masses, rule_all_souls, rule_nativity_vigil,
      rule_immaculate_coneption, rule_st_matthias, rule_feb27,
      rule_shift_conflicting_1st_class_feasts, rule_lord_feast1, rule_lord_feast2,
      first_class_feast_no_commemoration, rule_2nd_class_sunday, rule_1st_class_feria,
      rule_2nd_class_feast_takes_over_advent_feria_and_ember_days.
    simpl. done. }
  rewrite Hhead. split.
  - intros Hday. unfold rule_bmv_office_on_saturday.
    by destruct (Z.eqb_spec (weekday d) 5).
  - intros Hsat. rewrite bmv_office_run by (done || constructor).
    by destruct (_calc_proper_for_given_period calendar d tempora).
Qed.

(** The masses of the Nativity and of All Souls are candidates of the 1st
    class that fall on one date, yet the collision rule never shifts them: the
    two rules that keep them come first.  With a candidate of the first mass
    of the Nativity the chain returns the masses of the Nativity; failing
    that, with a candidate of the first mass of All Souls, it returns the
    outcome of the All Souls rule. *)
Theorem masses_come_first calendar d tempora observances lang :
  (truthy (match_ observances [Id SANCTI_12_25_1]) = true ->
   resolve calendar d tempora observances lang
   = Ok (Some (Some <$> filter (fun ld => startswith (id ld) "sancti:12-25m") observances,
               [], [])))
  /\ (truthy (match_ observances [Id SANCTI_12_25_1]) = false ->
      truthy (match_ observances [Id SANCTI_11_02_1]) = true ->
      resolve calendar d tempora observances lang
      = if weekday d =? 6
        then Ok (Some ([match_ observances [PATTERN_TEMPORA_SUNDAY]], [],
                       [(Some (Date (year d) 11 3),
                         Some <$> filter (fun ld => startswith (id ld) "sancti:11-02m")
                                         observances)]))
        else Ok (Some (Some <$> filter (fun ld => startswith (id ld) "sancti:11-02m")
                                       observances, [], []))).
Proof.
  split.
  - intros Hnat. unfold resolve, rules. simpl.
    unfold rule_nativity_has_multiple_masses. by rewrite Hnat.
  - intros Hnat Hsouls. unfold resolve, rules. simpl.
    unfold rule_nativity_has_multiple_masses, rule_all_souls. rewrite Hnat, Hsouls.
    by destruct (weekday d =? 6).
Qed.

(** On a Sunday without masses of the Nativity or of All Souls, the vigil of
    the Nativity, or failing it the Immaculate Conception, is the only
    celebration the chain returns: the Sunday is not commemorated and nothing
    is shifted, whatever else falls on the date. *)
Theorem sunday_vigil_and_conception calendar d tempora observances lang :
  weekday d = 6 ->
  truthy (match_ observances [Id SANCTI_12_25_1]) = false ->
  truthy (match_ observances [Id SANCTI_11_02_1]) = false ->
  (forall vigil, match_ observances [Id SANCTI_12_24] = Some vigil ->
     resolve calendar d tempora observances lang = Ok (Some ([Some vigil], [], []))
     /\ vigil ∈ observances /\ id vigil = SANCTI_12_24)
  /\ (match_ observances [Id SANCTI_12_24] = None ->
      forall feast, match_ observances [Id SANCTI_12_08] = Some feast ->
        resolve calendar d tempora observances lang = Ok (Some ([Some feast], [], []))
        /\ feast ∈ observances /\ id feast = SANCTI_12_08).
Proof.
  intros Hsun Hnat Hsouls. split.
  - intros vigil Hv. split.
    + unfold resolve, rules. simpl.
      unfold rule_nativity_has_multiple_masses, rule_all_souls, rule_nativity_vigil.
      by rewrite Hnat, Hsouls, Hv, Hsun.
    + apply match_Some in Hv as [? Hid]. by apply satisfies_Id in Hid.
  - intros Hv feast Hf. split.
    + unfold resolve, rules. simpl.
      unfold rule_nativity_has_multiple_masses, rule_all_souls, rule_nativity_vigil,
        rule_immaculate_coneption.
      by rewrite Hnat, Hsouls, Hv, Hf, Hsun.
    + apply match_Some in Hf as [? Hid]. by apply satisfies_Id in Hid.
Qed.

(** Which rule of the chain decides a date does not depend on the order of
    the candidates. *)
Lemma decider_congruence (rs : list rule) calendar d tempora observances observances' lang :
  (forall r, r ∈ rs ->
     r calendar d tempora observances lang = Ok None
     <-> r calendar d tempora observances' lang = Ok None) ->
  decider rs calendar d tempora observances lang
  = decider rs calendar d tempora observances' lang.
Proof.
  induction rs as [|r rs IH]; intros Hrs; simpl; [done|].
  assert (Hr := Hrs r (list_elem_of_here _ _)).
  rewrite IH by (intros r' Hr'; apply Hrs; by right).
  destruct (r calendar d tempora observances lang) as [[?|]| |] eqn:H1;
    destruct (r calendar d tempora observances' lang) as [[?|]| |] eqn:H2;
    try done; (by destruct Hr as [Hr1 Hr2]; first [specialize (Hr1 eq_refl)
                                                  | specialize (Hr2 eq_refl)]).
Qed.

Theorem decider_order_irrelevant calendar d tempora observances observances' lang :
  observances ≡ₚ observances' ->
  decider rules calendar d tempora observances lang
  = decider rules calendar d tempora observances' lang.
Proof.
  intros Hp. apply decider_congruence. intros r Hr. unfold rules in Hr.
  assert (Hp' : observances' ≡ₚ observances) by done.
  repeat (apply elem_of_cons in Hr as [->|Hr]); [..|by apply elem_of_nil in Hr];
    try (split;
         first [ by apply idle_nativity | by apply idle_all_souls
               | by apply idle_nativity_vigil | by apply idle_immaculate_coneption
               | by apply idle_st_matthias | by apply idle_feb27
               | by apply idle_shift_conflicting
               | by apply idle_lord_feast1 | by apply idle_lord_feast2
               | by apply idle_first_class_feast | by apply idle_2nd_class_sunday
               | by apply idle_1st_class_feria | by apply idle_2nd_class_feast
               | by apply idle_bmv_office ]).
  destruct (rule_precedence_total calendar d tempora observances lang) as [? ->].
  destruct (rule_precedence_total calendar d tempora observances' lang) as [? ->].
  done.
Qed.

End Default.

(** *** The default rule and the head of the chain on concrete days *)

(** Monday, January 21st 2019: St Agnes is celebrated; the feria, being the
    temporal entry of the day, is not commemorated. *)
Lemma default_rule_outcome_witness :
  rule_precedence (K := common) [] jan21_2019 [jan21_feria] [jan21_feria; st_agnes] "en"
  = Ok (Some ([Some st_agnes], [], []))
  /\ rule_precedence (K := common) [] jan21_2019 [] [jan21_feria; st_agnes] "en"
     = Ok (Some ([Some st_agnes], [Some jan21_feria], []))
  /\ exists first second rest,
       [jan21_feria; st_agnes] ≡ₚ first :: second :: rest
       /\ (forall o, o ∈ [jan21_feria; st_agnes] -> by_precedence first o = true)
       /\ Forall (fun o => by_precedence second o = true) rest
       /\ ((satisfies first (PATTERN_TEMPORA_SUNDAY (Constants := common)) = true
            \/ exists t0 ts, [jan21_feria] = t0 :: ts /\ id second = id t0) ->
           rule_precedence (K := common) [] jan21_2019 [jan21_feria]
             [jan21_feria; st_agnes] "en"
           = Ok (Some ([Some first], [], [])))
       /\ (satisfies first (PATTERN_TEMPORA_SUNDAY (Constants := common)) = false ->
           (forall t0 ts, [jan21_feria] = t0 :: ts -> id second <> id t0) ->
           rule_precedence (K := common) [] jan21_2019 [jan21_feria]
             [jan21_feria; st_agnes] "en"
           = Ok (Some ([Some first], [Some second], []))).
Proof.
  split; [reflexivity|]. split; [reflexivity|].
  apply (default_rule_outcome (K := common) [] jan21_2019 [jan21_feria]
           [jan21_feria; st_agnes] "en").
  vm_compute. lia.
Defined.

(** A Saturday of Advent and a Wednesday without candidates. *)
Lemma no_candidates_witness :
  resolve (K := common) [] christmas_2019 [] [] "en" = Ok (Some ([], [], []))
  /\ resolve (K := common) [] dec7_2019 [advent_feria] [] "en"
     = match _calc_proper_for_given_period (K := common) [] dec7_2019 [advent_feria] with
       | Ok proper =>
           Ok (Some ([Some (new_Observance (K := common) proper dec7_2019 "en")], [], []))
       | Raise e => Raise e
       | OutOfFuel => OutOfFuel
       end.
Proof.
  split.
  - apply (no_candidates (K := common) [] christmas_2019 [] "en"). by vm_compute.
  - apply (no_candidates (K := common) [] dec7_2019 [advent_feria] "en"). reflexivity.
Defined.

(** Christmas Day 2019: three candidates of the 1st class, none shifted. *)
Lemma masses_come_first_witness :
  (1 < length (first_class christmas_masses))%nat
  /\ resolve (K := common) [] christmas_2019 [] christmas_masses "en"
     = Ok (Some (Some <$> filter (fun ld => startswith (id ld) "sancti:12-25m")
                                 christmas_masses, [], [])).
Proof.
  split; [vm_compute; lia|].
  apply (masses_come_first (K := common) [] christmas_2019 [] christmas_masses "en").
  reflexivity.
Defined.

(** Sunday, December 24th 2017: the vigil, with no commemoration of the 4th
    Sunday of Advent. *)
Lemma sunday_vigil_and_conception_witness :
  resolve (K := common) [] dec24_2017 [advent4_sunday]
    [advent4_sunday; nativity_vigil] "en"
  = Ok (Some ([Some nativity_vigil], [], []))
  /\ nativity_vigil ∈ [advent4_sunday; nativity_vigil]
  /\ id nativity_vigil = SANCTI_12_24 (Constants := common).
Proof.
  apply (sunday_vigil_and_conception (K := common) [] dec24_2017 [advent4_sunday]
           [advent4_sunday; nativity_vigil] "en"); reflexivity.
Defined.

(** Saturday, January 19th 2019: the Saturday rule, the fourteenth of the
    chain, decides in both orders of the candidates. *)
Lemma decider_order_irrelevant_witness :
  decider (rules (K := common)) [] jan19_2019 [jan19_feria]
    [jan19_feria; ss_marius; st_canute] "en" = Some 13%nat
  /\ decider (rules (K := common)) [] jan19_2019 [jan19_feria]
       [jan19_feria; ss_marius; st_canute] "en"
     = decider (rules (K := common)) [] jan19_2019 [jan19_feria]
         [jan19_feria; st_canute; ss_marius] "en".
Proof.
  split; [reflexivity|].
  apply (decider_order_irrelevant (K := common) [] jan19_2019 [jan19_feria]).
  apply Permutation_skip, Permutation_swap.
Defined.

(** ** A shifted feast on its target date *)

Lemma free_day_ranks (dy : Day) :
  free_day dy = true <-> forall o, o ∈ all dy -> rank o <> 1 /\ rank o <> 2.
Proof.
  unfold free_day. cbv zeta. rewrite bool_decide_eq_true.
  assert (Hmem : forall r, r ∈ ({[1; 2]} : gset Z) <-> r = 1 \/ r = 2).
  { intros r. by rewrite elem_of_union, !elem_of_singleton. }
  split.
  - intros Hfree o Ho.
    assert (Hr : rank o ∈ (list_to_set (rank <$> all dy) : gset Z)).
    { apply elem_of_list_to_set, list_elem_of_fmap. eauto. }
    assert (Hout : ~ (rank o = 1 \/ rank o = 2)); [|tauto].
    intros Heq. apply Hmem in Heq.
    assert (Hboth : rank o ∈ ({[1; 2]} : gset Z) ∩ list_to_set (rank <$> all dy))
      by (by apply elem_of_intersection).
    rewrite Hfree in Hboth. by apply not_elem_of_empty in Hboth.
  - intros Hall. apply set_eq. intros r.
    rewrite elem_of_intersection, elem_of_list_to_set, list_elem_of_fmap, Hmem.
    split.
    + intros [Hr (o & -> & Ho)]. destruct (Hall o Ho). tauto.
    + intros Hr. by apply not_elem_of_empty in Hr.
Qed.

Section Settle.
Context {K : Constants}.
Implicit Types (calendar : Calendar) (d : date) (tempora observances : list Observance).
Implicit Types (lang : string).

(** The feasts moved by the leap-year rules and by the All Souls rule are not
    moved again on the date they were moved to: on February 25th and 28th the
    leap-year rules do not fire, and on the November 3rd that follows a Sunday
    the All Souls rule celebrates the masses and shifts nothing. *)
Theorem fixed_shifts_settle calendar (y : Z) tempora observances lang :
  rule_st_matthias calendar (Date y 2 25) tempora observances lang = Ok None
  /\ rule_feb27 calendar (Date y 2 28) tempora observances lang = Ok None
  /\ (valid (Date y 11 2) -> weekday (Date y 11 2) = 6 ->
      truthy (match_ observances [Id SANCTI_11_02_1]) = true ->
      rule_all_souls calendar (Date y 11 3) tempora observances lang
      = Ok (Some (Some <$> filter (fun ld => startswith (id ld) "sancti:11-02m")
                                  observances, [], []))).
Proof.
  split_and!.
  - unfold rule_st_matthias. simpl. by rewrite andb_false_r.
  - unfold rule_feb27. simpl. by rewrite andb_false_r.
  - intros Hv Hsun Hsouls. unfold rule_all_souls. rewrite Hsouls. cbv zeta.
    assert (Hmon : weekday (Date y 11 3) = 0).
    { rewrite (weekday_add_day (Date y 11 2) (Date y 11 3)); [by rewrite Hsun|done|].
      unfold add_day, days_in_month. simpl. done. }
    by rewrite Hmon.
Qed.

(** A feast of the 1st class moved to a free date does not collide there:
    with the candidates of a Day that holds none of the 1st or 2nd class and
    one more candidate, the collision rule does not fire. *)
Theorem collision_settles calendar d tempora lang (dy : Day) (shifted : Observance) :
  free_day dy = true ->
  rule_shift_conflicting_1st_class_feasts calendar d tempora (all dy ++ [shifted]) lang
  = Ok None.
Proof.
  intros Hfree. apply shift_conflicting_idle.
  assert (Hnone : first_class (all dy) = []).
  { unfold first_class.
    destruct (filter (fun ld => rank ld =? 1) (all dy)) as [|o rest] eqn:Hf; [done|].
    assert (Ho : o ∈ filter (fun ld => rank ld =? 1) (all dy)) by (rewrite Hf; left).
    apply list_elem_of_filter in Ho as [Hr Ho].
    apply Is_true_true, Z.eqb_eq in Hr.
    by destruct (proj1 (free_day_ranks dy) Hfree o Ho). }
  unfold first_class in *. rewrite filter_app, Hnone. simpl.
  rewrite filter_cons. case_decide; simpl; lia.
Qed.

End Settle.

(** The year 2025, when November 2nd is a Sunday. *)
Lemma fixed_shifts_settle_witness :
  rule_all_souls (K := common) [] (Date 2025 11 3) [] [all_souls_mass nov2_2025] "en"
  = Ok (Some ([Some (all_souls_mass nov2_2025)], [], []))
  /\ rule_st_matthias (K := common) [] (Date 2025 2 25) [] [all_souls_mass nov2_2025] "en"
     = Ok None
  /\ rule_feb27 (K := common) [] (Date 2025 2 28) [] [all_souls_mass nov2_2025] "en"
     = Ok None
  /\ (valid (Date 2025 11 2) -> weekday (Date 2025 11 2) = 6 ->
      truthy (match_ [all_souls_mass nov2_2025] [Id (SANCTI_11_02_1 (Constants := common))])
      = true ->
      rule_all_souls (K := common) [] (Date 2025 11 3) [] [all_souls_mass nov2_2025] "en"
      = Ok (Some (Some <$> filter (fun ld => startswith (id ld) "sancti:11-02m")
                                  [all_souls_mass nov2_2025], [], []))).
Proof.
  split; [reflexivity|].
  apply (fixed_shifts_settle (K := common) [] 2025 [] [all_souls_mass nov2_2025] "en").
Defined.

(** The Annunciation, moved to Monday, April 4th 2016. *)
Lemma collision_settles_witness :
  get_day easter_2016 (Date 2016 4 4)
  = Some {| tempora := [obs "tempora:Pasc1-1:4" 20 (Date 2016 4 4)];
            all := [obs "tempora:Pasc1-1:4" 20 (Date 2016 4 4);
                    obs "sancti:04-04:3" 14 (Date 2016 4 4)] |}
  /\ rule_shift_conflicting_1st_class_feasts easter_2016 (Date 2016 4 4)
       [obs "tempora:Pasc1-1:4" 20 (Date 2016 4 4)]
       (all {| tempora := [obs "tempora:Pasc1-1:4" 20 (Date 2016 4 4)];
               all := [obs "tempora:Pasc1-1:4" 20 (Date 2016 4 4);
                       obs "sancti:04-04:3" 14 (Date 2016 4 4)] |} ++ [annunciation])
       "en"
     = Ok None.
Proof.
  split; [reflexivity|].
  apply (collision_settles easter_2016 (Date 2016 4 4)
           [obs "tempora:Pasc1-1:4" 20 (Date 2016 4 4)] "en").
  reflexivity.
Defined.
